(** * torchrec.sparse.jagged_tensor: a shallow embedding

    The development follows [torchrec/sparse/jagged_tensor.py].  Python
    integers are [Z], Python lists are [list], one-dimensional tensors are
    a record of a dtype, a device and the list of their elements, optional
    arguments are [option], dictionaries are [gmap], and every function that
    can raise returns a [result].  Methods that fill a lazy cache of [self]
    return the updated object next to their value.

    Tensor elements are integers: ids, counts and positions are, and the
    module only moves values and weights around (slices, gathers,
    concatenation) and compares them; floating-point entries that are not
    integers, NaN among them, are outside the model.  Element arithmetic
    inside tensors is exact: counts and positions are taken to fit the
    integer type of the tensor that holds them.  The tensors of one object
    live on one device; an operation on tensors of different devices, which
    PyTorch refuses, is outside the model, and statements that join the
    tensors of several objects ask for one device. *)

From Stdlib Require Import ZArith QArith Floats Lia.
From stdpp Require Import gmap strings list.

Set Warnings "-inexact-float".
Local Open Scope Z_scope.

(** ** Python runtime: exceptions, lists, slices *)

Inductive exn : Set :=
  | AssertionError | ValueError | IndexError | KeyError
  | RuntimeError | ZeroDivisionError | TypeError | OverflowError.

Inductive result (A : Type) : Type :=
  | Ok (a : A)
  | Raise (e : exn).
Arguments Ok {A} a.
Arguments Raise {A} e.

Definition bind {A B} (m : result A) (k : A -> result B) : result B :=
  match m with
  | Ok a => k a
  | Raise e => Raise e
  end.

Notation "'let*' x ':=' m 'in' k" := (bind m (fun x => k))
  (at level 10, x pattern, m at level 200, k at level 200).

Definition py_assert (b : bool) : result unit :=
  if b then Ok tt else Raise AssertionError.

(** [o is not None] *)
Definition is_some {A} (o : option A) : bool :=
  match o with Some _ => true | None => false end.

Definition is_ok {A} (r : result A) : bool :=
  match r with Ok _ => true | Raise _ => false end.

Fixpoint mapM {A B} (f : A -> result B) (l : list A) : result (list B) :=
  match l with
  | [] => Ok []
  | x :: l' =>
      let* y := f x in
      let* ys := mapM f l' in
      Ok (y :: ys)
  end.

(** [sum(l)] *)
Definition zsum (l : list Z) : Z := foldr Z.add 0 l.

(** [len(l)] *)
Definition py_len {A} (l : list A) : Z := Z.of_nat (length l).

(** [l[i]]: a negative index counts from the end, anything outside the
    list raises [IndexError]. *)
Definition py_index {A} (l : list A) (i : Z) : result A :=
  let j := if i <? 0 then i + py_len l else i in
  if j <? 0 then Raise IndexError
  else match l !! Z.to_nat j with
       | Some x => Ok x
       | None => Raise IndexError
       end.

(** How a slice bound is brought into [[0, n]]. *)
Definition slice_bound (n i : Z) : Z :=
  if i <? 0 then Z.max (i + n) 0 else Z.min i n.

(** [l[a:b]] *)
Definition py_slice {A} (l : list A) (a b : Z) : list A :=
  let lo := slice_bound (py_len l) a in
  let hi := slice_bound (py_len l) b in
  take (Z.to_nat (hi - lo)) (drop (Z.to_nat lo) l).

(** [l[a:]] and [l[:b]] *)
Definition py_slice_from {A} (l : list A) (a : Z) : list A :=
  drop (Z.to_nat (slice_bound (py_len l) a)) l.
Definition py_slice_to {A} (l : list A) (b : Z) : list A :=
  take (Z.to_nat (slice_bound (py_len l) b)) l.

(** Consecutive blocks of the given sizes, as [torch.split] and the block
    primitives cut a flat buffer. *)
Fixpoint chunks {A} (sizes : list nat) (l : list A) : list (list A) :=
  match sizes with
  | [] => []
  | k :: sizes' => take k l :: chunks sizes' (drop k l)
  end.

(** ** Tensors *)

Inductive dtype : Set :=
  | int64 | int32 | int16 | int8 | uint8 | float16 | float32 | float64 | bool_.

Inductive torch_device : Set := cpu | cuda.

Record Tensor : Set := mkTensor {
  t_dtype : dtype;
  t_device : torch_device;
  data : list Z
}.

(** A two-dimensional view: the rows of a contiguous buffer. *)
Record Tensor2 : Set := mkTensor2 {
  t2_dtype : dtype;
  t2_device : torch_device;
  rows : list (list Z)
}.


Definition numel (t : Tensor) : Z := py_len (data t).

Definition with_data (t : Tensor) (d : list Z) : Tensor :=
  mkTensor (t_dtype t) (t_device t) d.

(** [t[a:b]], [t[a:]], [t[:b]] *)
Definition t_slice (t : Tensor) (a b : Z) : Tensor := with_data t (py_slice (data t) a b).
Definition t_slice_from (t : Tensor) (a : Z) : Tensor := with_data t (py_slice_from (data t) a).
Definition t_slice_to (t : Tensor) (b : Z) : Tensor := with_data t (py_slice_to (data t) b).

(** [a - b] on tensors of one size (the only use in the source). *)
Definition t_sub (a b : Tensor) : Tensor := with_data a (zip_with Z.sub (data a) (data b)).

(** [torch.diff(t)] on a one-dimensional tensor. *)
Definition torch_diff (t : Tensor) : Tensor :=
  t_sub (t_slice_from t 1) (t_slice_to t (-1)).

(** [torch.tensor(l, dtype=dt, device=dev)] *)
Definition torch_tensor (l : list Z) (dt : dtype) (dev : torch_device) : Tensor := mkTensor dt dev l.

(** [torch.tensor(l)] of a list of Python integers: on the CPU, of dtype
    [int64], or of the default float dtype when the list is empty. *)
Definition torch_tensor_of_ints (l : list Z) : Tensor :=
  torch_tensor l (match l with [] => float32 | _ => int64 end) cpu.

(** [torch.empty(0, dtype=dt, device=dev)], of the default float type when
    no dtype is given. *)
Definition torch_empty (dt : option dtype) (dev : torch_device) : Tensor :=
  mkTensor (default float32 dt) dev [].

(** [torch.cat(ts, dim=0)] of one-dimensional tensors of one dtype, which
    is the dtype of the result; of the empty list it raises. *)
Definition torch_cat (ts : list Tensor) : result Tensor :=
  match ts with
  | [] => Raise RuntimeError
  | t :: _ => Ok (with_data t (concat (map data ts)))
  end.

(** [r] rows of [c] elements each, read off a contiguous buffer. *)
Definition view2d (r c : nat) (d : list Z) : list (list Z) := chunks (repeat c r) d.

(** [t.view(-1, c)]: the number of rows is inferred.  Shape inference
    refuses [c <= 0] (for [c = 0] the inferred size is ambiguous or the
    shape is invalid) and sizes [c] does not divide. *)
Definition view_rows (t : Tensor) (c : Z) : result Tensor2 :=
  if c <=? 0 then Raise RuntimeError
  else if negb (numel t mod c =? 0) then Raise RuntimeError
  else Ok (mkTensor2 (t_dtype t) (t_device t)
             (view2d (Z.to_nat (numel t / c)) (Z.to_nat c) (data t))).

(** [t.view(r, -1)]: the number of columns is inferred, under the same
    rules. *)
Definition view_cols (t : Tensor) (r : Z) : result Tensor2 :=
  if r <=? 0 then Raise RuntimeError
  else if negb (numel t mod r =? 0) then Raise RuntimeError
  else Ok (mkTensor2 (t_dtype t) (t_device t)
             (view2d (Z.to_nat r) (Z.to_nat (numel t / r)) (data t))).

(** [t.view(-1)] of a two-dimensional tensor. *)
Definition view_flat (t : Tensor2) : Tensor :=
  mkTensor (t2_dtype t) (t2_device t) (concat (rows t)).

(** [torch.sum(t, dim=1).tolist()] *)
Definition sum_dim1_tolist (t : Tensor2) : list Z := map zsum (rows t).

(** [torch.split(t, sizes)]: the sizes must be non-negative and add up to
    the size of [t]. *)
Definition torch_split (t : Tensor) (sizes : list Z) : result (list Tensor) :=
  if forallb (fun s => 0 <=? s) sizes && (zsum sizes =? numel t)
  then Ok (map (with_data t) (chunks (map Z.to_nat sizes) (data t)))
  else Raise RuntimeError.



(** [t[i].item()] for an integer [i] *)
Definition t_item (t : Tensor) (i : Z) : result Z := py_index (data t) i.

(** [t[l]] for a list [l] of integers: the entries at those positions. *)
Definition t_index_list (t : Tensor) (l : list Z) : result Tensor :=
  let* d := mapM (py_index (data t)) l in Ok (with_data t d).

(** [range(n)] *)
Definition py_range (n : Z) : list Z := map Z.of_nat (seq 0 (Z.to_nat n)).

(** [torch.IntTensor(l)] *)
Definition torch_IntTensor (l : list Z) : Tensor := mkTensor int32 cpu l.

(** [torch.max(t).item()], which refuses a tensor without elements. *)
Definition torch_max (t : Tensor) : result Z :=
  match data t with
  | [] => Raise RuntimeError
  | x :: xs => Ok (foldl Z.max x xs)
  end.

(** [torch.unbind(t, dim=0)] of a two-dimensional tensor: its rows. *)
Definition unbind (t : Tensor2) : list Tensor :=
  map (mkTensor (t2_dtype t) (t2_device t)) (rows t).


(** [t.view(r, c).T.tolist()] for [0 <= c]: the shape is checked against
    the number of elements ([r = -1] is inferred), and entry [w] of row [k]
    of the result is element [w * c + k] of the buffer. *)
Definition view_transposed_tolist (t : Tensor) (r c : Z) : result (list (list Z)) :=
  let* nr :=
    if r =? -1 then
      if c =? 0 then Raise RuntimeError
      else if negb (numel t mod c =? 0) then Raise RuntimeError
      else Ok (numel t / c)
    else if r <? 0 then Raise RuntimeError
    else if negb (r * c =? numel t) then Raise RuntimeError
    else Ok r in
  Ok (map (fun k => map (fun w => nth (w * Z.to_nat c + k) (data t) 0)
                      (seq 0 (Z.to_nat nr)))
        (seq 0 (Z.to_nat c))).

(** [l[j::step]] for [0 <= j]. *)
Definition py_slice_step {A} (d : A) (l : list A) (j step : Z) : result (list A) :=
  if step =? 0 then Raise ValueError
  else if 0 <? step then
    Ok (map (fun m => nth (Z.to_nat j + m * Z.to_nat step) l d)
          (seq 0 (Z.to_nat ((py_len l - j + step - 1) / step))))
  else
    let start := Z.min j (py_len l - 1) in
    Ok (map (fun m => nth (Z.to_nat start - m * Z.to_nat (- step)) l d)
          (seq 0 (Z.to_nat ((start - step) / (- step))))).

(** ** The fbgemm primitives the module calls *)

Module fbgemm.

Fixpoint cumsum_from (acc : Z) (o : list Z) : list Z :=
  match o with
  | [] => []
  | x :: o' => (acc + x) :: cumsum_from (acc + x) o'
  end.

(** [asynchronous_complete_cumsum(t)]: the running sums with a leading
    zero, one entry more than [t]. *)
Definition asynchronous_complete_cumsum (t : Tensor) : Tensor :=
  with_data t (0 :: cumsum_from 0 (data t)).

(** [segment_sum_csr(1, offsets, values)]: the sum of
    [values[offsets[i]:offsets[i+1]]] for every pair of neighbours. *)
Definition segment_sum_csr (offsets values : Tensor) : Tensor :=
  with_data values
    (zip_with (fun a b => zsum (py_slice (data values) a b))
       (data offsets) (drop 1 (data offsets))).

(** The block of index [i], or a failure when [i] names no block: the
    primitives take indices in range only. *)
Definition block {A} (blocks : list A) (i : Z) : result A :=
  if i <? 0 then Raise RuntimeError
  else match blocks !! Z.to_nat i with
       | Some b => Ok b
       | None => Raise RuntimeError
       end.

Definition gather {A} (blocks : list A) (permute : list Z) : result (list A) :=
  mapM (block blocks) permute.

Definition gather_opt (sizes : list Z) (permute : list Z) (w : option Tensor)
  : result (option Tensor) :=
  match w with
  | None => Ok None
  | Some w =>
      let* bs := gather (chunks (map Z.to_nat sizes) (data w)) permute in
      Ok (Some (with_data w (concat bs)))
  end.

(** [permute_1D_sparse_data(permute, lengths, values, weights, None)]:
    [lengths] gives the size of each block of [values]; the blocks are
    gathered in the order of [permute]. *)
Definition permute_1D_sparse_data (permute lengths values : Tensor) (weights : option Tensor)
  : result (Tensor * Tensor * option Tensor) :=
  let* pl := gather (data lengths) (data permute) in
  let* pv := gather (chunks (map Z.to_nat (data lengths)) (data values)) (data permute) in
  let* pw := gather_opt (data lengths) (data permute) weights in
  Ok (with_data lengths pl, with_data values (concat pv), pw).

(** [keyed_jagged_index_select_dim1(values, lengths, offsets, indices,
    batch_size, weights)] with one row per block: the same gather, the
    values first and the weights third. *)
Definition keyed_jagged_index_select_dim1
    (values lengths offsets indices : Tensor) (batch_size : Z) (weights : option Tensor)
  : result (Tensor * Tensor * option Tensor) :=
  let* pl := gather (data lengths) (data indices) in
  let* pv := gather (chunks (map Z.to_nat (data lengths)) (data values)) (data indices) in
  let* pw := gather_opt (data lengths) (data indices) weights in
  Ok (with_data values (concat pv), with_data lengths pl, pw).

(** [permute_2D_sparse_data(permute, lengths, values, weights,
    permuted_lengths_sum)]: [lengths] has one row per key; the rows are
    gathered, and with them the block of [values] each row spans.  The
    last argument is the size of the output, known to the caller. *)
Definition permute_2D_sparse_data
    (permute : Tensor) (lengths : Tensor2) (values : Tensor)
    (weights : option Tensor) (permuted_lengths_sum : Z)
  : result (Tensor2 * Tensor * option Tensor) :=
  let sizes := map zsum (rows lengths) in
  let* pl := gather (rows lengths) (data permute) in
  let* pv := gather (chunks (map Z.to_nat sizes) (data values)) (data permute) in
  let* pw := gather_opt sizes (data permute) weights in
  Ok (mkTensor2 (t2_dtype lengths) (t2_device lengths) pl,
      with_data values (concat pv), pw).

(** [jagged_to_padded_dense(values, [offsets], [N], padding_value)] with
    one jagged dimension: one row for every pair of neighbouring offsets,
    holding the first [N] values the pair spans and [padding_value] after
    them.  The primitive takes offsets with at least one entry and a width
    that is not negative. *)
Definition jagged_to_padded_dense (values offsets : Tensor) (N : Z) (padding_value : Z)
  : result Tensor2 :=
  if (numel offsets =? 0) || (N <? 0) then Raise RuntimeError
  else
    Ok (mkTensor2 (t_dtype values) (t_device values)
          (zip_with
             (fun a b =>
                let row := take (Z.to_nat N) (py_slice (data values) a b) in
                row ++ repeat padding_value (Z.to_nat N - length row))
             (data offsets) (drop 1 (data offsets)))).

End fbgemm.

(** ** Module-level helpers of jagged_tensor.py *)

Definition _pin_and_move (tensor : Tensor) (dev : torch_device) : Tensor :=
  match dev with
  | cpu => tensor
  | cuda => mkTensor (t_dtype tensor) dev (data tensor)
  end.

Definition _cumsum (o : list Z) : list Z := 0 :: fbgemm.cumsum_from 0 o.

Definition _to_offsets (lengths : Tensor) : Tensor :=
  fbgemm.asynchronous_complete_cumsum lengths.

Definition _to_lengths (offsets : Tensor) : Tensor :=
  t_sub (t_slice_from offsets 1) (t_slice_to offsets (-1)).

(** Row by row, the running sums with a leading zero. *)
Definition _batched_lengths_to_offsets (lengths : Tensor2) : Tensor2 :=
  mkTensor2 (t2_dtype lengths) (t2_device lengths)
    (map (fun r => 0 :: fbgemm.cumsum_from 0 r) (rows lengths)).

Definition _maybe_compute_lengths (lengths offsets : option Tensor) : result Tensor :=
  match lengths with
  | None =>
      match offsets with
      | None => Raise AssertionError
      | Some offsets => Ok (_to_lengths offsets)
      end
  | Some lengths => Ok lengths
  end.

Definition _maybe_compute_offsets (lengths offsets : option Tensor) : result Tensor :=
  match offsets with
  | None =>
      match lengths with
      | None => Raise AssertionError
      | Some lengths => Ok (_to_offsets lengths)
      end
  | Some offsets => Ok offsets
  end.

Definition _get_weights_or_throw (weights : option Tensor) : result Tensor :=
  match weights with
  | None => Raise AssertionError
  | Some w => Ok w
  end.

Definition _assert_offsets_or_lengths_is_provided (offsets lengths : option Tensor)
  : result unit :=
  py_assert (is_some offsets || is_some lengths).

Definition _assert_tensor_has_no_elements_or_has_integers (tensor : Tensor) : result unit :=
  py_assert ((numel tensor =? 0)
             || match t_dtype tensor with
                | int64 | int32 | int16 | int8 | uint8 => true
                | _ => false
                end).

(** [enumerate(l)] *)
Fixpoint enumerate_from {A} (i : Z) (l : list A) : list (Z * A) :=
  match l with
  | [] => []
  | x :: l' => (i, x) :: enumerate_from (i + 1) l'
  end.
Definition enumerate {A} (l : list A) : list (Z * A) := enumerate_from 0 l.

(** The dict comprehension [{key: i for i, key in enumerate(keys)}] stores
    the pairs in order, a later one replacing an earlier one of the same
    key. *)
Definition _maybe_compute_index_per_key
    (keys : list string) (index_per_key : option (gmap string Z)) : gmap string Z :=
  match index_per_key with
  | None => foldl (fun d ik => <[ik.2 := ik.1]> d) (∅ : gmap string Z) (enumerate keys)
  | Some d => d
  end.

Definition _maybe_compute_stride_kjt
    (keys : list string) (stride : option Z) (lengths offsets : option Tensor) : Z :=
  match stride with
  | None =>
      if py_len keys =? 0 then 0
      else match offsets with
           | Some o =>
               if 0 <? numel o then (numel o - 1) / py_len keys
               else match lengths with
                    | Some l => numel l / py_len keys
                    | None => 0
                    end
           | None =>
               match lengths with
               | Some l => numel l / py_len keys
               | None => 0
               end
           end
  | Some stride => stride
  end.

(** *** Python floats

    A Python float is a binary64 number.  [float(z)] rounds to nearest;
    [a / b] on integers is their quotient as a float, which for operands
    below [2^53] is the binary64 quotient of the two conversions; [x ** 2]
    is taken as the correctly rounded square; [int(x)] truncates toward
    zero and refuses what is not finite. *)

Definition float_of_int (z : Z) : float :=
  SF2Prim (binary_normalize prec emax z 0 false).

Definition py_truediv (a b : Z) : result float :=
  if b =? 0 then Raise ZeroDivisionError
  else Ok (float_of_int a / float_of_int b)%float.

Definition int_of_float (x : float) : result Z :=
  match Prim2SF x with
  | S754_zero _ => Ok 0
  | S754_finite s m e =>
      let mag := if 0 <=? e then Z.pos m * 2 ^ e else Z.pos m / 2 ^ (- e) in
      Ok (if s then - mag else mag)
  | S754_infinity _ => Raise OverflowError
  | S754_nan => Raise ValueError
  end.

Definition segment_threshold (elements_per_segment : float) : float :=
  (1.39771
   + 0.0000312222 * elements_per_segment
   + 1.63949e-10 * (elements_per_segment * elements_per_segment))%float.

Definition _use_segment_sum_csr (stride_per_key : list Z) : result bool :=
  let* elements_per_segment := py_truediv (zsum stride_per_key) (py_len stride_per_key) in
  let* segment_threshold := int_of_float (segment_threshold elements_per_segment) in
  Ok (segment_threshold <=? py_len stride_per_key).

(** The two ways of summing the blocks of [lengths]. *)
Definition segment_sum_csr_path (lengths : Tensor) (stride_per_key : list Z) : list Z :=
  let stride_per_key_offsets :=
    _to_offsets (_pin_and_move (torch_tensor stride_per_key int32 cpu) (t_device lengths)) in
  data (fbgemm.segment_sum_csr stride_per_key_offsets lengths).

Definition split_sum_path (lengths : Tensor) (stride_per_key : list Z) : result (list Z) :=
  let* blocks := torch_split lengths stride_per_key in
  Ok (map (fun chunk => zsum (data chunk)) blocks).

Definition _length_per_key_from_stride_per_key
    (lengths : Tensor) (stride_per_key : list Z) : result (list Z) :=
  let* use := _use_segment_sum_csr stride_per_key in
  if use then Ok (segment_sum_csr_path lengths stride_per_key)
  else split_sum_path lengths stride_per_key.

Definition _maybe_compute_length_per_key
    (keys : list string) (stride : Z) (stride_per_key : list Z)
    (variable_stride_per_key : bool) (length_per_key : option (list Z))
    (lengths offsets : option Tensor) : result (list Z) :=
  match length_per_key with
  | Some length_per_key => Ok length_per_key
  | None =>
      let from_lengths :=
        match lengths with
        | Some lengths =>
            if negb (py_len keys =? 0) then
              if variable_stride_per_key
              then _length_per_key_from_stride_per_key lengths stride_per_key
              else if negb (numel lengths =? 0)
                   then let* v := view_rows lengths stride in Ok (sum_dim1_tolist v)
                   else Ok (repeat 0 (length keys))
            else Ok []
        | None => Ok []
        end in
      match offsets with
      | Some offsets =>
          if negb (py_len keys =? 0) && (0 <? numel offsets) then
            if variable_stride_per_key
            then _length_per_key_from_stride_per_key (torch_diff offsets) stride_per_key
            else let* v := view_rows (torch_diff offsets) stride in Ok (sum_dim1_tolist v)
          else from_lengths
      | None => from_lengths
      end
  end.

Definition _maybe_compute_offset_per_key
    (keys : list string) (stride : Z) (stride_per_key : list Z)
    (variable_stride_per_key : bool) (length_per_key offset_per_key : option (list Z))
    (lengths offsets : option Tensor) : result (list Z * list Z) :=
  match length_per_key with
  | None =>
      let* _length_per_key :=
        _maybe_compute_length_per_key keys stride stride_per_key
          variable_stride_per_key length_per_key lengths offsets in
      Ok (_length_per_key, _cumsum _length_per_key)
  | Some length_per_key =>
      match offset_per_key with
      | None => Ok (length_per_key, _cumsum length_per_key)
      | Some offset_per_key => Ok (length_per_key, offset_per_key)
      end
  end.







(** ** class JaggedTensor *)

Module JaggedTensor.

Record t : Type := mk {
  _values : Tensor;
  _weights : option Tensor;
  _lengths : option Tensor;
  _offsets : option Tensor
}.

Definition __init__ (values : Tensor) (weights lengths offsets : option Tensor)
  : result t :=
  let* _ := _assert_offsets_or_lengths_is_provided offsets lengths in
  let* _ := match offsets with
            | Some o => _assert_tensor_has_no_elements_or_has_integers o
            | None => Ok tt
            end in
  let* _ := match lengths with
            | Some l => _assert_tensor_has_no_elements_or_has_integers l
            | None => Ok tt
            end in
  Ok (mk values weights lengths offsets).

Definition lengths (self : t) : result (Tensor * t) :=
  let* _lengths := _maybe_compute_lengths (_lengths self) (_offsets self) in
  Ok (_lengths, mk (_values self) (_weights self) (Some _lengths) (_offsets self)).

Definition lengths_or_none (self : t) : option Tensor := _lengths self.

Definition offsets (self : t) : result (Tensor * t) :=
  let* _offsets := _maybe_compute_offsets (_lengths self) (_offsets self) in
  Ok (_offsets, mk (_values self) (_weights self) (_lengths self) (Some _offsets)).

Definition offsets_or_none (self : t) : option Tensor := _offsets self.

Definition values (self : t) : Tensor := _values self.

Definition weights (self : t) : result Tensor := _get_weights_or_throw (_weights self).

Definition weights_or_none (self : t) : option Tensor := _weights self.

Definition empty (is_weighted : bool) (dev : torch_device)
    (values_dtype weights_dtype : option dtype) (lengths_dtype : dtype) : result t :=
  let weights := if is_weighted then Some (torch_empty weights_dtype dev) else None in
  __init__ (torch_empty values_dtype dev) weights
    (Some (torch_empty (Some lengths_dtype) dev))
    (Some (torch_empty (Some lengths_dtype) dev)).




Definition from_dense (values : list Tensor) (weights : option (list Tensor)) : result t :=
  let lengths := torch_IntTensor (map numel values) in
  let* values_tensor := torch_cat values in
  let* weights_tensor :=
    match weights with
    | Some ws => let* w := torch_cat ws in Ok (Some w)
    | None => Ok None
    end in
  __init__ values_tensor weights_tensor (Some lengths) None.

(** The body of [for index in range(self.offsets().size(0) - 1)] of
    [to_dense] and [to_dense_weights]; [sliced] is the tensor cut. *)
Fixpoint to_dense_loop (sliced : t -> result Tensor) (self : t) (indices : list Z)
  : result (list Tensor * t) :=
  match indices with
  | [] => Ok ([], self)
  | index :: indices' =>
      let* r := offsets self in
      let '(o, self) := r in
      let* offset := t_item o index in
      let* r := offsets self in
      let '(o, self) := r in
      let* next_offset := t_item o (index + 1) in
      let* x := sliced self in
      let* rest := to_dense_loop sliced self indices' in
      Ok (t_slice x offset next_offset :: rest.1, rest.2)
  end.

Definition to_dense (self : t) : result (list Tensor * t) :=
  let* r := offsets self in
  let '(o, self) := r in
  to_dense_loop (fun self => Ok (values self)) self (py_range (numel o - 1)).



Definition to_padded_dense_weights (self : t) (desired_length : option Z)
    (padding_value : Z) : result (option Tensor2 * t) :=
  match weights_or_none self with
  | None => Ok (None, self)
  | Some _ =>
      let* r :=
        match desired_length with
        | None =>
            let* r := lengths self in
            let* N := torch_max r.1 in
            Ok (N, r.2)
        | Some N => Ok (N, self)
        end in
      let '(N, self) := r in
      let* w := weights self in
      let* r := offsets self in
      let '(o, self) := r in
      let* d := fbgemm.jagged_to_padded_dense w o N padding_value in
      Ok (Some d, self)
  end.

End JaggedTensor.

(** ** Helpers between the two classes *)

(** The two loops [for idx, key in enumerate(keys)] of
    [_maybe_compute_kjt_to_jt_dict], which differ in the weights only. *)
Fixpoint jt_dict_loop (items : list (Z * string)) (values_list : list Tensor)
    (weights_list : option (list Tensor)) (split_lengths split_offsets : list Tensor)
    (_jt_dict : gmap string JaggedTensor.t) : result (gmap string JaggedTensor.t) :=
  match items with
  | [] => Ok _jt_dict
  | (idx, key) :: items' =>
      let* length := py_index split_lengths idx in
      let* offset := py_index split_offsets idx in
      let* v := py_index values_list idx in
      let* w :=
        match weights_list with
        | Some wl => let* w := py_index wl idx in Ok (Some w)
        | None => Ok None
        end in
      let* jt := JaggedTensor.__init__ v w (Some length) (Some offset) in
      jt_dict_loop items' values_list weights_list split_lengths split_offsets
        (<[key := jt]> _jt_dict)
  end.

Definition _maybe_compute_kjt_to_jt_dict
    (stride : Z) (stride_per_key : list Z) (keys : list string)
    (length_per_key : list Z) (values lengths : Tensor)
    (variable_stride_per_key : bool) (weights : option Tensor)
    (jt_dict : option (gmap string JaggedTensor.t))
  : result (gmap string JaggedTensor.t) :=
  match length_per_key with
  | [] => Ok ∅
  | _ =>
      match jt_dict with
      | Some jt_dict => Ok jt_dict
      | None =>
          let* values_list := torch_split values length_per_key in
          let* ls :=
            if variable_stride_per_key then
              let* split_lengths := torch_split lengths stride_per_key in
              Ok (split_lengths, map fbgemm.asynchronous_complete_cumsum split_lengths)
            else
              let* split_lengths :=
                if negb (numel lengths =? 0)
                then let* v := view_rows lengths stride in Ok (unbind v)
                else Ok [] in
              let* split_offsets :=
                if negb (numel lengths =? 0)
                then let* v := view_rows lengths stride in
                     Ok (unbind (_batched_lengths_to_offsets v))
                else Ok [] in
              Ok (split_lengths, split_offsets) in
          let* weights_list :=
            match weights with
            | Some w => let* wl := torch_split w length_per_key in Ok (Some wl)
            | None => Ok None
            end in
          jt_dict_loop (enumerate keys) values_list weights_list ls.1 ls.2 ∅
      end
  end.

Definition _sum_by_splits (input_list splits : list Z) : list Z :=
  map (fun '(i, n) =>
         zsum (py_slice input_list (zsum (py_slice_to splits i))
                 (zsum (py_slice_to splits i) + n)))
    (enumerate splits).

(** ** class KeyedJaggedTensor *)

Module KeyedJaggedTensor.

Record t : Type := mk {
  _keys : list string;
  _values : Tensor;
  _weights : option Tensor;
  _lengths : option Tensor;
  _offsets : option Tensor;
  _stride_per_key_per_rank : list (list Z);
  _stride_per_key : list Z;
  _variable_stride_per_key : bool;
  _stride : Z;
  _length_per_key : option (list Z);
  _offset_per_key : option (list Z);
  _index_per_key : option (gmap string Z);
  _jt_dict : option (gmap string JaggedTensor.t);
  _inverse_indices : option (list string * Tensor);
  _lengths_offset_per_key : list Z
}.

(** Assignments to one attribute of [self]. *)
Definition set_lengths (self : t) (v : option Tensor) : t :=
  mk (_keys self) (_values self) (_weights self) v (_offsets self)
     (_stride_per_key_per_rank self) (_stride_per_key self)
     (_variable_stride_per_key self) (_stride self) (_length_per_key self)
     (_offset_per_key self) (_index_per_key self) (_jt_dict self)
     (_inverse_indices self) (_lengths_offset_per_key self).

Definition set_offsets (self : t) (v : option Tensor) : t :=
  mk (_keys self) (_values self) (_weights self) (_lengths self) v
     (_stride_per_key_per_rank self) (_stride_per_key self)
     (_variable_stride_per_key self) (_stride self) (_length_per_key self)
     (_offset_per_key self) (_index_per_key self) (_jt_dict self)
     (_inverse_indices self) (_lengths_offset_per_key self).

Definition set_length_per_key (self : t) (v : option (list Z)) : t :=
  mk (_keys self) (_values self) (_weights self) (_lengths self) (_offsets self)
     (_stride_per_key_per_rank self) (_stride_per_key self)
     (_variable_stride_per_key self) (_stride self) v
     (_offset_per_key self) (_index_per_key self) (_jt_dict self)
     (_inverse_indices self) (_lengths_offset_per_key self).

Definition set_offset_per_key (self : t) (v : option (list Z)) : t :=
  mk (_keys self) (_values self) (_weights self) (_lengths self) (_offsets self)
     (_stride_per_key_per_rank self) (_stride_per_key self)
     (_variable_stride_per_key self) (_stride self) (_length_per_key self)
     v (_index_per_key self) (_jt_dict self)
     (_inverse_indices self) (_lengths_offset_per_key self).

Definition set_index_per_key (self : t) (v : option (gmap string Z)) : t :=
  mk (_keys self) (_values self) (_weights self) (_lengths self) (_offsets self)
     (_stride_per_key_per_rank self) (_stride_per_key self)
     (_variable_stride_per_key self) (_stride self) (_length_per_key self)
     (_offset_per_key self) v (_jt_dict self)
     (_inverse_indices self) (_lengths_offset_per_key self).

Definition set_lengths_offset_per_key (self : t) (v : list Z) : t :=
  mk (_keys self) (_values self) (_weights self) (_lengths self) (_offsets self)
     (_stride_per_key_per_rank self) (_stride_per_key self)
     (_variable_stride_per_key self) (_stride self) (_length_per_key self)
     (_offset_per_key self) (_index_per_key self) (_jt_dict self)
     (_inverse_indices self) v.

Definition set_jt_dict (self : t) (v : option (gmap string JaggedTensor.t)) : t :=
  mk (_keys self) (_values self) (_weights self) (_lengths self) (_offsets self)
     (_stride_per_key_per_rank self) (_stride_per_key self)
     (_variable_stride_per_key self) (_stride self) (_length_per_key self)
     (_offset_per_key self) (_index_per_key self) v
     (_inverse_indices self) (_lengths_offset_per_key self).

Definition __init__
    (keys : list string) (values : Tensor) (weights lengths offsets : option Tensor)
    (stride : option Z) (stride_per_key_per_rank : option (list (list Z)))
    (length_per_key offset_per_key : option (list Z))
    (index_per_key : option (gmap string Z))
    (jt_dict : option (gmap string JaggedTensor.t))
    (inverse_indices : option (list string * Tensor)) : result t :=
  let* _ := match offsets with
            | Some o => _assert_tensor_has_no_elements_or_has_integers o
            | None => Ok tt
            end in
  let* _ := match lengths with
            | Some l => _assert_tensor_has_no_elements_or_has_integers l
            | None => Ok tt
            end in
  let* sm :=
    match stride_per_key_per_rank with
    | Some stride_per_key_per_rank =>
        match stride with
        | Some _ => Raise ValueError
        | None =>
            let stride_per_key := map zsum stride_per_key_per_rank in
            let _stride :=
              match stride_per_key with
              | [] => 0
              | s0 :: _ =>
                  if forallb (fun s => s =? s0) stride_per_key then s0 else -1
              end in
            Ok (stride_per_key_per_rank, stride_per_key, true, _stride)
        end
    | None =>
        let stride := _maybe_compute_stride_kjt keys stride lengths offsets in
        let stride_per_key_per_rank := repeat [stride] (length keys) in
        Ok (stride_per_key_per_rank, map zsum stride_per_key_per_rank, false, stride)
    end in
  let '(sppr, spk, variable, _stride) := sm in
  Ok (mk keys values weights lengths offsets sppr spk variable _stride
         length_per_key offset_per_key index_per_key jt_dict inverse_indices []).

Definition device (self : t) : torch_device := t_device (_values self).

Definition lengths (self : t) : result (Tensor * t) :=
  let* _lengths := _maybe_compute_lengths (_lengths self) (_offsets self) in
  Ok (_lengths, set_lengths self (Some _lengths)).

Definition lengths_or_none (self : t) : option Tensor := _lengths self.

Definition offsets (self : t) : result (Tensor * t) :=
  let* _offsets := _maybe_compute_offsets (_lengths self) (_offsets self) in
  Ok (_offsets, set_offsets self (Some _offsets)).

Definition offsets_or_none (self : t) : option Tensor := _offsets self.

Definition keys (self : t) : list string := _keys self.
Definition values (self : t) : Tensor := _values self.
Definition weights (self : t) : result Tensor := _get_weights_or_throw (_weights self).
Definition weights_or_none (self : t) : option Tensor := _weights self.
Definition stride (self : t) : Z := _stride self.
Definition stride_per_key (self : t) : list Z := _stride_per_key self.
Definition stride_per_key_per_rank (self : t) : list (list Z) := _stride_per_key_per_rank self.
Definition variable_stride_per_key (self : t) : bool := _variable_stride_per_key self.
Definition inverse_indices_or_none (self : t) : option (list string * Tensor) :=
  _inverse_indices self.

Definition _key_indices (self : t) : gmap string Z * t :=
  let _index_per_key := _maybe_compute_index_per_key (_keys self) (_index_per_key self) in
  (_index_per_key, set_index_per_key self (Some _index_per_key)).

Definition length_per_key (self : t) : result (list Z * t) :=
  let* _length_per_key :=
    _maybe_compute_length_per_key (_keys self) (stride self) (stride_per_key self)
      (variable_stride_per_key self) (_length_per_key self)
      (_lengths self) (_offsets self) in
  Ok (_length_per_key, set_length_per_key self (Some _length_per_key)).

Definition length_per_key_or_none (self : t) : option (list Z) := _length_per_key self.

Definition offset_per_key (self : t) : result (list Z * t) :=
  let* lo :=
    _maybe_compute_offset_per_key (_keys self) (stride self) (stride_per_key self)
      (variable_stride_per_key self) (_length_per_key self) (_offset_per_key self)
      (_lengths self) (_offsets self) in
  let '(_length_per_key, _offset_per_key) := lo in
  Ok (_offset_per_key,
      set_offset_per_key (set_length_per_key self (Some _length_per_key))
        (Some _offset_per_key)).

Definition offset_per_key_or_none (self : t) : option (list Z) := _offset_per_key self.

Definition lengths_offset_per_key (self : t) : list Z * t :=
  match _lengths_offset_per_key self with
  | [] =>
      let v := _cumsum (stride_per_key self) in
      (v, set_lengths_offset_per_key self v)
  | v => (v, self)
  end.

Definition sync (self : t) : result t :=
  let* r := length_per_key self in
  let* r := offset_per_key r.2 in
  Ok r.2.


Definition empty (is_weighted : bool) (dev : torch_device)
    (values_dtype weights_dtype : option dtype) (lengths_dtype : dtype) : result t :=
  let weights := if is_weighted then Some (torch_empty weights_dtype dev) else None in
  __init__ [] (torch_empty values_dtype dev) weights
    (Some (torch_empty (Some lengths_dtype) dev)) None (Some 0) None
    None None None None None.

(** *** split *)

(** The body of [for segment in segments]; [start] and [start_offset] are
    the loop variables, [self] is threaded through because [lengths()]
    and [lengths_offset_per_key()] fill caches. *)
Fixpoint split_loop (self : t) (_length_per_key' _offset_per_key' : list Z)
    (start start_offset : Z) (segments : list Z) : result (list t * t) :=
  match segments with
  | [] => Ok ([], self)
  | segment :: segments' =>
      let end_ := start + segment in
      let* end_offset := py_index _offset_per_key' end_ in
      let keys := py_slice (_keys self) start end_ in
      let '(stride, stride_per_key_per_rank) :=
        if variable_stride_per_key self
        then (None, Some (py_slice (stride_per_key_per_rank self) start end_))
        else (Some (_stride self), None) in
      let* ps :=
        if segment =? py_len (_keys self) then
          let* piece :=
            __init__ (_keys self) (_values self) (weights_or_none self)
              (_lengths self) (_offsets self) stride stride_per_key_per_rank
              (_length_per_key self) (_offset_per_key self) (_index_per_key self)
              (_jt_dict self) None in
          Ok (piece, self)
        else if segment =? 0 then
          let* w :=
            match weights_or_none self with
            | None => Ok None
            | Some _ =>
                let* w := weights self in
                Ok (Some (torch_tensor [] (t_dtype w) (device self)))
            end in
          let* piece :=
            __init__ keys (torch_tensor [] (t_dtype (_values self)) (device self)) w
              (Some (torch_tensor [] int32 (device self)))
              (Some (torch_tensor [] int32 (device self)))
              stride stride_per_key_per_rank None None None None None in
          Ok (piece, self)
        else
          let split_length_per_key := py_slice _length_per_key' start end_ in
          let* w :=
            match weights_or_none self with
            | None => Ok None
            | Some _ =>
                let* w := weights self in
                Ok (Some (t_slice w start_offset end_offset))
            end in
          let* ls := lengths self in
          let '(l, self) := ls in
          let '(lo, self) := lengths_offset_per_key self in
          let* lo_start := py_index lo start in
          let '(lo, self) := lengths_offset_per_key self in
          let* lo_end := py_index lo end_ in
          let* piece :=
            __init__ keys (t_slice (_values self) start_offset end_offset) w
              (Some (t_slice l lo_start lo_end)) None
              stride stride_per_key_per_rank (Some split_length_per_key)
              None None None None in
          Ok (piece, self) in
      let '(piece, self) := ps in
      let* rest := split_loop self _length_per_key' _offset_per_key' end_ end_offset segments' in
      Ok (piece :: rest.1, rest.2)
  end.

Definition split (self : t) (segments : list Z) : result (list t * t) :=
  let* r := length_per_key self in
  let '(_length_per_key', self) := r in
  let* r := offset_per_key self in
  let '(_offset_per_key', self) := r in
  split_loop self _length_per_key' _offset_per_key' 0 0 segments.

(** *** permute *)

Definition _permute_tensor_by_segments
    (tensor segment_sizes recat : Tensor) (weights : option Tensor)
  : result (Tensor * option Tensor) :=
  match t_device tensor with
  | cuda =>
      let* output :=
        fbgemm.keyed_jagged_index_select_dim1 tensor segment_sizes
          (_to_offsets segment_sizes) recat (numel segment_sizes) weights in
      let '(permuted_tensor, _, output2) := output in
      Ok (permuted_tensor, match weights with None => None | Some _ => output2 end)
  | cpu =>
      let* output := fbgemm.permute_1D_sparse_data recat segment_sizes tensor weights in
      let '(_, permuted_tensor, permuted_weights) := output in
      Ok (permuted_tensor, permuted_weights)
  end.

Definition permute (self : t) (indices : list Z) (indices_tensor : option Tensor)
    (include_inverse_indices : bool) : result (t * t) :=
  let indices_tensor :=
    match indices_tensor with
    | None => torch_tensor indices int32 (device self)
    | Some it => it
    end in
  let* r := length_per_key self in
  let '(length_per_key0, self) := r in
  let* picked :=
    mapM (fun index =>
            let* key := py_index (keys self) index in
            let* spr := py_index (stride_per_key_per_rank self) index in
            let* lpk := py_index length_per_key0 index in
            Ok (key, spr, lpk)) indices in
  let permuted_keys := map (fun x => x.1.1) picked in
  let permuted_stride_per_key_per_rank := map (fun x => x.1.2) picked in
  let permuted_length_per_key := map (fun x => x.2) picked in
  let permuted_lengths_sum := zsum permuted_length_per_key in
  let* r :=
    if variable_stride_per_key self then
      let* r := length_per_key self in
      let '(lpk, self) := r in
      let length_per_key_tensor := _pin_and_move (torch_tensor_of_ints lpk) (device self) in
      let stride_per_key_tensor :=
        _pin_and_move (torch_tensor_of_ints (stride_per_key self)) (device self) in
      let* r := lengths self in
      let '(l, self) := r in
      let* pl := _permute_tensor_by_segments l stride_per_key_tensor indices_tensor None in
      let* pv := _permute_tensor_by_segments (values self) length_per_key_tensor
                   indices_tensor (weights_or_none self) in
      Ok (pl.1, pv.1, pv.2, self)
    else
      let* r := lengths self in
      let '(l, self) := r in
      let* l2 := view_cols l (py_len (_keys self)) in
      let* out := fbgemm.permute_2D_sparse_data indices_tensor l2 (values self)
                    (weights_or_none self) permuted_lengths_sum in
      let '(permuted_lengths, permuted_values, permuted_weights) := out in
      Ok (view_flat permuted_lengths, permuted_values, permuted_weights, self) in
  let '(permuted_lengths, permuted_values, permuted_weights, self) := r in
  let '(stride, optional_permuted_stride_per_key_per_rank) :=
    if variable_stride_per_key self
    then (None, Some permuted_stride_per_key_per_rank)
    else (Some (_stride self), None) in
  let* kjt :=
    __init__ permuted_keys permuted_values permuted_weights (Some permuted_lengths) None
      stride optional_permuted_stride_per_key_per_rank
      (if 0 <? py_len permuted_keys then Some permuted_length_per_key else None)
      None None None
      (if include_inverse_indices then inverse_indices_or_none self else None) in
  Ok (kjt, self).

(** *** concat *)

Record concat_state : Type := mk_concat_state {
  has_length_per_key : bool;
  c_length_per_key : list Z;
  c_keys : list string;
  value_list : list Tensor;
  weight_list : list Tensor;
  length_list : list Tensor;
  c_stride_per_key_per_rank : list (list Z);
  c_stride : option Z
}.

(** The body of [for kjt in kjt_list].  The batches of the list are read
    through their accessors; what [lengths()] caches in them does not
    reach the result. *)
Fixpoint concat_loop (is_weighted variable : bool) (st : concat_state)
    (kjt_list : list t) : result concat_state :=
  match kjt_list with
  | [] => Ok st
  | kjt :: kjt_list' =>
      let curr_is_weighted := is_some (weights_or_none kjt) in
      if negb (eqb is_weighted curr_is_weighted) then Raise ValueError
      else
        let has := match _length_per_key kjt with
                   | None => false
                   | Some _ => has_length_per_key st
                   end in
        let lpk := match _length_per_key kjt with
                   | Some l => if has then c_length_per_key st ++ l else c_length_per_key st
                   | None => c_length_per_key st
                   end in
        let* wl := if is_weighted
                   then let* w := weights kjt in Ok (weight_list st ++ [w])
                   else Ok (weight_list st) in
        let* r := lengths kjt in
        let* sp :=
          if variable
          then Ok (c_stride_per_key_per_rank st ++ stride_per_key_per_rank kjt, c_stride st)
          else match c_stride st with
               | None => Ok (c_stride_per_key_per_rank st, Some (stride kjt))
               | Some s0 =>
                   let* _ := py_assert (s0 =? stride kjt) in
                   Ok (c_stride_per_key_per_rank st, Some s0)
               end in
        concat_loop is_weighted variable
          (mk_concat_state has lpk (c_keys st ++ keys kjt)
             (value_list st ++ [values kjt]) wl (length_list st ++ [r.1]) sp.1 sp.2)
          kjt_list'
  end.

Definition concat (kjt_list : list t) : result t :=
  match kjt_list with
  | [] => Raise ValueError
  | kjt0 :: _ =>
      let is_weighted := is_some (weights_or_none kjt0) in
      let variable_stride_per_key_list := map variable_stride_per_key kjt_list in
      let* _ := py_assert (forallb id variable_stride_per_key_list
                           || negb (existsb id variable_stride_per_key_list)) in
      let variable := forallb id variable_stride_per_key_list in
      let* st := concat_loop is_weighted variable
                   (mk_concat_state true [] [] [] [] [] [] None) kjt_list in
      let* v := torch_cat (value_list st) in
      let* w := if is_weighted
                then let* w := torch_cat (weight_list st) in Ok (Some w)
                else Ok None in
      let* l := torch_cat (length_list st) in
      __init__ (c_keys st) v w (Some l) None (c_stride st)
        (if variable then Some (c_stride_per_key_per_rank st) else None)
        (if has_length_per_key st then Some (c_length_per_key st) else None)
        None None None None
  end.

(** *** __getitem__ *)

Definition __getitem__ (self : t) (key : string) : result (JaggedTensor.t * t) :=
  let* r := offset_per_key self in
  let '(offset_per_key0, self) := r in
  let '(ipk, self) := _key_indices self in
  let* index := match ipk !! key with
                | Some i => Ok i
                | None => Raise KeyError
                end in
  let* start_offset := py_index offset_per_key0 index in
  let* end_offset :=
    if index + 1 <? py_len offset_per_key0
    then py_index offset_per_key0 (index + 1)
    else Ok start_offset in
  let* w :=
    match weights_or_none self with
    | None => Ok None
    | Some _ =>
        let* w := weights self in
        Ok (Some (t_slice w start_offset end_offset))
    end in
  let* r := lengths self in
  let '(l, self) := r in
  let '(lo, self) := lengths_offset_per_key self in
  let* lo_start := py_index lo index in
  let '(lo, self) := lengths_offset_per_key self in
  let* lo_end := py_index lo (index + 1) in
  let* jt :=
    JaggedTensor.__init__ (t_slice (_values self) start_offset end_offset) w
      (Some (t_slice l lo_start lo_end)) None in
  Ok (jt, self).

(** *** The other constructors *)

Definition from_offsets_sync (keys : list string) (values offsets : Tensor)
    (weights : option Tensor) (stride : option Z)
    (stride_per_key_per_rank : option (list (list Z)))
    (inverse_indices : option (list string * Tensor)) : result t :=
  let* kjt := __init__ keys values weights None (Some offsets) stride
                stride_per_key_per_rank None None None None inverse_indices in
  sync kjt.

Definition from_lengths_sync (keys : list string) (values lengths : Tensor)
    (weights : option Tensor) (stride : option Z)
    (stride_per_key_per_rank : option (list (list Z)))
    (inverse_indices : option (list string * Tensor)) : result t :=
  let* kjt := __init__ keys values weights (Some lengths) None stride
                stride_per_key_per_rank None None None None inverse_indices in
  sync kjt.

(** [empty_like] reads [kjt.lengths()], which fills the cache of [kjt]:
    the updated [kjt] is returned next to the new batch. *)
Definition empty_like (kjt : t) : result (t * t) :=
  let '(stride', stride_per_key_per_rank') :=
    if variable_stride_per_key kjt
    then (None, Some (stride_per_key_per_rank kjt))
    else (Some (stride kjt), None) in
  let* w :=
    match weights_or_none kjt with
    | None => Ok None
    | Some _ =>
        let* w := weights kjt in
        Ok (Some (torch_empty (Some (t_dtype w)) (device kjt)))
    end in
  let* r := lengths kjt in
  let '(l, kjt) := r in
  let* e :=
    __init__ [] (torch_empty (Some (t_dtype (values kjt))) (device kjt)) w
      (Some (torch_empty (Some (t_dtype l)) (device kjt))) None
      stride' stride_per_key_per_rank' None None None None None in
  Ok (e, kjt).



(** *** flatten_lengths, to_dict *)

Definition flatten_lengths (self : t) : result (t * t) :=
  let '(stride', stride_per_key_per_rank') :=
    if variable_stride_per_key self
    then (None, Some (stride_per_key_per_rank self))
    else (Some (_stride self), None) in
  let* r := lengths self in
  let '(l, self) := r in
  let* r := length_per_key self in
  let '(lpk, self) := r in
  let* kjt :=
    __init__ (_keys self) (_values self) (_weights self) (Some l) None
      stride' stride_per_key_per_rank' (Some lpk) None None None None in
  Ok (kjt, self).

Definition to_dict (self : t) : result (gmap string JaggedTensor.t * t) :=
  let* r := length_per_key self in
  let '(lpk, self) := r in
  let* r := lengths self in
  let '(l, self) := r in
  let* _jt_dict :=
    _maybe_compute_kjt_to_jt_dict (stride self) (stride_per_key self) (keys self) lpk
      (values self) l (variable_stride_per_key self) (weights_or_none self)
      (_jt_dict self) in
  Ok (_jt_dict, set_jt_dict self (Some _jt_dict)).

(** *** What is sent to the other ranks *)

Definition dist_labels (self : t) : list string :=
  let labels := ["lengths"; "values"]%string in
  let labels := if variable_stride_per_key self then labels ++ ["strides"%string]
                else labels in
  if is_some (weights_or_none self) then labels ++ ["weights"%string] else labels.

Definition dist_splits (self : t) (key_splits : list Z) : result (list (list Z) * t) :=
  let batch_size_per_split := _sum_by_splits (stride_per_key self) key_splits in
  let* r := length_per_key self in
  let '(lpk, self) := r in
  let length_per_split := _sum_by_splits lpk key_splits in
  let splits := [batch_size_per_split; length_per_split] in
  let splits := if variable_stride_per_key self then splits ++ [key_splits] else splits in
  let splits := if is_some (weights_or_none self) then splits ++ [length_per_split]
                else splits in
  Ok (splits, self).

Definition dist_tensors (self : t) : result (list Tensor * t) :=
  let* r := lengths self in
  let '(l, self) := r in
  let tensors := [l; values self] in
  let tensors :=
    if variable_stride_per_key self
    then tensors ++ [_pin_and_move (torch_tensor_of_ints (stride_per_key self))
                       (device self)]
    else tensors in
  let* tensors :=
    match weights_or_none self with
    | Some _ => let* w := weights self in Ok (tensors ++ [w])
    | None => Ok tensors
    end in
  Ok (tensors, self).

(** The loop [for i in range(len(keys))] of the staggered case. *)
Definition stagger_strides (keys : list string) (stride_per_key_per_rank : list (list Z))
    (local_world_size : Z) : result (list (list Z)) :=
  mapM (fun i =>
          let* parts :=
            mapM (fun j =>
                    let* row := py_index stride_per_key_per_rank i in
                    py_slice_step 0 row j local_world_size)
              (py_range local_world_size) in
          Ok (List.concat parts))
    (py_range (py_len keys)).

Definition dist_init (keys : list string) (tensors : list Tensor)
    (variable_stride_per_key : bool) (num_workers : Z) (recat : option Tensor)
    (stride_per_rank : option (list Z)) (stagger : Z) : result t :=
  let n := py_len tensors in
  let* _ := py_assert ((n =? 2) || (n =? 3) || (n =? 4)) in
  let* lengths := py_index tensors 0 in
  let* values := py_index tensors 1 in
  let* stride_per_rank_per_key :=
    if variable_stride_per_key
    then let* x := py_index tensors 2 in Ok (Some x)
    else Ok None in
  let* weights :=
    if (variable_stride_per_key && (n =? 4))
       || (negb variable_stride_per_key && (n =? 3))
    then let* w := py_index tensors (-1) in Ok (Some w)
    else Ok None in
  let recat_given :=
    match recat with
    | Some recat => 0 <? numel recat
    | None => false
    end in
  if variable_stride_per_key then
    let* stride_per_rank_per_key :=
      match stride_per_rank_per_key with
      | Some x => Ok x
      | None => Raise AssertionError
      end in
    let* stride_per_key_per_rank :=
      view_transposed_tolist stride_per_rank_per_key num_workers (py_len keys) in
    let strides_cumsum :=
      data (fbgemm.asynchronous_complete_cumsum stride_per_rank_per_key) in
    let cumsum_lengths := fbgemm.asynchronous_complete_cumsum lengths in
    let* hi := t_index_list cumsum_lengths (py_slice_from strides_cumsum 1) in
    let* lo := t_index_list cumsum_lengths (py_slice_to strides_cumsum (-1)) in
    let length_per_key := t_sub hi lo in
    let* lvw :=
      match recat with
      | Some recat =>
          if 0 <? numel recat then
            let* pl := _permute_tensor_by_segments lengths stride_per_rank_per_key
                         recat None in
            let* pv := _permute_tensor_by_segments values length_per_key recat weights in
            Ok (pl.1, pv.1, pv.2)
          else Ok (lengths, values, weights)
      | None => Ok (lengths, values, weights)
      end in
    let '(lengths, values, weights) := lvw in
    let stride_per_key_per_rank :=
      match stride_per_key_per_rank with
      | [] => repeat [0] (length keys)
      | _ => stride_per_key_per_rank
      end in
    let* stride_per_key_per_rank :=
      if 1 <? stagger
      then stagger_strides keys stride_per_key_per_rank (num_workers / stagger)
      else Ok stride_per_key_per_rank in
    let* kjt := __init__ keys values weights (Some lengths) None None
                  (Some stride_per_key_per_rank) None None None None None in
    sync kjt
  else
    let* stride_per_rank :=
      match stride_per_rank with
      | Some x => Ok x
      | None => Raise AssertionError
      end in
    let* lvw :=
      match recat with
      | Some recat =>
          if 0 <? numel recat then
            let* stride := py_index stride_per_rank 0 in
            if forallb (fun s => s =? stride) stride_per_rank then
              let* l2 := view_rows lengths stride in
              let* out := fbgemm.permute_2D_sparse_data recat l2 values weights
                            (numel values) in
              let '(permuted_lengths, permuted_values, permuted_weights) := out in
              Ok (view_flat permuted_lengths, permuted_values, permuted_weights)
            else
              let* out := fbgemm.permute_1D_sparse_data recat lengths values weights in
              Ok out
          else Ok (lengths, values, weights)
      | None => Ok (lengths, values, weights)
      end in
    let '(lengths, values, weights) := lvw in
    let* kjt := __init__ keys values weights (Some lengths) None
                  (Some (zsum stride_per_rank)) None None None None None None in
    sync kjt.

End KeyedJaggedTensor.

(** ** Equality of two batches *)







(** * Specification vocabulary *)

Module KJT := KeyedJaggedTensor.

(** The element count of every key: the rows are cut into one block per
    key, of the sizes [stride_per_key], and each block is summed. *)
Definition key_sums (stride_per_key : list Z) (L : list Z) : list Z :=
  map zsum (chunks (map Z.to_nat stride_per_key) L).

(** The row lengths a batch stands for, whichever of the two addressing
    arrays it holds. *)
Definition lengths_of (k : KJT.t) : list Z :=
  match KJT._lengths k with
  | Some l => data l
  | None =>
      match KJT._offsets k with
      | Some o => data (_to_lengths o)
      | None => []
      end
  end.

Definition is_int_dtype (d : dtype) : bool :=
  match d with
  | int64 | int32 | int16 | int8 | uint8 => true
  | _ => false
  end.

(** An addressing array a constructor accepts. *)
Definition addr_ok (o : option Tensor) : bool :=
  match o with
  | None => true
  | Some x => (numel x =? 0) || is_int_dtype (t_dtype x)
  end.

(** The stride [__init__] records for per-rank strides. *)
Definition vbe_stride (stride_per_key : list Z) : Z :=
  match stride_per_key with
  | [] => 0
  | s0 :: _ => if forallb (fun s => s =? s0) stride_per_key then s0 else -1
  end.

(** [pick d bs p]: the entries of [bs] at the positions [p]. *)
Definition pick {A} (d : A) (bs : list A) (p : list nat) : list A :=
  map (fun i => nth i bs d) p.



(** The block sizes and the blocks of a batch, key by key: its rows, its
    values and its weights. *)
Definition spk_nat (k : KJT.t) : list nat := map Z.to_nat (KJT._stride_per_key k).
Definition lpk_nat (k : KJT.t) : list nat :=
  map Z.to_nat (key_sums (KJT._stride_per_key k) (lengths_of k)).
Definition row_blocks (k : KJT.t) : list (list Z) := chunks (spk_nat k) (lengths_of k).
Definition value_blocks (k : KJT.t) : list (list Z) :=
  chunks (lpk_nat k) (data (KJT._values k)).
Definition weight_blocks (k : KJT.t) (w : Tensor) : list (list Z) :=
  chunks (lpk_nat k) (data w).

(** The key windows [split] walks through: a start and a size for every
    segment. *)
Fixpoint windows (start : nat) (segments : list nat) : list (nat * nat) :=
  match segments with
  | [] => []
  | n :: segments' => (start, n) :: windows (start + n) segments'
  end.

(** [sub s n l]: the [n] entries of [l] from position [s] on. *)
Definition sub {A} (s n : nat) (l : list A) : list A := take n (drop s l).

(** * Well-formed batches *)

(** What the class asks of its caller (the docstring: "you should always
    pass in the valid lengths, offsets, etc."): the rows are as many as the
    strides say and hold as many elements as [values]; the stride
    bookkeeping is the one [__init__] sets up; every cache that is filled
    holds what it would be filled with. *)
Record wf (k : KJT.t) : Prop := {
  wf_rows_nonneg : Forall (fun z => 0 <= z) (lengths_of k);
  wf_spk_nonneg : Forall (fun z => 0 <= z) (KJT._stride_per_key k);
  wf_spk : KJT._stride_per_key k = map zsum (KJT._stride_per_key_per_rank k);
  wf_nkeys : length (KJT._stride_per_key_per_rank k) = length (KJT._keys k);
  wf_uniform :
    KJT._variable_stride_per_key k = false ->
    KJT._stride_per_key_per_rank k = repeat [KJT._stride k] (length (KJT._keys k));
  wf_variable :
    KJT._variable_stride_per_key k = true ->
    KJT._stride k = vbe_stride (KJT._stride_per_key k);
  wf_rows : py_len (lengths_of k) = zsum (KJT._stride_per_key k);
  wf_values : zsum (lengths_of k) = numel (KJT._values k);
  wf_weights : forall w, KJT._weights k = Some w -> numel w = numel (KJT._values k);
  wf_addr : is_some (KJT._lengths k) || is_some (KJT._offsets k) = true;
  wf_lengths_dtype :
    forall l, KJT._lengths k = Some l -> is_int_dtype (t_dtype l) = true;
  wf_offsets_dtype :
    forall o, KJT._offsets k = Some o -> is_int_dtype (t_dtype o) = true;
  wf_offsets : forall o, KJT._offsets k = Some o -> data o = _cumsum (lengths_of k);
  wf_length_per_key :
    forall l, KJT._length_per_key k = Some l ->
              l = key_sums (KJT._stride_per_key k) (lengths_of k);
  wf_offset_per_key :
    forall o, KJT._offset_per_key k = Some o ->
              o = _cumsum (key_sums (KJT._stride_per_key k) (lengths_of k));
  wf_lengths_offset_per_key :
    KJT._lengths_offset_per_key k = [] \/
    KJT._lengths_offset_per_key k = _cumsum (KJT._stride_per_key k)
}.

(** The per-key element counts can be computed: they are cached, or there
    is no key, or the rows can be viewed one key per row (a positive
    stride, or no offsets to take the rows from), or, for per-rank
    strides, the cost model of [_use_segment_sum_csr] evaluates. *)
Definition computable (k : KJT.t) : Prop :=
  KJT._length_per_key k <> None \/
  KJT._keys k = [] \/
  (if KJT._variable_stride_per_key k
   then is_ok (_use_segment_sum_csr (KJT._stride_per_key k)) = true
   else 0 < KJT._stride k \/ KJT._offsets k = None).

(** Two objects that differ in their lazy caches only. *)
Record same_batch (k k' : KJT.t) : Prop := {
  sb_keys : KJT._keys k' = KJT._keys k;
  sb_values : KJT._values k' = KJT._values k;
  sb_weights : KJT._weights k' = KJT._weights k;
  sb_sppr : KJT._stride_per_key_per_rank k' = KJT._stride_per_key_per_rank k;
  sb_spk : KJT._stride_per_key k' = KJT._stride_per_key k;
  sb_variable : KJT._variable_stride_per_key k' = KJT._variable_stride_per_key k;
  sb_stride : KJT._stride k' = KJT._stride k;
  sb_rows : lengths_of k' = lengths_of k;
  sb_jt_dict : KJT._jt_dict k' = KJT._jt_dict k;
  sb_inverse_indices : KJT._inverse_indices k' = KJT._inverse_indices k
}.

(** What [sync] leaves behind. *)
Definition synced (k : KJT.t) : KJT.t :=
  let lpk := key_sums (KJT._stride_per_key k) (lengths_of k) in
  KJT.set_offset_per_key (KJT.set_length_per_key k (Some lpk)) (Some (_cumsum lpk)).

(** What [split] makes of one window of keys: the keys, the per-rank
    strides and the blocks of rows, values and weights of that window. *)
Record piece_spec (k : KJT.t) (w : nat * nat) (p : KJT.t) : Prop := {
  ps_wf : wf p;
  ps_keys : KJT._keys p = sub w.1 w.2 (KJT._keys k);
  ps_values : data (KJT._values p) = concat (sub w.1 w.2 (value_blocks k));
  ps_weights :
    data <$> KJT._weights p
    = (fun x => concat (sub w.1 w.2 (weight_blocks k x))) <$> KJT._weights k;
  ps_rows : lengths_of p = concat (sub w.1 w.2 (row_blocks k));
  ps_sppr :
    KJT._stride_per_key_per_rank p = sub w.1 w.2 (KJT._stride_per_key_per_rank k);
  ps_variable : KJT._variable_stride_per_key p = KJT._variable_stride_per_key k;
  ps_stride : KJT._variable_stride_per_key k = false -> KJT._stride p = KJT._stride k
}.

(** The rows [lengths()] returns. *)
Definition lengths_data (k : KJT.t) : result (list Z) :=
  let* r := KJT.lengths k in Ok (data r.1).

(** [wf] as a computation, for concrete batches. *)
Definition wf_b (k : KJT.t) : bool :=
  forallb (fun z => 0 <=? z) (lengths_of k)
  && forallb (fun z => 0 <=? z) (KJT._stride_per_key k)
  && bool_decide (KJT._stride_per_key k = map zsum (KJT._stride_per_key_per_rank k))
  && bool_decide (length (KJT._stride_per_key_per_rank k) = length (KJT._keys k))
  && (KJT._variable_stride_per_key k
      || bool_decide (KJT._stride_per_key_per_rank k
                      = repeat [KJT._stride k] (length (KJT._keys k))))
  && (negb (KJT._variable_stride_per_key k)
      || (KJT._stride k =? vbe_stride (KJT._stride_per_key k)))
  && (py_len (lengths_of k) =? zsum (KJT._stride_per_key k))
  && (zsum (lengths_of k) =? numel (KJT._values k))
  && match KJT._weights k with
     | Some w => numel w =? numel (KJT._values k)
     | None => true
     end
  && (is_some (KJT._lengths k) || is_some (KJT._offsets k))
  && match KJT._lengths k with
     | Some l => is_int_dtype (t_dtype l)
     | None => true
     end
  && match KJT._offsets k with
     | Some o => is_int_dtype (t_dtype o) && bool_decide (data o = _cumsum (lengths_of k))
     | None => true
     end
  && match KJT._length_per_key k with
     | Some l => bool_decide (l = key_sums (KJT._stride_per_key k) (lengths_of k))
     | None => true
     end
  && match KJT._offset_per_key k with
     | Some o =>
         bool_decide (o = _cumsum (key_sums (KJT._stride_per_key k) (lengths_of k)))
     | None => true
     end
  && match KJT._lengths_offset_per_key k with
     | [] => true
     | v => bool_decide (v = _cumsum (KJT._stride_per_key k))
     end.

(** * Concrete batches *)

(** The batch of the class docstring: two keys, three rows each. *)
Definition scenario_values : Tensor := torch_tensor [1; 2; 3; 4; 5; 6; 7; 8] int64 cpu.
Definition scenario_offsets : Tensor := torch_tensor [0; 2; 2; 3; 4; 5; 8] int64 cpu.
Definition scenario_lengths : Tensor := torch_tensor [2; 0; 1; 1; 1; 3] int64 cpu.

Definition scenario : result KJT.t :=
  KJT.__init__ ["F0"; "F1"]%string scenario_values None None (Some scenario_offsets)
    (Some 3) None None None None None None.

Definition scenario_kjt : KJT.t :=
  KJT.mk ["F0"; "F1"]%string scenario_values None None (Some scenario_offsets)
    [[3]; [3]] [3; 3] false 3 None None None None None [].

(** The value of a call that also returns the updated object. *)
Definition value_of {A B} (r : result (A * B)) : result A :=
  let* x := r in Ok x.1.

(** The batch without keys, as [KeyedJaggedTensor.empty()] builds it. *)
Definition empty_kjt : KJT.t :=
  KJT.mk [] (torch_tensor [] float32 cpu) None (Some (torch_tensor [] int32 cpu)) None
    [] [] false 0 None None None None None [].

(** A batch of one key and no row, given by its offsets [[0]], and the
    same batch given by its lengths [[]]. *)
Definition zero_rows_by_offsets : result KJT.t :=
  KJT.__init__ ["F0"]%string (torch_tensor [] int64 cpu) None None
    (Some (torch_tensor [0] int64 cpu)) None None None None None None None.

Definition zero_rows_by_lengths : result KJT.t :=
  KJT.__init__ ["F0"]%string (torch_tensor [] int64 cpu) None
    (Some (torch_tensor [] int64 cpu)) None None None None None None None None.

(** The documented batch with its second key renamed to the first. *)
Definition duplicate_keys_kjt : KJT.t :=
  KJT.mk ["F0"; "F0"]%string scenario_values None None (Some scenario_offsets)
    [[3]; [3]] [3; 3] false 3 None None None None None [].





(** A batch for which [sync] succeeds once both addressing arrays are
    present: it has no key, or a positive stride, or per-rank strides on
    which the cost model evaluates. *)
Definition regular (k : KJT.t) : Prop :=
  KJT.keys k = [] \/
  (if KJT.variable_stride_per_key k
   then is_ok (_use_segment_sum_csr (KJT.stride_per_key k)) = true
   else 0 < KJT.stride k).







(** * Lists, sums and slices *)

Section Lists.
Context {A : Type}.
Implicit Types l : list A.

Lemma py_len_nonneg l : 0 <= py_len l.
Proof. unfold py_len. lia. Qed.

Lemma py_index_nat l (i : nat) x :
  l !! i = Some x -> py_index l (Z.of_nat i) = Ok x.
Proof.
  intros H. unfold py_index.
  destruct (Z.ltb_spec (Z.of_nat i) 0) as [?|_]; [lia|].
  destruct (Z.ltb_spec (Z.of_nat i) 0) as [?|_]; [lia|].
  by rewrite Nat2Z.id, H.
Qed.

Lemma py_index_past l (z : Z) :
  py_len l <= z -> py_index l z = Raise IndexError.
Proof.
  intros H. pose proof (py_len_nonneg l). unfold py_index.
  destruct (Z.ltb_spec z 0) as [?|_]; [lia|].
  destruct (Z.ltb_spec z 0) as [?|_]; [lia|].
  rewrite lookup_ge_None_2; [done|]. unfold py_len in H. lia.
Qed.

Lemma py_slice_nat l (a b : nat) :
  (a <= b)%nat -> py_slice l (Z.of_nat a) (Z.of_nat b) = take (b - a) (drop a l).
Proof.
  intros Hab. unfold py_slice, slice_bound, py_len.
  destruct (Z.ltb_spec (Z.of_nat a) 0) as [?|_]; [lia|].
  destruct (Z.ltb_spec (Z.of_nat b) 0) as [?|_]; [lia|].
  destruct (decide (length l <= a)%nat) as [Hle|Hgt].
  - rewrite !drop_ge by lia. by rewrite !take_nil.
  - replace (Z.to_nat (Z.min (Z.of_nat a) (Z.of_nat (length l)))) with a by lia.
    destruct (decide (b <= length l)%nat).
    + f_equal. lia.
    + rewrite !take_ge; [done| |]; rewrite length_drop; lia.
Qed.

Lemma chunks_length (sizes : list nat) l : length (chunks sizes l) = length sizes.
Proof. revert l. induction sizes as [|k sizes IH]; intros l; simpl; [done|]. by rewrite IH. Qed.

Lemma chunks_app (s1 s2 : list nat) l :
  chunks (s1 ++ s2) l = chunks s1 l ++ chunks s2 (drop (sum_list s1) l).
Proof.
  revert l. induction s1 as [|k s1 IH]; intros l; simpl; [done|].
  rewrite IH, drop_drop. done.
Qed.

Lemma chunks_concat (bs : list (list A)) rest :
  chunks (map length bs) (concat bs ++ rest) = bs.
Proof.
  induction bs as [|b bs IH]; simpl; [done|].
  rewrite <- app_assoc, take_app_length, drop_app_length. by rewrite IH.
Qed.

Lemma chunks_concat' (bs : list (list A)) :
  chunks (map length bs) (concat bs) = bs.
Proof. rewrite <- (app_nil_r (concat bs)). apply chunks_concat. Qed.

Lemma concat_chunks (sizes : list nat) l :
  (sum_list sizes <= length l)%nat -> concat (chunks sizes l) = take (sum_list sizes) l.
Proof.
  revert l. induction sizes as [|k sizes IH]; intros l H; simpl in *.
  - by rewrite take_0.
  - rewrite IH by (rewrite length_drop; lia). by rewrite take_take_drop.
Qed.

Lemma concat_chunks_all (sizes : list nat) l :
  sum_list sizes = length l -> concat (chunks sizes l) = l.
Proof. intros H. rewrite concat_chunks by lia. rewrite H. apply firstn_all. Qed.

Lemma chunks_lengths (sizes : list nat) l :
  (sum_list sizes <= length l)%nat -> map length (chunks sizes l) = sizes.
Proof.
  revert l. induction sizes as [|k sizes IH]; intros l H; simpl in *; [done|].
  rewrite IH by (rewrite length_drop; lia). rewrite length_take. f_equal. lia.
Qed.

Lemma chunks_drop (sizes : list nat) l (s : nat) :
  drop s (chunks sizes l) = chunks (drop s sizes) (drop (sum_list (take s sizes)) l).
Proof.
  revert l s. induction sizes as [|k sizes IH]; intros l s.
  - simpl. by rewrite !drop_nil.
  - destruct s as [|s]; simpl; [done|]. rewrite IH, drop_drop. done.
Qed.

Lemma chunks_take (sizes : list nat) l (s : nat) :
  take s (chunks sizes l) = chunks (take s sizes) l.
Proof.
  revert l s. induction sizes as [|k sizes IH]; intros l s.
  - simpl. by rewrite !take_nil.
  - destruct s as [|s]; simpl; [done|]. by rewrite IH.
Qed.

(** A run of whole blocks is a window of the flat buffer. *)
Lemma concat_block_window (sizes : list nat) l (s n : nat) :
  (sum_list sizes <= length l)%nat ->
  concat (take n (drop s (chunks sizes l)))
  = take (sum_list (take n (drop s sizes))) (drop (sum_list (take s sizes)) l).
Proof.
  intros H. rewrite chunks_drop, chunks_take. apply concat_chunks.
  rewrite length_drop.
  assert (sum_list (take s sizes) + sum_list (drop s sizes) = sum_list sizes)%nat.
  { rewrite <- sum_list_with_app, take_drop. done. }
  assert (sum_list (take n (drop s sizes)) <= sum_list (drop s sizes))%nat.
  { rewrite <- (take_drop n (drop s sizes)) at 2. rewrite sum_list_with_app. lia. }
  lia.
Qed.

End Lists.

Section Sums.
Implicit Types l : list Z.

Lemma zsum_app l1 l2 : zsum (l1 ++ l2) = zsum l1 + zsum l2.
Proof. unfold zsum. induction l1 as [|x l1 IH]; simpl; lia. Qed.

Lemma zsum_nonneg l : Forall (fun z => 0 <= z) l -> 0 <= zsum l.
Proof. unfold zsum. induction 1; simpl; lia. Qed.

Lemma zsum_to_nat l :
  Forall (fun z => 0 <= z) l -> Z.of_nat (sum_list (map Z.to_nat l)) = zsum l.
Proof.
  unfold zsum. induction 1 as [|x l Hx _ IH]; simpl; [done|].
  rewrite Nat2Z.inj_add, IH. unfold id. lia.
Qed.

Lemma zsum_concat (bs : list (list Z)) : zsum (concat bs) = zsum (map zsum bs).
Proof.
  induction bs as [|b bs IH]; simpl; [done|]. rewrite zsum_app, IH. done.
Qed.

Lemma zsum_repeat (x : Z) (n : nat) : zsum (repeat x n) = Z.of_nat n * x.
Proof. unfold zsum. induction n as [|n IH]; simpl; lia. Qed.


Lemma cumsum_from_length acc l : length (fbgemm.cumsum_from acc l) = length l.
Proof. revert acc. induction l as [|x l IH]; intros acc; simpl; [done|]. by rewrite IH. Qed.

Lemma cumsum_from_lookup acc l (i : nat) :
  (i < length l)%nat ->
  fbgemm.cumsum_from acc l !! i = Some (acc + zsum (take (S i) l)).
Proof.
  revert acc i. induction l as [|x l IH]; intros acc i Hi; simpl in *; [lia|].
  destruct i as [|i]; simpl.
  - unfold zsum. simpl. f_equal. lia.
  - rewrite IH by lia. f_equal. unfold zsum. simpl. lia.
Qed.

Lemma _cumsum_length l : length (_cumsum l) = S (length l).
Proof. unfold _cumsum. simpl. by rewrite cumsum_from_length. Qed.

Lemma _cumsum_lookup l (i : nat) :
  (i <= length l)%nat -> _cumsum l !! i = Some (zsum (take i l)).
Proof.
  intros Hi. unfold _cumsum. destruct i as [|i]; simpl.
  - done.
  - rewrite cumsum_from_lookup by lia. done.
Qed.

(** Adjacent differences undo the running sums. *)
Lemma diff_cumsum_from acc l :
  zip_with Z.sub (fbgemm.cumsum_from acc l) (acc :: fbgemm.cumsum_from acc l) = l.
Proof.
  revert acc. induction l as [|x l IH]; intros acc; simpl; [done|].
  rewrite IH. f_equal. lia.
Qed.

Lemma zip_with_sub_shift (c : list Z) (z : Z) :
  zip_with Z.sub c (take (length c) (z :: c)) = zip_with Z.sub c (z :: c).
Proof.
  revert z. induction c as [|x c IH]; intros z; simpl; [done|].
  f_equal. apply IH.
Qed.

Lemma to_lengths_cumsum (o : Tensor) l :
  data o = _cumsum l -> data (_to_lengths o) = l.
Proof.
  intros H. unfold _to_lengths, t_sub, t_slice_from, t_slice_to, py_slice_from, py_slice_to.
  simpl. rewrite H. unfold slice_bound, py_len. rewrite _cumsum_length.
  change (1 <? 0) with false. change (-1 <? 0) with true. cbv iota.
  replace (Z.to_nat (Z.min 1 (Z.of_nat (S (length l))))) with 1%nat by lia.
  replace (Z.to_nat (Z.max (-1 + Z.of_nat (S (length l))) 0)) with (length l) by lia.
  unfold _cumsum. simpl drop.
  rewrite <- (cumsum_from_length 0 l), zip_with_sub_shift.
  apply diff_cumsum_from.
Qed.

Lemma torch_diff_cumsum (o : Tensor) l :
  data o = _cumsum l -> data (torch_diff o) = l.
Proof. apply to_lengths_cumsum. Qed.

Lemma to_offsets_data (x : Tensor) : data (_to_offsets x) = _cumsum (data x).
Proof. done. Qed.

Lemma key_sums_length spk L : length (key_sums spk L) = length spk.
Proof. unfold key_sums. by rewrite length_map, chunks_length, length_map. Qed.

Lemma key_sums_total spk L :
  Forall (fun z => 0 <= z) spk -> py_len L = zsum spk -> zsum (key_sums spk L) = zsum L.
Proof.
  intros Hs HL. unfold key_sums. rewrite <- zsum_concat.
  rewrite concat_chunks_all; [done|].
  apply Nat2Z.inj. rewrite zsum_to_nat by done. unfold py_len in HL. lia.
Qed.

Lemma key_sums_nonneg spk L :
  Forall (fun z => 0 <= z) L -> Forall (fun z => 0 <= z) (key_sums spk L).
Proof.
  intros HL. unfold key_sums. generalize (map Z.to_nat spk). intros sizes.
  revert L HL. induction sizes as [|k sizes IH]; intros L HL; simpl; constructor.
  - apply zsum_nonneg. by apply Forall_take.
  - apply IH. by apply Forall_drop.
Qed.

(** The bulk primitive sums the same blocks as the independent sums. *)
Lemma segment_sums_from (a : nat) spk L :
  Forall (fun z => 0 <= z) spk ->
  zip_with (fun x y => zsum (py_slice L x y))
    (Z.of_nat a :: fbgemm.cumsum_from (Z.of_nat a) spk)
    (fbgemm.cumsum_from (Z.of_nat a) spk)
  = map zsum (chunks (map Z.to_nat spk) (drop a L)).
Proof.
  intros H. revert a. induction H as [|s spk Hs _ IH]; intros a; [done|].
  cbn [fbgemm.cumsum_from map chunks].
  replace (Z.of_nat a + s) with (Z.of_nat (a + Z.to_nat s)) by lia.
  change (zip_with ?f (?x :: ?xs) (?y :: ?ys)) with (f x y :: zip_with f xs ys).
  rewrite IH, py_slice_nat by lia. rewrite drop_drop.
  repeat f_equal. lia.
Qed.

Lemma segment_sum_csr_path_spec (x : Tensor) spk :
  Forall (fun z => 0 <= z) spk ->
  segment_sum_csr_path x spk = key_sums spk (data x).
Proof.
  intros H. unfold segment_sum_csr_path, fbgemm.segment_sum_csr, key_sums.
  assert (E : data (_to_offsets (_pin_and_move (torch_tensor spk int32 cpu) (t_device x)))
              = 0 :: fbgemm.cumsum_from 0 spk) by (by destruct (t_device x)).
  rewrite E. cbn [data with_data drop]. apply (segment_sums_from 0 spk (data x) H).
Qed.

Lemma split_sum_path_spec (x : Tensor) spk :
  Forall (fun z => 0 <= z) spk -> numel x = zsum spk ->
  split_sum_path x spk = Ok (key_sums spk (data x)).
Proof.
  intros H Hn. unfold split_sum_path, torch_split.
  assert (forallb (fun s => 0 <=? s) spk = true) as ->.
  { apply forallb_forall. intros s Hs. rewrite Forall_forall in H.
    apply Z.leb_le, H. by apply list_elem_of_In. }
  rewrite Hn, Z.eqb_refl. simpl. unfold key_sums. by rewrite map_map.
Qed.

Lemma length_per_key_from_stride_per_key_spec (x : Tensor) spk :
  Forall (fun z => 0 <= z) spk -> numel x = zsum spk ->
  is_ok (_use_segment_sum_csr spk) = true ->
  _length_per_key_from_stride_per_key x spk = Ok (key_sums spk (data x)).
Proof.
  intros H Hn Hok. unfold _length_per_key_from_stride_per_key.
  destruct (_use_segment_sum_csr spk) as [[|]|e]; simpl in *; [| |done].
  - by rewrite segment_sum_csr_path_spec.
  - by apply split_sum_path_spec.
Qed.

Lemma view_rows_sums (x : Tensor) (s : Z) (n : nat) :
  0 < s -> numel x = Z.of_nat n * s ->
  (let* v := view_rows x s in Ok (sum_dim1_tolist v)) = Ok (key_sums (repeat s n) (data x)).
Proof.
  intros Hs Hn. unfold view_rows.
  destruct (Z.leb_spec s 0) as [?|_]; [lia|].
  rewrite Hn, Z.mod_mul by lia. simpl.
  rewrite Z.div_mul by lia. unfold sum_dim1_tolist, key_sums, view2d. simpl.
  rewrite Nat2Z.id, map_repeat. done.
Qed.

End Sums.

(** * The lazy accessors on a well-formed batch *)

Section Accessors.
Implicit Types k : KJT.t.

Lemma same_batch_refl k : same_batch k k.
Proof. by constructor. Qed.

Lemma same_batch_trans k1 k2 k3 : same_batch k1 k2 -> same_batch k2 k3 -> same_batch k1 k3.
Proof. intros [] []. constructor; congruence. Qed.

Lemma wf_uniform_spk k :
  wf k -> KJT._variable_stride_per_key k = false ->
  KJT._stride_per_key k = repeat (KJT._stride k) (length (KJT._keys k)).
Proof.
  intros H Hu. rewrite (wf_spk k H), (wf_uniform k H Hu), map_repeat.
  f_equal. unfold zsum. simpl. lia.
Qed.

Lemma wf_spk_length k : wf k -> length (KJT._stride_per_key k) = length (KJT._keys k).
Proof. intros H. rewrite (wf_spk k H), length_map. apply (wf_nkeys k H). Qed.

Lemma wf_uniform_rows k :
  wf k -> KJT._variable_stride_per_key k = false ->
  py_len (lengths_of k) = Z.of_nat (length (KJT._keys k)) * KJT._stride k.
Proof.
  intros H Hu. rewrite (wf_rows k H), (wf_uniform_spk k H Hu). apply zsum_repeat.
Qed.

Lemma wf_uniform_stride_nonneg k :
  wf k -> KJT._variable_stride_per_key k = false -> KJT._keys k <> [] ->
  0 <= KJT._stride k.
Proof.
  intros H Hu Hk. pose proof (wf_spk_nonneg k H) as Hn.
  rewrite (wf_uniform_spk k H Hu) in Hn.
  destruct (KJT._keys k); [done|]. simpl in Hn. by inversion Hn.
Qed.

Lemma key_sums_no_rows (n : nat) : key_sums (repeat 0 n) [] = repeat 0 n.
Proof.
  unfold key_sums. induction n as [|n IH]; simpl; [done|]. by rewrite IH.
Qed.

Lemma maybe_compute_length_per_key_spec k :
  wf k -> computable k ->
  _maybe_compute_length_per_key (KJT._keys k) (KJT.stride k) (KJT.stride_per_key k)
    (KJT.variable_stride_per_key k) (KJT._length_per_key k)
    (KJT._lengths k) (KJT._offsets k)
  = Ok (key_sums (KJT._stride_per_key k) (lengths_of k)).
Proof.
  intros H Hc. unfold _maybe_compute_length_per_key, KJT.stride, KJT.stride_per_key,
    KJT.variable_stride_per_key.
  destruct (KJT._length_per_key k) as [l|] eqn:El.
  { by rewrite (wf_length_per_key k H l El). }
  destruct Hc as [?|Hc]; [done|].
  destruct (decide (KJT._keys k = [])) as [Hk|Hk].
  { assert (KJT._stride_per_key k = []) as ->.
    { apply nil_length_inv. by rewrite (wf_spk_length k H), Hk. }
    rewrite Hk. simpl. by destruct (KJT._offsets k), (KJT._lengths k). }
  destruct Hc as [?|Hc]; [done|].
  assert (Hlen : (py_len (KJT._keys k) =? 0) = false).
  { apply Z.eqb_neq. unfold py_len. destruct (KJT._keys k); simpl; [done|lia]. }
  rewrite Hlen. simpl negb. cbv iota.
  pose proof (wf_rows k H) as Hrows. pose proof (wf_addr k H) as Haddr.
  destruct (KJT._offsets k) as [o|] eqn:Eo.
  - pose proof (wf_offsets k H o Eo) as Ho.
    assert (Hnum : (0 <? numel o) = true).
    { apply Z.ltb_lt. unfold numel, py_len. rewrite Ho, _cumsum_length. lia. }
    rewrite Hnum. simpl andb. cbv iota.
    assert (Hd : data (torch_diff o) = lengths_of k) by by apply torch_diff_cumsum.
    destruct (KJT._variable_stride_per_key k) eqn:Ev.
    + rewrite length_per_key_from_stride_per_key_spec; try done.
      * by rewrite Hd.
      * apply (wf_spk_nonneg k H).
      * unfold numel. by rewrite Hd.
    + destruct Hc as [Hs|?]; [|done].
      rewrite (view_rows_sums _ _ (length (KJT._keys k))); try done.
      * by rewrite Hd, (wf_uniform_spk k H Ev).
      * unfold numel. rewrite Hd. by apply wf_uniform_rows.
  - destruct (KJT._lengths k) as [l|] eqn:Elen; [|done].
    assert (Hd : data l = lengths_of k) by (unfold lengths_of; by rewrite Elen).
    destruct (KJT._variable_stride_per_key k) eqn:Ev.
    + rewrite length_per_key_from_stride_per_key_spec; try done.
      * by rewrite Hd.
      * apply (wf_spk_nonneg k H).
      * unfold numel. by rewrite Hd.
    + pose proof (wf_uniform_rows k H Ev) as Hur.
      pose proof (wf_uniform_stride_nonneg k H Ev Hk) as Hs0.
      assert (Hn : 0 < Z.of_nat (length (KJT._keys k))).
      { destruct (KJT._keys k); simpl; [done|lia]. }
      destruct (Z.eqb_spec (numel l) 0) as [Hz|Hnz]; simpl negb; cbv iota.
      * unfold numel in Hz. rewrite Hd in Hz.
        assert (KJT._stride k = 0) as Hs by nia.
        rewrite (wf_uniform_spk k H Ev), Hs.
        assert (lengths_of k = []) as ->.
        { apply nil_length_inv. unfold py_len in Hz. lia. }
        by rewrite key_sums_no_rows.
      * rewrite (view_rows_sums _ _ (length (KJT._keys k))).
        -- by rewrite Hd, (wf_uniform_spk k H Ev).
        -- unfold numel in Hnz. rewrite Hd in Hnz. nia.
        -- unfold numel. by rewrite Hd.
Qed.

End Accessors.

Section Caches.
Implicit Types k : KJT.t.

Lemma wf_set_length_per_key k :
  wf k ->
  wf (KJT.set_length_per_key k (Some (key_sums (KJT._stride_per_key k) (lengths_of k)))).
Proof.
  intros []. constructor; simpl; try done.
  intros l [= <-]. done.
Qed.

Lemma wf_set_offset_per_key k :
  wf k ->
  wf (KJT.set_offset_per_key k
        (Some (_cumsum (key_sums (KJT._stride_per_key k) (lengths_of k))))).
Proof.
  intros []. constructor; simpl; try done.
  intros l [= <-]. done.
Qed.

Lemma length_per_key_spec k :
  wf k -> computable k ->
  let lpk := key_sums (KJT._stride_per_key k) (lengths_of k) in
  KJT.length_per_key k = Ok (lpk, KJT.set_length_per_key k (Some lpk)).
Proof.
  intros H Hc. unfold KJT.length_per_key.
  by rewrite maybe_compute_length_per_key_spec.
Qed.

Lemma offset_per_key_spec k :
  wf k -> computable k ->
  let lpk := key_sums (KJT._stride_per_key k) (lengths_of k) in
  KJT.offset_per_key k
  = Ok (_cumsum lpk,
        KJT.set_offset_per_key (KJT.set_length_per_key k (Some lpk)) (Some (_cumsum lpk))).
Proof.
  intros H Hc. unfold KJT.offset_per_key, _maybe_compute_offset_per_key.
  destruct (KJT._length_per_key k) as [l|] eqn:El.
  - rewrite (wf_length_per_key k H l El).
    destruct (KJT._offset_per_key k) as [o|] eqn:Eo; simpl; [|done].
    by rewrite (wf_offset_per_key k H o Eo).
  - pose proof (maybe_compute_length_per_key_spec k H Hc) as E.
    unfold KJT.stride, KJT.stride_per_key, KJT.variable_stride_per_key in *.
    rewrite El in E. rewrite E. done.
Qed.

Lemma wf_synced k : wf k -> wf (synced k).
Proof.
  intros H. unfold synced.
  apply (wf_set_offset_per_key _ (wf_set_length_per_key k H)).
Qed.

Lemma same_batch_synced k : same_batch k (synced k).
Proof. by constructor. Qed.


Lemma sync_spec k : wf k -> computable k -> KJT.sync k = Ok (synced k).
Proof.
  intros H Hc. unfold KJT.sync.
  rewrite (length_per_key_spec k H Hc). simpl.
  rewrite offset_per_key_spec.
  - simpl. done.
  - by apply wf_set_length_per_key.
  - by left.
Qed.

Lemma lengths_spec k :
  wf k ->
  exists l, KJT.lengths k = Ok (l, KJT.set_lengths k (Some l))
            /\ data l = lengths_of k
            /\ is_int_dtype (t_dtype l) = true
            /\ t_device l = match KJT._lengths k with
                            | Some l0 => t_device l0
                            | None => match KJT._offsets k with
                                      | Some o => t_device o
                                      | None => cpu
                                      end
                            end.
Proof.
  intros H. unfold KJT.lengths, _maybe_compute_lengths, lengths_of.
  pose proof (wf_addr k H) as Ha.
  destruct (KJT._lengths k) as [l|] eqn:El.
  - exists l. simpl. split_and!; try done. by apply (wf_lengths_dtype k H).
  - destruct (KJT._offsets k) as [o|] eqn:Eo; [|done].
    exists (_to_lengths o). simpl. split_and!; try done.
    by apply (wf_offsets_dtype k H).
Qed.

Lemma wf_set_lengths k l :
  wf k -> data l = lengths_of k -> is_int_dtype (t_dtype l) = true ->
  wf (KJT.set_lengths k (Some l)).
Proof.
  intros [] Hd Hi.
  assert (E : lengths_of (KJT.set_lengths k (Some l)) = lengths_of k) by done.
  constructor; rewrite ?E; simpl; try done.
  intros l' [= <-]. done.
Qed.

Lemma same_batch_set_lengths k l :
  data l = lengths_of k -> same_batch k (KJT.set_lengths k (Some l)).
Proof. intros Hd. by constructor. Qed.

Lemma computable_set_lengths k l :
  computable k -> computable (KJT.set_lengths k (Some l)).
Proof. done. Qed.



Lemma lengths_offset_per_key_spec k :
  wf k ->
  exists k', KJT.lengths_offset_per_key k = (_cumsum (KJT._stride_per_key k), k')
             /\ wf k' /\ same_batch k k'
             /\ KJT._lengths k' = KJT._lengths k
             /\ KJT._length_per_key k' = KJT._length_per_key k.
Proof.
  intros H. unfold KJT.lengths_offset_per_key, KJT.stride_per_key.
  destruct (wf_lengths_offset_per_key k H) as [E|E].
  - rewrite E. eexists. split; [done|]. split_and!; try done.
    destruct H. constructor; simpl; try done. by right.
  - rewrite E. unfold _cumsum at 1. eexists. split; [done|].
    split_and!; try done.
Qed.

End Caches.

(** * Construction *)

Section Init.

Lemma assert_integers_spec (x : Tensor) :
  _assert_tensor_has_no_elements_or_has_integers x
  = if addr_ok (Some x) then Ok tt else Raise AssertionError.
Proof.
  unfold _assert_tensor_has_no_elements_or_has_integers, addr_ok, py_assert, is_int_dtype.
  by destruct (numel x =? 0), (t_dtype x).
Qed.

Lemma addr_ok_int (x : Tensor) : is_int_dtype (t_dtype x) = true -> addr_ok (Some x) = true.
Proof. intros H. unfold addr_ok. rewrite H. apply orb_true_r. Qed.

Lemma init_checks (lengths offsets : option Tensor) :
  addr_ok lengths = true -> addr_ok offsets = true ->
  match offsets with
  | Some o => _assert_tensor_has_no_elements_or_has_integers o
  | None => Ok tt
  end = Ok tt
  /\ match lengths with
     | Some l => _assert_tensor_has_no_elements_or_has_integers l
     | None => Ok tt
     end = Ok tt.
Proof.
  intros Hl Ho. split.
  - destruct offsets as [o|]; [|done]. by rewrite assert_integers_spec, Ho.
  - destruct lengths as [l|]; [|done]. by rewrite assert_integers_spec, Hl.
Qed.

Lemma init_uniform keys values weights lengths offsets stride lpk opk ipk jt inv :
  addr_ok lengths = true -> addr_ok offsets = true ->
  KJT.__init__ keys values weights lengths offsets stride None lpk opk ipk jt inv
  = let s := _maybe_compute_stride_kjt keys stride lengths offsets in
    Ok (KJT.mk keys values weights lengths offsets
          (repeat [s] (length keys)) (map zsum (repeat [s] (length keys)))
          false s lpk opk ipk jt inv []).
Proof.
  intros Hl Ho. unfold KJT.__init__.
  destruct (init_checks lengths offsets Hl Ho) as [-> ->]. done.
Qed.

Lemma init_variable keys values weights lengths offsets sppr lpk opk ipk jt inv :
  addr_ok lengths = true -> addr_ok offsets = true ->
  KJT.__init__ keys values weights lengths offsets None (Some sppr) lpk opk ipk jt inv
  = Ok (KJT.mk keys values weights lengths offsets sppr (map zsum sppr)
          true (vbe_stride (map zsum sppr)) lpk opk ipk jt inv []).
Proof.
  intros Hl Ho. unfold KJT.__init__.
  destruct (init_checks lengths offsets Hl Ho) as [-> ->]. done.
Qed.


End Init.

(** * split *)

Section Split.



End Split.

Section Blocks.
Implicit Types k : KJT.t.

Lemma sub_all {A} (l : list A) : sub 0 (length l) l = l.
Proof. unfold sub. rewrite drop_0. apply firstn_all. Qed.

Lemma sub_length {A} (l : list A) (s n : nat) :
  (s + n <= length l)%nat -> length (sub s n l) = n.
Proof. intros H. unfold sub. rewrite length_take, length_drop. lia. Qed.

Lemma sub_map {A B} (f : A -> B) (l : list A) (s n : nat) :
  sub s n (map f l) = map f (sub s n l).
Proof. unfold sub. by rewrite skipn_map, firstn_map. Qed.

Lemma Forall_sub {A} (P : A -> Prop) (l : list A) (s n : nat) :
  Forall P l -> Forall P (sub s n l).
Proof. intros H. unfold sub. by apply Forall_take, Forall_drop. Qed.

Lemma sum_take_split (sizes : list nat) (s n : nat) :
  sum_list (take (s + n) sizes) = (sum_list (take s sizes) + sum_list (sub s n sizes))%nat.
Proof. unfold sub. by rewrite <- take_take_drop, sum_list_with_app. Qed.

Lemma sum_take_le (sizes : list nat) (s : nat) :
  (sum_list (take s sizes) <= sum_list sizes)%nat.
Proof. rewrite <- (take_drop s sizes) at 2. rewrite sum_list_with_app. lia. Qed.

(** The window of a flat buffer between two block boundaries is the run
    of blocks in between. *)
Lemma py_slice_blocks (sizes : list nat) (X : list Z) (s n : nat) :
  (sum_list sizes <= length X)%nat ->
  py_slice X (Z.of_nat (sum_list (take s sizes))) (Z.of_nat (sum_list (take (s + n) sizes)))
  = concat (sub s n (chunks sizes X)).
Proof.
  intros H. rewrite py_slice_nat by (rewrite sum_take_split; lia).
  unfold sub. rewrite concat_block_window by done.
  f_equal. rewrite sum_take_split. unfold sub. lia.
Qed.

Lemma zsum_take_nat (l : list Z) (i : nat) :
  Forall (fun z => 0 <= z) l ->
  zsum (take i l) = Z.of_nat (sum_list (take i (map Z.to_nat l))).
Proof.
  intros H. rewrite firstn_map, zsum_to_nat; [done|]. by apply Forall_take.
Qed.

Lemma spk_nat_sum k : wf k -> sum_list (spk_nat k) = length (lengths_of k).
Proof.
  intros H. apply Nat2Z.inj. unfold spk_nat.
  rewrite zsum_to_nat by apply (wf_spk_nonneg k H).
  symmetry. apply (wf_rows k H).
Qed.

Lemma key_sums_nonneg_wf k :
  wf k -> Forall (fun z => 0 <= z) (key_sums (KJT._stride_per_key k) (lengths_of k)).
Proof. intros H. apply key_sums_nonneg, (wf_rows_nonneg k H). Qed.

Lemma lpk_nat_sum k : wf k -> sum_list (lpk_nat k) = length (data (KJT._values k)).
Proof.
  intros H. apply Nat2Z.inj. unfold lpk_nat.
  rewrite zsum_to_nat by by apply key_sums_nonneg_wf.
  rewrite key_sums_total.
  - apply (wf_values k H).
  - apply (wf_spk_nonneg k H).
  - apply (wf_rows k H).
Qed.

Lemma lpk_nat_length k : wf k -> length (lpk_nat k) = length (KJT._keys k).
Proof.
  intros H. unfold lpk_nat. by rewrite length_map, key_sums_length, wf_spk_length.
Qed.

Lemma spk_nat_length k : wf k -> length (spk_nat k) = length (KJT._keys k).
Proof. intros H. unfold spk_nat. by rewrite length_map, wf_spk_length. Qed.

Lemma row_blocks_lengths k : wf k -> map length (row_blocks k) = spk_nat k.
Proof. intros H. apply chunks_lengths. rewrite (spk_nat_sum k H). lia. Qed.


Lemma row_blocks_concat k : wf k -> concat (row_blocks k) = lengths_of k.
Proof. intros H. apply concat_chunks_all, (spk_nat_sum k H). Qed.

Lemma value_blocks_lengths k : wf k -> map length (value_blocks k) = lpk_nat k.
Proof. intros H. apply chunks_lengths. rewrite (lpk_nat_sum k H). lia. Qed.

Lemma value_blocks_concat k : wf k -> concat (value_blocks k) = data (KJT._values k).
Proof. intros H. apply concat_chunks_all, (lpk_nat_sum k H). Qed.

Lemma weight_blocks_lengths k w :
  wf k -> KJT._weights k = Some w -> map length (weight_blocks k w) = lpk_nat k.
Proof.
  intros H Hw. apply chunks_lengths. rewrite (lpk_nat_sum k H).
  pose proof (wf_weights k H w Hw) as E. unfold numel, py_len in E. lia.
Qed.

Lemma weight_blocks_concat k w :
  wf k -> KJT._weights k = Some w -> concat (weight_blocks k w) = data w.
Proof.
  intros H Hw. apply concat_chunks_all. rewrite (lpk_nat_sum k H).
  pose proof (wf_weights k H w Hw) as E. unfold numel, py_len in E. lia.
Qed.

Lemma length_concat_sum {A} (bs : list (list A)) :
  length (concat bs) = sum_list (map length bs).
Proof. induction bs as [|b bs IH]; simpl; [done|]. rewrite length_app, IH. done. Qed.

Lemma same_batch_sym k k' : same_batch k k' -> same_batch k' k.
Proof. intros []. by constructor. Qed.

Lemma same_batch_blocks k k' :
  same_batch k k' ->
  spk_nat k' = spk_nat k /\ lpk_nat k' = lpk_nat k /\ row_blocks k' = row_blocks k
  /\ value_blocks k' = value_blocks k
  /\ (forall w, weight_blocks k' w = weight_blocks k w).
Proof.
  intros []. unfold row_blocks, value_blocks, weight_blocks, lpk_nat, spk_nat.
  rewrite sb_spk0, sb_rows0, sb_values0. done.
Qed.

End Blocks.

Section Pieces.
Implicit Types k : KJT.t.

Lemma sub_repeat {A} (x : A) (N s n : nat) :
  (s + n <= N)%nat -> sub s n (repeat x N) = repeat x n.
Proof.
  intros H. unfold sub. replace N with (s + (n + (N - s - n)))%nat by lia.
  rewrite !repeat_app, drop_app_length', take_app_length'; try done;
    by rewrite repeat_length.
Qed.

Lemma piece_spec_same_batch k k' w p :
  same_batch k k' -> piece_spec k w p -> piece_spec k' w p.
Proof.
  intros Hs []. destruct (same_batch_blocks k k' Hs) as (_ & _ & Er & Ev & Ew).
  destruct Hs. constructor; rewrite ?Er, ?Ev; try congruence.
  - rewrite sb_weights0. rewrite ps_weights0.
    destruct (KJT._weights k); simpl; [|done]. by rewrite Ew.
  - rewrite sb_variable0, sb_stride0. done.
Qed.

Lemma sub_rows_window k (s n : nat) :
  wf k ->
  concat (sub s n (row_blocks k))
  = take (sum_list (sub s n (spk_nat k))) (drop (sum_list (take s (spk_nat k))) (lengths_of k)).
Proof.
  intros H. unfold sub, row_blocks. apply concat_block_window.
  rewrite (spk_nat_sum k H). lia.
Qed.

Lemma sub_rows_length k (s n : nat) :
  wf k -> length (concat (sub s n (row_blocks k))) = sum_list (sub s n (spk_nat k)).
Proof.
  intros H. rewrite length_concat_sum, <- sub_map, (row_blocks_lengths k H). done.
Qed.

Lemma sub_values_length k (s n : nat) :
  wf k -> length (concat (sub s n (value_blocks k))) = sum_list (sub s n (lpk_nat k)).
Proof.
  intros H. rewrite length_concat_sum, <- sub_map, (value_blocks_lengths k H). done.
Qed.

Lemma sub_weights_length k w (s n : nat) :
  wf k -> KJT._weights k = Some w ->
  length (concat (sub s n (weight_blocks k w))) = sum_list (sub s n (lpk_nat k)).
Proof.
  intros H Hw. rewrite length_concat_sum, <- sub_map, (weight_blocks_lengths k w H Hw). done.
Qed.

Lemma sub_rows_sum k (s n : nat) :
  zsum (concat (sub s n (row_blocks k)))
  = zsum (sub s n (key_sums (KJT._stride_per_key k) (lengths_of k))).
Proof. by rewrite zsum_concat, <- sub_map. Qed.

Lemma sub_key_sums k (s n : nat) :
  wf k ->
  key_sums (sub s n (KJT._stride_per_key k)) (concat (sub s n (row_blocks k)))
  = sub s n (key_sums (KJT._stride_per_key k) (lengths_of k)).
Proof.
  intros H. unfold key_sums at 1.
  rewrite <- sub_map. fold (spk_nat k).
  rewrite <- (row_blocks_lengths k H), sub_map, chunks_concat', <- sub_map.
  done.
Qed.

(** The batch [split] builds for a proper window is well formed. *)
Lemma wf_piece k (s n : nat) keys' v' w' l' sppr' lpk' :
  wf k -> (s + n <= length (KJT._keys k))%nat ->
  keys' = sub s n (KJT._keys k) ->
  data v' = concat (sub s n (value_blocks k)) ->
  (forall w, w' = Some w -> numel w = numel v') ->
  data l' = concat (sub s n (row_blocks k)) ->
  is_int_dtype (t_dtype l') = true ->
  sppr' = sub s n (KJT._stride_per_key_per_rank k) ->
  (lpk' = None \/
   lpk' = Some (sub s n (key_sums (KJT._stride_per_key k) (lengths_of k)))) ->
  wf (KJT.mk keys' v' w' (Some l') None sppr' (map zsum sppr')
        (KJT._variable_stride_per_key k)
        (if KJT._variable_stride_per_key k then vbe_stride (map zsum sppr')
         else KJT._stride k)
        lpk' None None None None []).
Proof.
  intros H Hn -> Hv Hw Hl Hi -> Hlpk.
  assert (Espk : map zsum (sub s n (KJT._stride_per_key_per_rank k))
                 = sub s n (KJT._stride_per_key k)).
  { by rewrite <- sub_map, <- (wf_spk k H). }
  rewrite Espk.
  assert (Hnn : Forall (fun z => 0 <= z) (sub s n (KJT._stride_per_key k))).
  { apply Forall_sub, (wf_spk_nonneg k H). }
  constructor; unfold lengths_of; cbn [KJT._lengths KJT._offsets KJT._stride_per_key
    KJT._stride_per_key_per_rank KJT._keys KJT._variable_stride_per_key KJT._stride
    KJT._values KJT._weights KJT._length_per_key KJT._offset_per_key
    KJT._lengths_offset_per_key]; rewrite ?Hl; try done.
  - rewrite (sub_rows_window k s n H). apply Forall_take, Forall_drop, (wf_rows_nonneg k H).
  - by rewrite !sub_length by (rewrite ?(wf_nkeys k H); lia).
  - intros Hu. rewrite Hu. rewrite (wf_uniform k H Hu).
    rewrite sub_length by lia. by apply sub_repeat.
  - intros Hvar. by rewrite Hvar.
  - unfold py_len. rewrite (sub_rows_length k s n H).
    rewrite <- zsum_to_nat by done. unfold spk_nat. by rewrite sub_map.
  - rewrite sub_rows_sum. unfold numel, py_len. rewrite Hv, (sub_values_length k s n H).
    rewrite <- zsum_to_nat by (apply Forall_sub; by apply key_sums_nonneg_wf).
    unfold lpk_nat. by rewrite sub_map.
  - intros l [= <-]. done.
  - intros l Hc. rewrite (sub_key_sums k s n H).
    destruct Hlpk as [E|E]; rewrite E in Hc; [done|]. by inversion Hc.
  - by left.
Qed.

End Pieces.

Section SplitLoop.
Implicit Types k self : KJT.t.

Lemma py_slice_sub {A} (l : list A) (s n : nat) :
  py_slice l (Z.of_nat s) (Z.of_nat s + Z.of_nat n) = sub s n l.
Proof.
  rewrite <- Nat2Z.inj_add, py_slice_nat by lia. unfold sub. f_equal. lia.
Qed.

Lemma t_slice_blocks (x : Tensor) (sizes : list Z) (s n : nat) :
  Forall (fun z => 0 <= z) sizes ->
  (sum_list (map Z.to_nat sizes) <= length (data x))%nat ->
  data (t_slice x (zsum (take s sizes)) (zsum (take (s + n) sizes)))
  = concat (sub s n (chunks (map Z.to_nat sizes) (data x))).
Proof.
  intros Hn Hs. unfold t_slice. cbn [data with_data].
  rewrite !zsum_take_nat by done. by apply py_slice_blocks.
Qed.

(** The whole batch as the piece of the window of all its keys. *)
Lemma piece_whole self :
  wf self ->
  let N := length (KJT._keys self) in
  piece_spec self (0%nat, N)
    (KJT.mk (KJT._keys self) (KJT._values self) (KJT._weights self)
       (KJT._lengths self) (KJT._offsets self)
       (KJT._stride_per_key_per_rank self) (map zsum (KJT._stride_per_key_per_rank self))
       (KJT._variable_stride_per_key self) (KJT._stride self)
       (KJT._length_per_key self) (KJT._offset_per_key self) (KJT._index_per_key self)
       (KJT._jt_dict self) None []).
Proof.
  intros H N. subst N.
  assert (Hsub : forall {A} (l : list A), length l = length (KJT._keys self) ->
                                          sub 0 (length (KJT._keys self)) l = l).
  { intros A l <-. apply sub_all. }
  constructor; cbn [fst snd KJT._keys KJT._values KJT._weights
    KJT._stride_per_key_per_rank KJT._variable_stride_per_key KJT._stride].
  - rewrite <- (wf_spk self H). destruct H. constructor; try done; by left.
  - by rewrite sub_all.
  - rewrite Hsub; [by rewrite value_blocks_concat|].
    unfold value_blocks. by rewrite chunks_length, lpk_nat_length.
  - destruct (KJT._weights self) as [w|] eqn:Ew; [|done]. simpl. f_equal.
    rewrite Hsub; [by rewrite weight_blocks_concat|].
    unfold weight_blocks. by rewrite chunks_length, lpk_nat_length.
  - change (lengths_of (KJT.mk _ _ _ _ _ _ _ _ _ _ _ _ _ _ _)) with (lengths_of self).
    rewrite Hsub; [by rewrite row_blocks_concat|].
    unfold row_blocks. by rewrite chunks_length, spk_nat_length.
  - rewrite Hsub; [done|]. apply (wf_nkeys self H).
  - done.
  - done.
Qed.

Lemma split_loop_spec (segments : list nat) :
  forall self (s : nat) lpk,
    wf self ->
    lpk = key_sums (KJT._stride_per_key self) (lengths_of self) ->
    Forall (fun n => 0 < n)%nat segments ->
    (s + sum_list segments <= length (KJT._keys self))%nat ->
    exists pieces self',
      KJT.split_loop self lpk (_cumsum lpk) (Z.of_nat s) (zsum (take s lpk))
        (map Z.of_nat segments) = Ok (pieces, self')
      /\ wf self' /\ same_batch self self'
      /\ Forall2 (piece_spec self) (windows s segments) pieces.
Proof.
  induction segments as [|n segments IH]; intros self s lpk H Elpk Hpos Hsum.
  { exists [], self. simpl. split_and!; try done; try apply same_batch_refl. }
  apply Forall_cons in Hpos as [Hn Hpos'].
  change (sum_list (n :: segments)) with (n + sum_list segments)%nat in Hsum.
  cbn [KJT.split_loop map windows].
  assert (Hlen : length lpk = length (KJT._keys self)).
  { by rewrite Elpk, key_sums_length, wf_spk_length. }
  rewrite <- Nat2Z.inj_add.
  rewrite (py_index_nat _ _ (zsum (take (s + n) lpk)))
    by (apply _cumsum_lookup; lia).
  cbn [bind]. rewrite Nat2Z.inj_add, !py_slice_sub.
  assert (Hnn : Forall (fun z => 0 <= z) lpk).
  { rewrite Elpk. by apply key_sums_nonneg_wf. }
  set (KEYS := sub s n (KJT._keys self)).
  assert (Hkeys : length KEYS = n) by (apply sub_length; lia).
  destruct (Z.eqb_spec (Z.of_nat n) (py_len (KJT._keys self))) as [Hall|Hpart].
  - (* the segment covers every key *)
    assert (n = length (KJT._keys self)) as Hn' by (unfold py_len in Hall; lia).
    assert (s = 0%nat) as -> by lia.
    assert (segments = []) as ->.
    { destruct segments as [|m ?]; [done|]. apply Forall_cons in Hpos' as [Hm _].
      simpl in Hsum. unfold id in Hsum. lia. }
    pose proof (piece_whole self H) as Hp. cbv zeta in Hp. rewrite <- Hn' in Hp.
    pose proof (wf_lengths_dtype self H) as Hld.
    pose proof (wf_offsets_dtype self H) as Hod.
    assert (Hal : addr_ok (KJT._lengths self) = true).
    { destruct (KJT._lengths self) as [l|] eqn:E; [|done]. apply addr_ok_int. by apply Hld. }
    assert (Hao : addr_ok (KJT._offsets self) = true).
    { destruct (KJT._offsets self) as [o|] eqn:E; [|done]. apply addr_ok_int. by apply Hod. }
    unfold KJT.variable_stride_per_key, KJT.stride_per_key_per_rank, KJT.weights_or_none.
    destruct (KJT._variable_stride_per_key self) eqn:Ev.
    + replace (sub 0 n (KJT._stride_per_key_per_rank self))
        with (KJT._stride_per_key_per_rank self)
        by (rewrite Hn', <- (wf_nkeys self H); symmetry; apply sub_all).
      rewrite init_variable by done. cbn [bind KJT.split_loop fst snd].
      eexists _, self. split; [done|]. split_and!; [done|apply same_batch_refl|].
      constructor; [|constructor].
      rewrite (wf_variable self H Ev), (wf_spk self H) in Hp. exact Hp.
    + rewrite init_uniform by done. cbn [bind KJT.split_loop fst snd].
      unfold _maybe_compute_stride_kjt.
      eexists _, self. split; [done|]. split_and!; [done|apply same_batch_refl|].
      constructor; [|constructor].
      rewrite <- (wf_uniform self H Ev). exact Hp.
  - (* a proper window *)
    destruct (Z.eqb_spec (Z.of_nat n) 0) as [?|_]; [lia|].
    destruct (lengths_spec self H) as (l & El & Hl & Hli & _).
    pose proof (wf_set_lengths self l H Hl Hli) as H1.
    pose proof (same_batch_set_lengths self l Hl) as S1.
    destruct (lengths_offset_per_key_spec _ H1) as (k2 & E2 & H2 & S2 & _).
    destruct (lengths_offset_per_key_spec _ H2) as (k3 & E3 & H3 & S3 & _).
    assert (S13 : same_batch self k3).
    { eapply same_batch_trans; [|exact S3]. eapply same_batch_trans; [exact S1|exact S2]. }
    assert (Hspk2 : KJT._stride_per_key k2 = KJT._stride_per_key self).
    { destruct S2, S1. congruence. }
    change (KJT._stride_per_key (KJT.set_lengths self (Some l)))
      with (KJT._stride_per_key self) in E2.
    rewrite Hspk2 in E3.
    assert (Hspklen : length (KJT._stride_per_key self) = length (KJT._keys self))
      by by apply wf_spk_length.
    (* the weights of the piece *)
    assert (Hw : exists w',
      match KJT.weights_or_none self with
      | None => Ok None
      | Some _ =>
          let* w := KJT.weights self in
          Ok (Some (t_slice w (zsum (take s lpk)) (zsum (take (s + n) lpk))))
      end = Ok w'
      /\ data <$> w' = (fun x => concat (sub s n (weight_blocks self x))) <$> KJT._weights self
      /\ (forall w, w' = Some w ->
            numel w = Z.of_nat (sum_list (sub s n (lpk_nat self))))).
    { unfold KJT.weights_or_none, KJT.weights, _get_weights_or_throw.
      destruct (KJT._weights self) as [w|] eqn:Ew.
      - eexists. split; [done|]. cbn [bind fmap option_fmap option_map].
        assert (Ed : data (t_slice w (zsum (take s lpk)) (zsum (take (s + n) lpk)))
                     = concat (sub s n (weight_blocks self w))).
        { rewrite t_slice_blocks; [by rewrite Elpk|done|].
          rewrite Elpk. fold (lpk_nat self). rewrite (lpk_nat_sum self H).
          pose proof (wf_weights self H w Ew) as E. unfold numel, py_len in E. lia. }
        split; [by rewrite Ed|].
        intros w0 [= <-]. unfold numel, py_len. rewrite Ed.
        by rewrite (sub_weights_length self w s n H Ew).
      - exists None. done. }
    destruct Hw as (w' & Ew' & Hw'd & Hw'n).
    assert (Hv : data (t_slice (KJT._values k3) (zsum (take s lpk)) (zsum (take (s + n) lpk)))
                 = concat (sub s n (value_blocks self))).
    { destruct S13 as [_ -> _ _ _ _ _ _ _ _].
      rewrite t_slice_blocks; [by rewrite Elpk|done|].
      rewrite Elpk. fold (lpk_nat self). rewrite (lpk_nat_sum self H). lia. }
    assert (Hr : data (t_slice l (zsum (take s (KJT._stride_per_key self)))
                          (zsum (take (s + n) (KJT._stride_per_key self))))
                 = concat (sub s n (row_blocks self))).
    { rewrite t_slice_blocks; [by rewrite Hl|apply (wf_spk_nonneg self H)|].
      fold (spk_nat self). rewrite (spk_nat_sum self H), Hl. lia. }
    set (SPPR := sub s n (KJT._stride_per_key_per_rank self)).
    pose proof (wf_piece self s n KEYS
      (t_slice (KJT._values k3) (zsum (take s lpk)) (zsum (take (s + n) lpk))) w'
      (t_slice l (zsum (take s (KJT._stride_per_key self)))
         (zsum (take (s + n) (KJT._stride_per_key self))))
      SPPR (Some (sub s n lpk)) H ltac:(lia) eq_refl Hv) as Hwfp.
    assert (Hwfp' := Hwfp
      ltac:(intros w0 E0; rewrite (Hw'n w0 E0); unfold numel, py_len;
            rewrite Hv, (sub_values_length self s n H); done)
      Hr Hli eq_refl ltac:(right; by rewrite Elpk)).
    clear Hwfp.
    (* run the body *)
    unfold KJT.variable_stride_per_key, KJT.stride_per_key_per_rank. fold SPPR.
    assert (Ev3 : KJT._variable_stride_per_key k3 = KJT._variable_stride_per_key self)
      by by destruct S13.
    assert (Est3 : KJT._stride k3 = KJT._stride self) by by destruct S13.
    assert (Hpiece : exists piece,
      (let '(stride, stride_per_key_per_rank) :=
         if KJT._variable_stride_per_key self
         then (None, Some SPPR)
         else (Some (KJT._stride self), None) in
       KJT.__init__ KEYS
         (t_slice (KJT._values k3) (zsum (take s lpk)) (zsum (take (s + n) lpk))) w'
         (Some (t_slice l (zsum (take s (KJT._stride_per_key self)))
                  (zsum (take (s + n) (KJT._stride_per_key self))))) None
         stride stride_per_key_per_rank (Some (sub s n lpk)) None None None None)
      = Ok piece /\ piece_spec self (s, n) piece).
    { destruct (KJT._variable_stride_per_key self) eqn:Ev.
      - rewrite init_variable by (done || by apply addr_ok_int).
        eexists. split; [done|].
        constructor; cbn [fst snd KJT._keys KJT._values KJT._weights
          KJT._stride_per_key_per_rank KJT._variable_stride_per_key KJT._stride];
          try done.
        intros ?. congruence.
      - rewrite init_uniform by (done || by apply addr_ok_int).
        cbv zeta. unfold _maybe_compute_stride_kjt. rewrite Hkeys.
        assert (Esp : repeat [KJT._stride self] n = SPPR).
        { unfold SPPR. rewrite (wf_uniform self H Ev). symmetry. apply sub_repeat. lia. }
        rewrite Esp.
        eexists. split; [done|].
        constructor; cbn [fst snd KJT._keys KJT._values KJT._weights
          KJT._stride_per_key_per_rank KJT._variable_stride_per_key KJT._stride];
          try done. }
    destruct Hpiece as (piece & Epiece & Hps).
    destruct (IH k3 (s + n)%nat lpk H3) as (pieces & self' & Eloop & Hwf' & Hs' & Hall').
    { destruct S13. by rewrite sb_spk0, sb_rows0. }
    { done. }
    { destruct S13. rewrite sb_keys0. lia. }
    exists (piece :: pieces), self'.
    split.
    + destruct (KJT._variable_stride_per_key self) eqn:Ev.
      * rewrite Ew'. cbn [bind]. rewrite El. cbn [bind]. rewrite E2, E3.
        rewrite (py_index_nat _ _ (zsum (take s (KJT._stride_per_key self))))
          by (apply _cumsum_lookup; lia).
        cbn [bind]. rewrite <- Nat2Z.inj_add.
        rewrite (py_index_nat _ _ (zsum (take (s + n) (KJT._stride_per_key self))))
          by (apply _cumsum_lookup; lia).
        cbn [bind]. rewrite Epiece. cbn [bind].
        rewrite Eloop. done.
      * rewrite Ew'. cbn [bind]. rewrite El. cbn [bind]. rewrite E2, E3.
        rewrite (py_index_nat _ _ (zsum (take s (KJT._stride_per_key self))))
          by (apply _cumsum_lookup; lia).
        cbn [bind]. rewrite <- Nat2Z.inj_add.
        rewrite (py_index_nat _ _ (zsum (take (s + n) (KJT._stride_per_key self))))
          by (apply _cumsum_lookup; lia).
        cbn [bind]. rewrite Epiece. cbn [bind].
        rewrite Eloop. done.
    + split_and!; [done|by eapply same_batch_trans| ].
      constructor; [done|].
      eapply Forall2_impl; [exact Hall'|].
      intros w p Hp. eapply piece_spec_same_batch; [|exact Hp].
      by apply same_batch_sym.
Qed.

End SplitLoop.

(** * concat *)

Section Concat.
Implicit Types k : KJT.t.

Lemma lengths_data_spec k : wf k -> lengths_data k = Ok (lengths_of k).
Proof.
  intros H. unfold lengths_data.
  destruct (lengths_spec k H) as (l & -> & Hl & _). simpl. by rewrite Hl.
Qed.

Lemma concat_loop_spec (W V : bool) (S : Z) (ps : list KJT.t) :
  forall st,
    Forall wf ps ->
    Forall (fun p => is_some (KJT._weights p) = W) ps ->
    Forall (fun p => KJT._variable_stride_per_key p = V) ps ->
    (V = false -> Forall (fun p => KJT._stride p = S) ps) ->
    (V = false -> KJT.c_stride st = None \/ KJT.c_stride st = Some S) ->
    exists st',
      KJT.concat_loop W V st ps = Ok st'
      /\ KJT.c_keys st' = KJT.c_keys st ++ concat (map KJT._keys ps)
      /\ KJT.value_list st' = KJT.value_list st ++ map KJT._values ps
      /\ KJT.weight_list st'
         = KJT.weight_list st ++ (if W then omap KJT._weights ps else [])
      /\ map data (KJT.length_list st')
         = map data (KJT.length_list st) ++ map lengths_of ps
      /\ (Forall (fun x => is_int_dtype (t_dtype x) = true) (KJT.length_list st) ->
          Forall (fun x => is_int_dtype (t_dtype x) = true) (KJT.length_list st'))
      /\ length (KJT.length_list st') = (length (KJT.length_list st) + length ps)%nat
      /\ KJT.c_stride_per_key_per_rank st'
         = KJT.c_stride_per_key_per_rank st
           ++ (if V then concat (map KJT._stride_per_key_per_rank ps) else [])
      /\ (V = true -> KJT.c_stride st' = KJT.c_stride st)
      /\ (V = false -> ps <> [] -> KJT.c_stride st' = Some S).
Proof.
  induction ps as [|p ps IH]; intros st Hwf HW HV HS Hst.
  { exists st. simpl. destruct W, V; rewrite ?app_nil_r; split_and!; done. }
  apply Forall_cons in Hwf as [Hp Hwf]. apply Forall_cons in HW as [HWp HW].
  apply Forall_cons in HV as [HVp HV].
  cbn [KJT.concat_loop]. unfold KJT.weights_or_none. rewrite HWp.
  replace (eqb W W) with true by by destruct W. cbn [negb].
  destruct (lengths_spec p Hp) as (l & El & Hl & Hli & _).
  assert (Ew : exists wl,
    (if W then let* w := KJT.weights p in Ok (KJT.weight_list st ++ [w])
     else Ok (KJT.weight_list st)) = Ok wl
    /\ wl = KJT.weight_list st ++ (if W then omap KJT._weights [p] else [])).
  { destruct W.
    - unfold KJT.weights, _get_weights_or_throw. simpl.
      destruct (KJT._weights p); [|done]. simpl. eauto.
    - rewrite app_nil_r. eauto. }
  destruct Ew as (wl & -> & Ewl). cbn [bind]. rewrite El. cbn [bind].
  unfold KJT.stride_per_key_per_rank, KJT.stride, KJT.keys, KJT.values.
  assert (Esp : exists sp,
    (if V
     then Ok (KJT.c_stride_per_key_per_rank st ++ KJT._stride_per_key_per_rank p,
              KJT.c_stride st)
     else match KJT.c_stride st with
          | None => Ok (KJT.c_stride_per_key_per_rank st, Some (KJT._stride p))
          | Some s0 =>
              let* _ := py_assert (s0 =? KJT._stride p) in
              Ok (KJT.c_stride_per_key_per_rank st, Some s0)
          end) = Ok sp
    /\ sp.1 = KJT.c_stride_per_key_per_rank st
              ++ (if V then KJT._stride_per_key_per_rank p else [])
    /\ (V = true -> sp.2 = KJT.c_stride st)
    /\ (V = false -> sp.2 = Some S)).
  { destruct V.
    - eexists. split; [done|]. simpl. done.
    - specialize (HS eq_refl). apply Forall_cons in HS as [HSp _].
      destruct (Hst eq_refl) as [E|E]; rewrite E.
      + eexists. split; [done|]. simpl. rewrite app_nil_r, HSp. done.
      + rewrite HSp, Z.eqb_refl. simpl. eexists. split; [done|]. simpl.
        rewrite app_nil_r. done. }
  destruct Esp as (sp & -> & Esp1 & Esp2 & Esp3). cbn [bind fst snd].
  destruct (IH (KJT.mk_concat_state
                  match KJT._length_per_key p with
                  | Some _ => KJT.has_length_per_key st
                  | None => false
                  end
                  match KJT._length_per_key p with
                  | Some l0 =>
                      if match KJT._length_per_key p with
                         | Some _ => KJT.has_length_per_key st
                         | None => false
                         end
                      then KJT.c_length_per_key st ++ l0
                      else KJT.c_length_per_key st
                  | None => KJT.c_length_per_key st
                  end
                  (KJT.c_keys st ++ KJT._keys p)
                  (KJT.value_list st ++ [KJT._values p]) wl
                  (KJT.length_list st ++ [l]) sp.1 sp.2) Hwf HW HV)
    as (st' & Eloop & Hk & Hvl & Hwl & Hll & Hdt & Hlen & Hsppr & Hstr1 & Hstr2).
  { intros E. specialize (HS E). by apply Forall_cons in HS as [_ ?]. }
  { intros E. right. by apply Esp3. }
  exists st'. split; [exact Eloop|]. cbn [KJT.c_keys KJT.value_list KJT.weight_list
    KJT.length_list KJT.c_stride_per_key_per_rank KJT.c_stride] in *.
  split_and!.
  - rewrite Hk. simpl. by rewrite app_assoc.
  - rewrite Hvl. simpl. by rewrite <- app_assoc.
  - rewrite Hwl, Ewl. destruct W; [|by rewrite !app_nil_r].
    rewrite <- app_assoc. f_equal. simpl.
    destruct (KJT._weights p); done.
  - rewrite Hll, map_app. simpl. rewrite Hl, <- app_assoc. done.
  - intros Hd. apply Hdt. apply Forall_app. split; [done|]. by constructor.
  - rewrite Hlen, length_app. simpl. lia.
  - rewrite Hsppr, Esp1. destruct V; [|by rewrite !app_nil_r].
    simpl. by rewrite <- app_assoc.
  - intros E. rewrite (Hstr1 E). by apply Esp2.
  - intros E _. destruct ps as [|p' ps'].
    + simpl in Eloop. injection Eloop as <-. simpl. by apply Esp3.
    + by apply Hstr2.
Qed.

Lemma all_flags {A} (f : A -> bool) (V : bool) (l : list A) :
  l <> [] -> Forall (fun p => f p = V) l ->
  forallb id (map f l) = V /\ existsb id (map f l) = V.
Proof.
  intros Hne H. induction H as [|x l Hx Hl IH]; [done|].
  cbn [map forallb existsb]. unfold id at 1 3. rewrite Hx.
  destruct l as [|y l].
  - simpl. by destruct V.
  - destruct IH as [-> ->]; [done|]. by destruct V.
Qed.

Lemma concat_spec (W V : bool) (S : Z) (ps : list KJT.t) :
  ps <> [] ->
  Forall wf ps ->
  Forall (fun p => is_some (KJT._weights p) = W) ps ->
  Forall (fun p => KJT._variable_stride_per_key p = V) ps ->
  (V = false -> Forall (fun p => KJT._stride p = S) ps) ->
  exists r,
    KJT.concat ps = Ok r
    /\ KJT._keys r = concat (map KJT._keys ps)
    /\ data (KJT._values r) = concat (map (fun p => data (KJT._values p)) ps)
    /\ data <$> KJT._weights r
       = (if W then Some (concat (map data (omap KJT._weights ps))) else None)
    /\ lengths_data r = Ok (concat (map lengths_of ps))
    /\ KJT._variable_stride_per_key r = V
    /\ (V = true ->
        KJT._stride_per_key_per_rank r = concat (map KJT._stride_per_key_per_rank ps))
    /\ (V = false -> KJT._stride r = S).
Proof.
  intros Hne Hwf HW HV HS.
  destruct (concat_loop_spec W V S ps (KJT.mk_concat_state true [] [] [] [] [] [] None)
              Hwf HW HV HS ltac:(intros _; by left))
    as (st & Eloop & Hk & Hvl & Hwl & Hll & Hdt & Hlen & Hsppr & Hstr1 & Hstr2).
  cbn [KJT.c_keys KJT.value_list KJT.weight_list KJT.length_list
    KJT.c_stride_per_key_per_rank KJT.c_stride app map length] in *.
  specialize (Hdt ltac:(constructor)).
  destruct (all_flags KJT.variable_stride_per_key V ps Hne HV) as [EV EV'].
  destruct ps as [|p0 ps]; [done|].
  unfold KJT.concat. rewrite EV, EV'.
  replace (V || negb V) with true by by destruct V.
  cbn [py_assert bind]. unfold KJT.weights_or_none.
  apply Forall_cons in HW as [HW0 HW]. rewrite HW0, Eloop. cbn [bind].
  (* the three concatenations *)
  rewrite Hvl. cbn [map torch_cat bind].
  assert (Ecw : exists w,
    (if W then let* w := torch_cat (KJT.weight_list st) in Ok (Some w) else Ok None) = Ok w
    /\ data <$> w
       = (if W then Some (concat (map data (omap KJT._weights (p0 :: ps)))) else None)).
  { rewrite Hwl. destruct W; [|by eexists].
    cbn [omap list_omap]. destruct (KJT._weights p0) as [w0|]; [|done].
    simpl. eexists. split; [done|]. done. }
  destruct Ecw as (w & -> & Hw). cbn [bind].
  destruct (KJT.length_list st) as [|l0 ls] eqn:Els; [simpl in Hlen; lia|].
  cbn [torch_cat bind].
  assert (Hl0 : is_int_dtype (t_dtype l0) = true) by by apply Forall_cons in Hdt as [? _].
  assert (Hok : addr_ok (Some (with_data l0 (concat (map data (l0 :: ls))))) = true).
  { by apply addr_ok_int. }
  destruct V.
  - rewrite (Hstr1 eq_refl). rewrite init_variable by done.
    eexists. split; [done|].
    cbn [KJT._keys KJT._values KJT._weights KJT._variable_stride_per_key
      KJT._stride_per_key_per_rank KJT._stride data with_data].
    split_and!; try done.
    + by rewrite map_map.
    + unfold lengths_data, KJT.lengths, _maybe_compute_lengths.
      cbn [KJT._lengths bind fst data with_data]. by rewrite Hll.
  - rewrite (Hstr2 eq_refl ltac:(done)). rewrite init_uniform by done.
    eexists. split; [done|].
    cbn [KJT._keys KJT._values KJT._weights KJT._variable_stride_per_key
      KJT._stride_per_key_per_rank KJT._stride data with_data].
    split_and!; try done.
    + by rewrite map_map.
    + unfold lengths_data, KJT.lengths, _maybe_compute_lengths.
      cbn [KJT._lengths bind fst data with_data]. by rewrite Hll.
Qed.

End Concat.

(** * split followed by concat *)

Section SplitConcat.
Implicit Types k : KJT.t.

Lemma windows_length (s : nat) (segments : list nat) :
  length (windows s segments) = length segments.
Proof. revert s. induction segments as [|n l IH]; intros s; simpl; [done|]. by rewrite IH. Qed.

Lemma concat_windows {A} (l : list A) (segments : list nat) :
  forall s, (s + sum_list segments <= length l)%nat ->
            concat (map (fun w => sub w.1 w.2 l) (windows s segments))
            = sub s (sum_list segments) l.
Proof.
  induction segments as [|n segments IH]; intros s Hs.
  { simpl. unfold sub. by rewrite take_0. }
  change (sum_list (n :: segments)) with (n + sum_list segments)%nat in *.
  cbn [windows map concat fst snd]. rewrite IH by lia.
  unfold sub. rewrite <- take_take_drop, drop_drop. done.
Qed.

Lemma concat_windows_all {A} (l : list A) (segments : list nat) :
  sum_list segments = length l ->
  concat (map (fun w => sub w.1 w.2 l) (windows 0 segments)) = l.
Proof. intros H. rewrite concat_windows by lia. rewrite H. apply sub_all. Qed.

Lemma concat_concat_windows {A} (bs : list (list A)) (segments : list nat) :
  sum_list segments = length bs ->
  concat (map (fun w => concat (sub w.1 w.2 bs)) (windows 0 segments)) = concat bs.
Proof.
  intros H.
  transitivity (concat (concat (map (fun w => sub w.1 w.2 bs) (windows 0 segments)))).
  - generalize (windows 0 segments). intros ws.
    induction ws as [|w ws IH]; simpl; [done|]. by rewrite concat_app, IH.
  - by rewrite concat_windows_all.
Qed.

Lemma Forall2_map_eq {A B C} (f : A -> C) (g : B -> C) (xs : list A) (ys : list B) :
  Forall2 (fun x y => g y = f x) xs ys -> map g ys = map f xs.
Proof. induction 1; simpl; congruence. Qed.

Lemma Forall2_omap_eq {A B C D} (f : A -> D) (g : B -> option C) (h : C -> D)
    (xs : list A) (ys : list B) :
  Forall2 (fun x y => h <$> g y = Some (f x)) xs ys -> map h (omap g ys) = map f xs.
Proof.
  induction 1 as [|x y xs ys Hxy _ IH]; [done|].
  cbn [omap list_omap map]. destruct (g y); simpl in Hxy; [|done].
  injection Hxy as Hxy. cbn [map]. by rewrite IH, Hxy.
Qed.

Lemma positive_segments (segments : list Z) :
  Forall (fun z => 0 < z) segments ->
  Forall (fun n => 0 < n)%nat (map Z.to_nat segments)
  /\ map Z.of_nat (map Z.to_nat segments) = segments
  /\ Z.of_nat (sum_list (map Z.to_nat segments)) = zsum segments.
Proof.
  intros H. split_and!.
  - apply Forall_map. eapply Forall_impl; [exact H|]. simpl. lia.
  - rewrite map_map. rewrite <- (map_id segments) at 2. apply map_ext_Forall.
    eapply Forall_impl; [exact H|]. simpl. lia.
  - apply zsum_to_nat. eapply Forall_impl; [exact H|]. simpl. lia.
Qed.

(** [split] on a well-formed batch, for positive segment sizes within the
    key count: it returns one batch per segment, the blocks of the keys of
    that segment. *)
Lemma split_spec k (segments : list Z) :
  wf k -> computable k ->
  Forall (fun z => 0 < z) segments ->
  zsum segments <= py_len (KJT._keys k) ->
  exists pieces k',
    KJT.split k segments = Ok (pieces, k')
    /\ wf k' /\ same_batch k k'
    /\ Forall2 (piece_spec k) (windows 0 (map Z.to_nat segments)) pieces.
Proof.
  intros H Hc Hpos Hsum.
  destruct (positive_segments segments Hpos) as (Hpos' & Eseg & Esum).
  unfold KJT.split.
  rewrite (length_per_key_spec k H Hc). cbn [bind].
  rewrite offset_per_key_spec; [|by apply wf_set_length_per_key|by left].
  cbn [bind]. fold (synced k).
  change (KJT.set_length_per_key k _) with
    (KJT.set_length_per_key k (Some (key_sums (KJT._stride_per_key k) (lengths_of k)))).
  destruct (split_loop_spec (map Z.to_nat segments) (synced k) 0
              (key_sums (KJT._stride_per_key k) (lengths_of k))
              (wf_synced k H) eq_refl Hpos') as (pieces & k' & E & Hwf & Hs & Hall).
  { simpl. unfold py_len in Hsum. lia. }
  rewrite Eseg in E. exists pieces, k'. split; [exact E|].
  split_and!; [done|by eapply same_batch_trans; [apply same_batch_synced|]|].
  eapply Forall2_impl; [exact Hall|].
  intros w p Hp. eapply piece_spec_same_batch; [|exact Hp].
  apply same_batch_sym, same_batch_synced.
Qed.

End SplitConcat.

(** C3, as amended: for every well-formed KeyedJaggedTensor with at least
    one key whose per-key lengths can be computed, and every partition of
    its key count into positive segment sizes, [split(segments)] returns a
    list on which [concat] returns a batch whose keys, values, weights and
    lengths are, element by element and in order, those of the original
    batch. *)
Theorem C3_split_concat_roundtrip (k : KJT.t) (segments : list Z) :
  wf k -> computable k -> KJT._keys k <> [] ->
  Forall (fun z => 0 < z) segments ->
  zsum segments = py_len (KJT._keys k) ->
  exists pieces k' r,
    KJT.split k segments = Ok (pieces, k')
    /\ KJT.concat pieces = Ok r
    /\ KJT.keys r = KJT.keys k
    /\ data (KJT.values r) = data (KJT.values k)
    /\ data <$> KJT.weights_or_none r = data <$> KJT.weights_or_none k
    /\ lengths_data r = lengths_data k
    /\ is_ok (lengths_data k) = true.
Proof.
  intros H Hc Hk Hpos Hsum.
  destruct (split_spec k segments H Hc Hpos ltac:(lia)) as (pieces & k' & E & _ & _ & Hall).
  destruct (positive_segments segments Hpos) as (_ & _ & Esum).
  set (segs := map Z.to_nat segments) in *.
  assert (HN : sum_list segs = length (KJT._keys k)).
  { unfold py_len in Hsum. lia. }
  assert (Hne : pieces <> []).
  { intros ->. apply Forall2_length in Hall. rewrite windows_length in Hall.
    destruct segs; [|done]. simpl in HN. destruct (KJT._keys k); done. }
  destruct (concat_spec (is_some (KJT._weights k)) (KJT._variable_stride_per_key k)
              (KJT._stride k) pieces Hne)
    as (r & Er & Hrk & Hrv & Hrw & Hrl & _).
  - eapply Forall2_Forall_r; [exact Hall|]. apply Forall_forall. intros w _ p Hp.
    apply (ps_wf k w p Hp).
  - eapply Forall2_Forall_r; [exact Hall|]. apply Forall_forall. intros w _ p Hp.
    pose proof (ps_weights k w p Hp) as Ew.
    destruct (KJT._weights p), (KJT._weights k); done.
  - eapply Forall2_Forall_r; [exact Hall|]. apply Forall_forall. intros w _ p Hp.
    apply (ps_variable k w p Hp).
  - intros Hu. eapply Forall2_Forall_r; [exact Hall|]. apply Forall_forall.
    intros w _ p Hp. by apply (ps_stride k w p Hp).
  - exists pieces, k', r. split; [exact E|]. split; [exact Er|].
    unfold KJT.keys, KJT.values, KJT.weights_or_none. split_and!.
    + rewrite Hrk.
      rewrite (Forall2_map_eq (fun w => sub w.1 w.2 (KJT._keys k)) KJT._keys
                 (windows 0 segs) pieces).
      * by apply concat_windows_all.
      * eapply Forall2_impl; [exact Hall|]. intros w p Hp. apply (ps_keys k w p Hp).
    + rewrite Hrv.
      rewrite (Forall2_map_eq (fun w => concat (sub w.1 w.2 (value_blocks k)))
                 (fun p => data (KJT._values p)) (windows 0 segs) pieces).
      * rewrite concat_concat_windows; [by apply value_blocks_concat|].
        unfold value_blocks. by rewrite chunks_length, lpk_nat_length.
      * eapply Forall2_impl; [exact Hall|]. intros w p Hp. apply (ps_values k w p Hp).
    + rewrite Hrw. destruct (KJT._weights k) as [wk|] eqn:Ewk; [|done].
      cbn [is_some fmap option_fmap option_map]. f_equal.
      rewrite (Forall2_omap_eq (fun w => concat (sub w.1 w.2 (weight_blocks k wk)))
                 KJT._weights data (windows 0 segs) pieces).
      * rewrite concat_concat_windows; [by apply weight_blocks_concat|].
        unfold weight_blocks. by rewrite chunks_length, lpk_nat_length.
      * eapply Forall2_impl; [exact Hall|]. intros w p Hp.
        pose proof (ps_weights k w p Hp) as Ew. by rewrite Ewk in Ew.
    + rewrite Hrl, (lengths_data_spec k H). f_equal.
      rewrite (Forall2_map_eq (fun w => concat (sub w.1 w.2 (row_blocks k)))
                 lengths_of (windows 0 segs) pieces).
      * rewrite concat_concat_windows; [by apply row_blocks_concat|].
        unfold row_blocks. by rewrite chunks_length, spk_nat_length.
      * eapply Forall2_impl; [exact Hall|]. intros w p Hp. apply (ps_rows k w p Hp).
    + by rewrite (lengths_data_spec k H).
Qed.

(** * Checking well-formedness by computation *)

Lemma forallb_nonneg (l : list Z) :
  forallb (fun z => 0 <=? z) l = true -> Forall (fun z => 0 <= z) l.
Proof.
  intros H. apply Forall_forall. intros x Hx.
  apply Z.leb_le. rewrite forallb_forall in H. apply H. by apply list_elem_of_In.
Qed.

Lemma wf_b_sound (k : KJT.t) : wf_b k = true -> wf k.
Proof.
  unfold wf_b. rewrite !andb_true_iff.
  intros ((((((((((((((H1 & H2) & H3) & H4) & H5) & H6) & H7) & H8) & H9) & H10)
              & H11) & H12) & H13) & H14) & H15).
  constructor.
  - by apply forallb_nonneg.
  - by apply forallb_nonneg.
  - by apply bool_decide_eq_true in H3.
  - by apply bool_decide_eq_true in H4.
  - intros Hu. rewrite Hu in H5. by apply bool_decide_eq_true in H5.
  - intros Hv. rewrite Hv in H6. by apply Z.eqb_eq in H6.
  - by apply Z.eqb_eq.
  - by apply Z.eqb_eq.
  - intros w Hw. rewrite Hw in H9. by apply Z.eqb_eq.
  - done.
  - intros l Hl. by rewrite Hl in H11.
  - intros o Ho. rewrite Ho in H12. by apply andb_true_iff in H12 as [? _].
  - intros o Ho. rewrite Ho in H12. apply andb_true_iff in H12 as [_ H12].
    by apply bool_decide_eq_true in H12.
  - intros l Hl. rewrite Hl in H13. by apply bool_decide_eq_true in H13.
  - intros o Ho. rewrite Ho in H14. by apply bool_decide_eq_true in H14.
  - destruct (KJT._lengths_offset_per_key k); [by left|right].
    by apply bool_decide_eq_true in H15.
Qed.

(** * The documented example *)

Lemma scenario_is : scenario = Ok scenario_kjt.
Proof. reflexivity. Qed.

Lemma scenario_wf : wf scenario_kjt.
Proof. apply wf_b_sound. vm_compute. reflexivity. Qed.

Lemma C3_witness :
  exists pieces k' r,
    KJT.split scenario_kjt [1; 1] = Ok (pieces, k')
    /\ KJT.concat pieces = Ok r
    /\ KJT.keys r = KJT.keys scenario_kjt
    /\ data (KJT.values r) = data (KJT.values scenario_kjt)
    /\ data <$> KJT.weights_or_none r = data <$> KJT.weights_or_none scenario_kjt
    /\ lengths_data r = lengths_data scenario_kjt
    /\ is_ok (lengths_data scenario_kjt) = true.
Proof.
  apply (C3_split_concat_roundtrip scenario_kjt [1; 1]).
  - apply wf_b_sound. vm_compute. reflexivity.
  - right. right. simpl. left. lia.
  - simpl. discriminate.
  - repeat constructor; lia.
  - reflexivity.
Defined.

Lemma empty_is : KJT.empty false cpu None None int32 = Ok empty_kjt.
Proof. reflexivity. Qed.

(** C3 as stated fails on the batch without keys: the only partition of
    zero keys is the empty one, [split] returns the empty list, and
    [concat] refuses the empty list. *)
Lemma C3_counterexample :
  wf empty_kjt
  /\ Forall (fun z => 0 < z) ([] : list Z)
  /\ zsum [] = py_len (KJT._keys empty_kjt)
  /\ exists k', KJT.split empty_kjt [] = Ok ([], k')
                /\ KJT.concat [] = Raise ValueError.
Proof.
  split_and!.
  - apply wf_b_sound. vm_compute. reflexivity.
  - constructor.
  - reflexivity.
  - eexists. split; reflexivity.
Qed.

(** * sync *)

(** After [sync] on a well-formed batch whose per-key lengths can be
    computed, the size of [values], the last entry of [offset_per_key] and
    the sum of [length_per_key] agree, and [offset_per_key] has one entry
    more than there are keys and starts at zero. *)
Lemma sync_invariant (k : KJT.t) :
  wf k -> computable k ->
  exists k' lpk opk,
    KJT.sync k = Ok k'
    /\ KJT.length_per_key_or_none k' = Some lpk
    /\ KJT.offset_per_key_or_none k' = Some opk
    /\ py_index opk (-1) = Ok (numel (KJT.values k'))
    /\ zsum lpk = numel (KJT.values k')
    /\ py_len opk = py_len (KJT.keys k') + 1
    /\ py_index opk 0 = Ok 0.
Proof.
  intros H Hc. rewrite (sync_spec k H Hc).
  set (lpk := key_sums (KJT._stride_per_key k) (lengths_of k)).
  exists (synced k), lpk, (_cumsum lpk).
  assert (Hsum : zsum lpk = numel (KJT._values k)).
  { unfold lpk. rewrite key_sums_total.
    - apply (wf_values k H).
    - apply (wf_spk_nonneg k H).
    - apply (wf_rows k H). }
  split_and!; try done.
  - unfold py_index, py_len. rewrite _cumsum_length.
    change (-1 <? 0) with true. cbv iota.
    destruct (Z.ltb_spec (-1 + Z.of_nat (S (length lpk))) 0) as [?|_]; [lia|].
    replace (Z.to_nat (-1 + Z.of_nat (S (length lpk)))) with (length lpk) by lia.
    rewrite _cumsum_lookup by lia. rewrite firstn_all.
    change (KJT.values (synced k)) with (KJT._values k). by rewrite Hsum.
  - unfold py_len. rewrite _cumsum_length. unfold lpk.
    rewrite key_sums_length, (wf_spk_length k H).
    change (KJT.keys (synced k)) with (KJT._keys k). lia.
Qed.

(** C2, at the input on which the code fails: the batch with one key and
    no row is well formed either way it is given; given by lengths,
    [sync] fills [length_per_key = [0]] and [offset_per_key = [0, 0]];
    given by offsets, [sync] raises. *)
Theorem C2_sync_raises_on_zero_rows_by_offsets :
  exists k_off k_len,
    zero_rows_by_offsets = Ok k_off /\ zero_rows_by_lengths = Ok k_len
    /\ wf k_off /\ wf k_len
    /\ lengths_of k_off = lengths_of k_len
    /\ KJT.sync k_off = Raise RuntimeError
    /\ exists k', KJT.sync k_len = Ok k'
                  /\ KJT.length_per_key_or_none k' = Some [0]
                  /\ KJT.offset_per_key_or_none k' = Some [0; 0].
Proof.
  eexists _, _. split; [reflexivity|]. split; [reflexivity|].
  split_and!.
  - apply wf_b_sound. vm_compute. reflexivity.
  - apply wf_b_sound. vm_compute. reflexivity.
  - reflexivity.
  - reflexivity.
  - eexists. split_and!; reflexivity.
Qed.

(** * C4: segment sizes that do not add up to the key count *)




(** * C9: the per-key aggregates of the documented example *)

(** C9: for the batch with values [1..8], offsets [0,2,2,3,4,5,8], keys
    ["F0","F1"] and stride 3, [length_per_key()] is [3,5] and
    [offset_per_key()] is [0,3,8]. *)
Theorem C9_scenario_per_key_aggregates :
  exists k,
    KJT.__init__ ["F0"; "F1"]%string (torch_tensor [1; 2; 3; 4; 5; 6; 7; 8] int64 cpu)
      None None (Some (torch_tensor [0; 2; 2; 3; 4; 5; 8] int64 cpu)) (Some 3)
      None None None None None None = Ok k
    /\ value_of (KJT.length_per_key k) = Ok [3; 5]
    /\ value_of (KJT.offset_per_key k) = Ok [0; 3; 8]
    /\ _maybe_compute_length_per_key (KJT.keys k) (KJT.stride k) (KJT.stride_per_key k)
         (KJT.variable_stride_per_key k) None (KJT.lengths_or_none k)
         (KJT.offsets_or_none k) = Ok [3; 5].
Proof. eexists. split_and!; reflexivity. Qed.

(** * C10: the stride of a batch with per-rank strides *)

(** C10: a KeyedJaggedTensor constructed with [stride_per_key_per_rank]
    (and addressing arrays the constructor accepts) is in variable-stride
    mode, and [stride()] returns 0 for the empty list, the common per-key
    total when the totals of all keys agree, and -1, without raising, when
    two of them differ. *)
Theorem C10_variable_stride_accessor
    keys values weights lengths offsets (sppr : list (list Z)) lpk opk ipk jt inv :
  addr_ok lengths = true -> addr_ok offsets = true ->
  exists k,
    KJT.__init__ keys values weights lengths offsets None (Some sppr) lpk opk ipk jt inv
    = Ok k
    /\ KJT.variable_stride_per_key k = true
    /\ KJT.stride_per_key k = map zsum sppr
    /\ (sppr = [] -> KJT.stride k = 0)
    /\ (forall s, sppr <> [] -> Forall (fun r => zsum r = s) sppr -> KJT.stride k = s)
    /\ (forall r1 r2, r1 ∈ sppr -> r2 ∈ sppr -> zsum r1 <> zsum r2 -> KJT.stride k = -1).
Proof.
  intros Hl Ho. rewrite init_variable by done. eexists. split; [done|].
  unfold KJT.variable_stride_per_key, KJT.stride_per_key, KJT.stride.
  cbn [KJT._variable_stride_per_key KJT._stride_per_key KJT._stride].
  split_and!; try done.
  - by intros ->.
  - intros s Hne Hall. destruct sppr as [|r0 rest]; [done|].
    cbn [map vbe_stride].
    assert (forallb (fun s0 => s0 =? zsum r0) (zsum r0 :: map zsum rest) = true) as ->.
    { apply forallb_forall. intros x Hx. apply Z.eqb_eq.
      change (zsum r0 :: map zsum rest) with (map zsum (r0 :: rest)) in Hx.
      apply in_map_iff in Hx as (r & <- & Hr).
      rewrite Forall_forall in Hall.
      rewrite (Hall r), (Hall r0); [done|apply list_elem_of_here|by apply list_elem_of_In]. }
    rewrite Forall_forall in Hall. apply Hall, list_elem_of_here.
  - intros r1 r2 H1 H2 Hne. destruct sppr as [|r0 rest]; [by apply not_elem_of_nil in H1|].
    cbn [map vbe_stride].
    destruct (forallb (fun s0 => s0 =? zsum r0) (zsum r0 :: map zsum rest)) eqn:E; [|done].
    exfalso. rewrite forallb_forall in E.
    assert (forall r, r ∈ r0 :: rest -> zsum r = zsum r0) as Hall.
    { intros r Hr. apply Z.eqb_eq, E.
      change (zsum r0 :: map zsum rest) with (map zsum (r0 :: rest)).
      apply in_map. by apply list_elem_of_In. }
    apply Hne. by rewrite (Hall r1), (Hall r2).
Qed.

Lemma C10_witness :
  exists k,
    KJT.__init__ ["F0"; "F1"]%string scenario_values None (Some scenario_lengths) None
      None (Some [[1; 2]; [2; 1]]) None None None None None = Ok k
    /\ KJT.variable_stride_per_key k = true
    /\ KJT.stride_per_key k = map zsum [[1; 2]; [2; 1]]
    /\ ([[1; 2]; [2; 1]] = [] -> KJT.stride k = 0)
    /\ (forall s, [[1; 2]; [2; 1]] <> [] ->
                  Forall (fun r => zsum r = s) [[1; 2]; [2; 1]] -> KJT.stride k = s)
    /\ (forall r1 r2, r1 ∈ [[1; 2]; [2; 1]] -> r2 ∈ [[1; 2]; [2; 1]] ->
                      zsum r1 <> zsum r2 -> KJT.stride k = -1).
Proof.
  apply (C10_variable_stride_accessor ["F0"; "F1"]%string scenario_values None
           (Some scenario_lengths) None [[1; 2]; [2; 1]] None None None None None).
  - reflexivity.
  - reflexivity.
Defined.

(** The two outcomes of C10 on concrete per-rank strides. *)
Example variable_stride_examples :
  (KJT.stride <$> (match KJT.__init__ ["F0"; "F1"]%string scenario_values None
                           (Some scenario_lengths) None None (Some [[1; 2]; [2; 1]])
                           None None None None None with
                   | Ok k => Some k | Raise _ => None end)) = Some 3
  /\ (KJT.stride <$> (match KJT.__init__ ["F0"; "F1"]%string scenario_values None
                              (Some scenario_lengths) None None (Some [[1; 1]; [4]])
                              None None None None None with
                      | Ok k => Some k | Raise _ => None end)) = Some (-1).
Proof. split; reflexivity. Qed.

(** * C5: construction without lengths and offsets *)

(** C5, as amended: constructing a JaggedTensor with neither lengths nor
    offsets raises AssertionError, and with at least one of them it
    succeeds exactly when each array supplied is empty or of an integer
    type.  A KeyedJaggedTensor is constructed without either (its
    [lengths()] and [offsets()] raise when first called); its construction
    succeeds exactly when each array supplied is empty or of an integer
    type and [stride] and [stride_per_key_per_rank] are not both given. *)
Theorem C5_construction_contract
    keys values weights lengths offsets stride sppr lpk opk ipk jt inv :
  JaggedTensor.__init__ values weights None None = Raise AssertionError
  /\ is_ok (JaggedTensor.__init__ values weights lengths offsets)
     = (is_some lengths || is_some offsets) && addr_ok lengths && addr_ok offsets
  /\ is_ok (KJT.__init__ keys values weights lengths offsets stride sppr lpk opk ipk jt inv)
     = addr_ok lengths && addr_ok offsets && negb (is_some stride && is_some sppr)
  /\ (exists k, KJT.__init__ keys values weights None None stride None lpk opk ipk jt inv
                = Ok k
                /\ KJT.lengths k = Raise AssertionError
                /\ KJT.offsets k = Raise AssertionError).
Proof.
  split_and!.
  - done.
  - unfold JaggedTensor.__init__, _assert_offsets_or_lengths_is_provided.
    destruct lengths as [l|], offsets as [o|]; cbn [is_some orb py_assert bind andb];
      rewrite ?assert_integers_spec; try done.
    + destruct (addr_ok (Some o)); cbn [bind]; [|by rewrite andb_false_r].
      by destruct (addr_ok (Some l)).
    + by destruct (addr_ok (Some l)).
    + by destruct (addr_ok (Some o)).
  - unfold KJT.__init__.
    destruct offsets as [o|]; rewrite ?assert_integers_spec.
    + destruct (addr_ok (Some o)) eqn:Eo; cbn [bind]; [|by rewrite andb_false_r].
      destruct lengths as [l|]; rewrite ?assert_integers_spec.
      * destruct (addr_ok (Some l)) eqn:El; cbn [bind]; [|done].
        by destruct sppr, stride.
      * cbn [bind]. by destruct sppr, stride.
    + cbn [bind]. destruct lengths as [l|]; rewrite ?assert_integers_spec.
      * destruct (addr_ok (Some l)) eqn:El; cbn [bind]; [|done].
        by destruct sppr, stride.
      * cbn [bind]. by destruct sppr, stride.
  - rewrite init_uniform by done. eexists. split_and!; done.
Qed.

(** C5 as stated fails for the keyed class: its constructor has no check
    that lengths or offsets is given. *)
Lemma C5_counterexample :
  exists k,
    KJT.__init__ ["F0"]%string (torch_tensor [] int64 cpu) None None None
      None None None None None None None = Ok k
    /\ KJT.lengths_or_none k = None /\ KJT.offsets_or_none k = None.
Proof. eexists. split_and!; reflexivity. Qed.

(** * C1: lookup of a key that occurs more than once *)

Section KeyIndex.

Let put (d : gmap string Z) (ik : Z * string) : gmap string Z := <[ik.2 := ik.1]> d.

Lemma index_fold_absent (keys : list string) (key : string) :
  forall (d : gmap string Z) (start : Z),
    key ∉ keys ->
    foldl put d (enumerate_from start keys) !! key = d !! key.
Proof.
  induction keys as [|x keys IH]; intros d start Hni; [done|].
  apply not_elem_of_cons in Hni as [Hne Hni].
  cbn [enumerate_from foldl]. rewrite IH by done.
  unfold put. simpl. by rewrite lookup_insert_ne.
Qed.

Lemma index_fold_last (keys : list string) (key : string) :
  forall (d : gmap string Z) (start : Z) (i : nat),
    keys !! i = Some key ->
    (forall j, (i < j)%nat -> keys !! j <> Some key) ->
    foldl put d (enumerate_from start keys) !! key = Some (start + Z.of_nat i).
Proof.
  induction keys as [|x keys IH]; intros d start i Hi Hlast; [done|].
  cbn [enumerate_from foldl].
  destruct i as [|i].
  - injection Hi as ->.
    rewrite index_fold_absent.
    + unfold put. simpl. rewrite lookup_insert_eq. f_equal. lia.
    + intros Hin. apply list_elem_of_lookup in Hin as [j Hj].
      apply (Hlast (S j)); [lia|done].
  - rewrite (IH _ _ i); [f_equal; lia|done|].
    intros j Hj. apply (Hlast (S j)). lia.
Qed.

Lemma index_per_key_last (keys : list string) (key : string) (i : nat) :
  keys !! i = Some key ->
  (forall j, (i < j)%nat -> keys !! j <> Some key) ->
  _maybe_compute_index_per_key keys None !! key = Some (Z.of_nat i).
Proof.
  intros Hi Hlast. unfold _maybe_compute_index_per_key, enumerate.
  by rewrite (index_fold_last keys key ∅ 0 i).
Qed.

Lemma index_per_key_absent (keys : list string) (key : string) :
  key ∉ keys -> _maybe_compute_index_per_key keys None !! key = None.
Proof.
  intros H. unfold _maybe_compute_index_per_key, enumerate.
  by rewrite (index_fold_absent keys key ∅ 0).
Qed.

End KeyIndex.

(** C1, as amended: for every well-formed KeyedJaggedTensor whose per-key
    lengths can be computed and whose key index, if cached, is the computed
    one, lookup by a key name resolves to the last position [i] at which
    the name appears in [keys]: the key index maps the name to [i], and
    [__getitem__] returns the JaggedTensor whose values and weights are
    the slice between entries [i] and [i+1] of [offset_per_key] and whose
    lengths are the slice between entries [i] and [i+1] of
    [lengths_offset_per_key]. *)
Theorem C1_getitem_resolves_to_last_occurrence (k : KJT.t) (key : string) (i : nat) :
  wf k -> computable k ->
  (forall d, KJT._index_per_key k = Some d ->
             d = _maybe_compute_index_per_key (KJT._keys k) None) ->
  KJT.keys k !! i = Some key ->
  (forall j, (i < j)%nat -> KJT.keys k !! j <> Some key) ->
  exists jt k' opk s e lo_s lo_e,
    KJT.__getitem__ k key = Ok (jt, k')
    /\ (KJT._key_indices k).1 !! key = Some (Z.of_nat i)
    /\ value_of (KJT.offset_per_key k) = Ok opk
    /\ opk !! i = Some s /\ opk !! S i = Some e
    /\ (KJT.lengths_offset_per_key k).1 !! i = Some lo_s
    /\ (KJT.lengths_offset_per_key k).1 !! S i = Some lo_e
    /\ data (JaggedTensor.values jt) = py_slice (data (KJT.values k)) s e
    /\ data <$> JaggedTensor.weights_or_none jt
       = (fun w => py_slice (data w) s e) <$> KJT.weights_or_none k
    /\ data <$> JaggedTensor.lengths_or_none jt = Some (py_slice (lengths_of k) lo_s lo_e)
    /\ JaggedTensor.offsets_or_none jt = None.
Proof.
  intros H Hc Hipk Hi Hlast. unfold KJT.keys in *.
  set (lpk := key_sums (KJT._stride_per_key k) (lengths_of k)).
  set (spk := KJT._stride_per_key k).
  assert (HiN : (i < length (KJT._keys k))%nat) by (by eapply lookup_lt_Some).
  assert (Hlpk : length lpk = length (KJT._keys k)).
  { unfold lpk. by rewrite key_sums_length, wf_spk_length. }
  assert (Hspk : length spk = length (KJT._keys k)) by by apply wf_spk_length.
  assert (Eidx : (KJT._key_indices k).1 !! key = Some (Z.of_nat i)).
  { unfold KJT._key_indices. cbn [fst].
    destruct (KJT._index_per_key k) as [d|] eqn:Ed.
    - rewrite (Hipk d eq_refl). cbn [_maybe_compute_index_per_key].
      fold (_maybe_compute_index_per_key (KJT._keys k) None).
      by apply index_per_key_last.
    - by apply index_per_key_last. }
  assert (Elo : (KJT.lengths_offset_per_key k).1 = _cumsum spk).
  { destruct (lengths_offset_per_key_spec k H) as (k2 & E2 & _). by rewrite E2. }
  pose proof (wf_synced k H) as Hs.
  set (k1 := KJT.set_index_per_key (synced k)
               (Some (_maybe_compute_index_per_key (KJT._keys (synced k))
                        (KJT._index_per_key (synced k))))).
  assert (H1 : wf k1) by (destruct Hs; by constructor).
  assert (E1 : (KJT._key_indices (synced k)).1 !! key = Some (Z.of_nat i)) by exact Eidx.
  destruct (lengths_spec k1 H1) as (l & El & Hl & Hli & _).
  pose proof (wf_set_lengths k1 l H1 Hl Hli) as H2.
  destruct (lengths_offset_per_key_spec _ H2) as (k3 & E3 & H3 & S3 & _).
  destruct (lengths_offset_per_key_spec _ H3) as (k4 & E4 & H4 & S4 & _).
  change (KJT._stride_per_key (KJT.set_lengths k1 (Some l))) with spk in E3.
  assert (Hspk3 : KJT._stride_per_key k3 = spk) by (by destruct S3).
  rewrite Hspk3 in E4.
  assert (Hv4 : KJT._values k4 = KJT._values k).
  { destruct S4 as [_ -> _ _ _ _ _ _ _ _]. by destruct S3 as [_ -> _ _ _ _ _ _ _ _]. }
  assert (Ew : exists w,
    match KJT._weights k with
    | Some _ =>
        let* w := match KJT._weights k with
                  | Some w => Ok w
                  | None => Raise AssertionError
                  end in
        Ok (Some (t_slice w (zsum (take i lpk)) (zsum (take (S i) lpk))))
    | None => Ok None
    end = Ok w
    /\ data <$> w
       = (fun w => py_slice (data w) (zsum (take i lpk)) (zsum (take (S i) lpk)))
           <$> KJT._weights k).
  { destruct (KJT._weights k); eexists; split; done. }
  destruct Ew as (w & Ew & Hw).
  exists (JaggedTensor.mk
            (t_slice (KJT._values k4) (zsum (take i lpk)) (zsum (take (S i) lpk))) w
            (Some (t_slice l (zsum (take i spk)) (zsum (take (S i) spk)))) None),
    k4, (_cumsum lpk), (zsum (take i lpk)), (zsum (take (S i) lpk)),
    (zsum (take i spk)), (zsum (take (S i) spk)).
  split.
  { unfold KJT.__getitem__.
    rewrite (offset_per_key_spec k H Hc). cbn [bind]. fold lpk.
    change (KJT.set_offset_per_key (KJT.set_length_per_key k (Some lpk))
              (Some (_cumsum lpk))) with (synced k).
    unfold KJT._key_indices in E1 |- *. cbn [fst] in E1. fold k1. rewrite E1. cbn [bind].
    rewrite (py_index_nat _ _ (zsum (take i lpk))) by (apply _cumsum_lookup; lia).
    cbn [bind].
    assert ((Z.of_nat i + 1 <? py_len (_cumsum lpk)) = true) as ->.
    { apply Z.ltb_lt. unfold py_len. rewrite _cumsum_length. lia. }
    replace (Z.of_nat i + 1) with (Z.of_nat (S i)) by lia.
    rewrite (py_index_nat _ _ (zsum (take (S i) lpk))) by (apply _cumsum_lookup; lia).
    cbn [bind].
    unfold KJT.weights_or_none, KJT.weights, _get_weights_or_throw.
    change (KJT._weights k1) with (KJT._weights k).
    rewrite Ew. cbn [bind].
    rewrite El. cbn [bind]. rewrite E3, E4.
    rewrite (py_index_nat _ _ (zsum (take i spk))) by (apply _cumsum_lookup; lia).
    cbn [bind].
    rewrite (py_index_nat _ _ (zsum (take (S i) spk))) by (apply _cumsum_lookup; lia).
    cbn [bind].
    unfold JaggedTensor.__init__, _assert_offsets_or_lengths_is_provided.
    cbn [is_some orb py_assert bind]. rewrite assert_integers_spec.
    rewrite addr_ok_int by done. cbn [bind]. reflexivity. }
  split; [exact Eidx|].
  split; [unfold value_of; by rewrite (offset_per_key_spec k H Hc)|].
  split; [apply _cumsum_lookup; lia|].
  split; [apply _cumsum_lookup; lia|].
  rewrite Elo.
  split; [apply _cumsum_lookup; lia|].
  split; [apply _cumsum_lookup; lia|].
  unfold JaggedTensor.values, JaggedTensor.weights_or_none, JaggedTensor.lengths_or_none,
    JaggedTensor.offsets_or_none, KJT.values, KJT.weights_or_none.
  cbn [JaggedTensor._values JaggedTensor._weights JaggedTensor._lengths
    JaggedTensor._offsets t_slice data with_data fmap option_fmap option_map].
  rewrite Hv4, Hl. split_and!; done.
Qed.

Lemma C1_witness :
  exists jt k' opk s e lo_s lo_e,
    KJT.__getitem__ duplicate_keys_kjt "F0" = Ok (jt, k')
    /\ (KJT._key_indices duplicate_keys_kjt).1 !! "F0"%string = Some (Z.of_nat 1)
    /\ value_of (KJT.offset_per_key duplicate_keys_kjt) = Ok opk
    /\ opk !! 1%nat = Some s /\ opk !! 2%nat = Some e
    /\ (KJT.lengths_offset_per_key duplicate_keys_kjt).1 !! 1%nat = Some lo_s
    /\ (KJT.lengths_offset_per_key duplicate_keys_kjt).1 !! 2%nat = Some lo_e
    /\ data (JaggedTensor.values jt) = py_slice (data (KJT.values duplicate_keys_kjt)) s e
    /\ data <$> JaggedTensor.weights_or_none jt
       = (fun w => py_slice (data w) s e) <$> KJT.weights_or_none duplicate_keys_kjt
    /\ data <$> JaggedTensor.lengths_or_none jt
       = Some (py_slice (lengths_of duplicate_keys_kjt) lo_s lo_e)
    /\ JaggedTensor.offsets_or_none jt = None.
Proof.
  apply (C1_getitem_resolves_to_last_occurrence duplicate_keys_kjt "F0" 1).
  - apply wf_b_sound. vm_compute. reflexivity.
  - right. right. simpl. left. lia.
  - simpl. discriminate.
  - reflexivity.
  - intros [|[|j]] Hj; simpl; try lia; discriminate.
Defined.

(** C1 as stated fails: in a batch whose two keys are both named "F0",
    the key index maps "F0" to position 1, not 0, and [__getitem__] returns
    the values [4..8] and lengths [1,1,3] of the second block, not the
    values [1,2,3] and lengths [2,0,1] of the first. *)
Lemma C1_counterexample :
  duplicate_keys_kjt.(KJT._keys) !! 0%nat = Some "F0"%string
  /\ (KJT._key_indices duplicate_keys_kjt).1 !! "F0"%string = Some 1
  /\ exists jt k',
       KJT.__getitem__ duplicate_keys_kjt "F0" = Ok (jt, k')
       /\ data (JaggedTensor.values jt) = [4; 5; 6; 7; 8]
       /\ data <$> JaggedTensor.lengths_or_none jt = Some [1; 1; 3]
       /\ data (JaggedTensor.values jt) <> py_slice (data scenario_values) 0 3.
Proof.
  split; [reflexivity|]. split; [by vm_compute|].
  eexists _, _. split; [by vm_compute|]. split_and!; [reflexivity|reflexivity|].
  vm_compute. discriminate.
Qed.

(** * C6: the choice between the two ways of summing blocks *)





(** * Gathering blocks *)


Section Pick.
Context {A : Type}.
Implicit Types (l : list A) (p : list nat).





Lemma mapM_pick (d : A) l p :
  Forall (fun i => i < length l)%nat p ->
  mapM (py_index l) (map Z.of_nat p) = Ok (pick d l p).
Proof.
  intros H. induction H as [|i p Hi _ IH]; [done|].
  cbn [map mapM]. rewrite IH. cbv beta in Hi.
  rewrite (py_index_nat l i (nth i l d)); [done|].
  destruct (nth_lookup_or_length l i d); [done|lia].
Qed.






End Pick.

Section Picked.
Implicit Types (k : KJT.t) (p : list nat).














End Picked.

(** * permute *)

Section Permute.
Implicit Types (k : KJT.t) (p : list nat).

Lemma pin_and_move_data (x : Tensor) (dev : torch_device) : data (_pin_and_move x dev) = data x.
Proof. by destruct dev. Qed.





End Permute.

Section PermuteSpec.
Implicit Types (k : KJT.t) (p : list nat).


End PermuteSpec.

Section PermuteRoundTrip.
Implicit Types (k r : KJT.t) (p : list nat).


End PermuteRoundTrip.




(** * Equality of a batch given by lengths and the same batch given by offsets *)

Section Equality.
Implicit Types (k : KJT.t).









Lemma stride_by_offsets (keys : list string) (stride : option Z) (L : Tensor) :
  _maybe_compute_stride_kjt keys stride None (Some (_to_offsets L))
  = _maybe_compute_stride_kjt keys stride (Some L) None.
Proof.
  unfold _maybe_compute_stride_kjt. destruct stride; [done|].
  destruct (py_len keys =? 0); [done|].
  assert (En : numel (_to_offsets L) = numel L + 1).
  { unfold numel, py_len. rewrite to_offsets_data, _cumsum_length. lia. }
  rewrite En. pose proof (py_len_nonneg (data L)).
  destruct (Z.ltb_spec 0 (numel L + 1)) as [_|?]; [|unfold numel in *; lia].
  f_equal. lia.
Qed.

End Equality.

Section EqualityProof.

Lemma regular_computable (k : KJT.t) : regular k -> computable k.
Proof.
  unfold regular, computable, KJT.keys, KJT.variable_stride_per_key, KJT.stride_per_key,
    KJT.stride.
  intros [?|Hr]; [right; by left|right; right].
  destruct (KJT._variable_stride_per_key k); [done|by left].
Qed.


End EqualityProof.





(** * Further properties: the module-level helpers *)

(** X1: [_cumsum(o)] has one entry more than [o], and its entry [i] is the
    sum of the first [i] entries of [o]; it starts at 0 and ends at
    [sum(o)]. *)
Theorem X1_cumsum_prefix_sums (o : list Z) :
  _cumsum o = map (fun i => zsum (take i o)) (seq 0 (S (length o)))
  /\ py_index (_cumsum o) 0 = Ok 0
  /\ py_index (_cumsum o) (-1) = Ok (zsum o).
Proof.
  split_and!.
  - apply list_eq. intros i. destruct (decide (i <= length o)%nat) as [Hi|Hi].
    + rewrite _cumsum_lookup by done.
      change (map ?f ?l) with (f <$> l).
      rewrite list_lookup_fmap, lookup_seq_lt by lia. done.
    + rewrite !lookup_ge_None_2; [done| |].
      * rewrite length_map, length_seq. lia.
      * rewrite _cumsum_length. lia.
  - reflexivity.
  - unfold py_index, py_len. rewrite _cumsum_length.
    change (-1 <? 0) with true. cbv iota.
    destruct (Z.ltb_spec (-1 + Z.of_nat (S (length o))) 0) as [?|_]; [lia|].
    replace (Z.to_nat (-1 + Z.of_nat (S (length o)))) with (length o) by lia.
    rewrite _cumsum_lookup by lia. by rewrite firstn_all.
Qed.





Lemma last_occurrence (keys : list string) (key : string) :
  key ∈ keys ->
  exists i : nat, keys !! i = Some key /\ forall j, (i < j)%nat -> keys !! j <> Some key.
Proof.
  induction keys as [|k keys IH]; intros Hin; [by apply elem_of_nil in Hin|].
  destruct (decide (key ∈ keys)) as [Hk|Hk].
  - destruct (IH Hk) as (i & Hi & Hlast). exists (S i). split; [done|].
    intros [|j] Hj; [lia|]. cbn. apply Hlast. lia.
  - apply elem_of_cons in Hin as [->|Hin]; [|done].
    exists 0%nat. split; [done|].
    intros [|j] Hj; [lia|]. cbn. intros Hj'. apply Hk.
    by eapply list_elem_of_lookup_2.
Qed.

(** X4: the key index computed from [keys] maps a name to a position
    exactly when that position is the last one at which the name occurs in
    [keys]; a name that does not occur has no entry. *)
Theorem X4_index_per_key_positions (keys : list string) (key : string) (z : Z) :
  _maybe_compute_index_per_key keys None !! key = Some z
  <-> exists i : nat,
        z = Z.of_nat i /\ keys !! i = Some key
        /\ forall j, (i < j)%nat -> keys !! j <> Some key.
Proof.
  split.
  - intros Hz. destruct (decide (key ∈ keys)) as [Hin|Hout].
    + destruct (last_occurrence keys key Hin) as (i & Hi & Hlast).
      exists i. rewrite (index_per_key_last keys key i Hi Hlast) in Hz.
      split_and!; [congruence|done|done].
    + by rewrite (index_per_key_absent keys key Hout) in Hz.
  - intros (i & -> & Hi & Hlast). by apply index_per_key_last.
Qed.

Lemma X4_witness :
  _maybe_compute_index_per_key ["a"; "b"; "a"]%string None !! "a"%string = Some 2.
Proof.
  apply (X4_index_per_key_positions ["a"; "b"; "a"]%string "a"%string 2).
  exists 2%nat. split_and!; [reflexivity|reflexivity|].
  intros j Hj. destruct j as [|[|[|j]]]; [lia|lia|lia|]. cbn. discriminate.
Defined.

(** X5: for per-key strides that are non-negative and add up to the number
    of rows, the bulk segmented sum and the per-block sums compute the same
    list, the sum of each key's block of rows; the choice between them
    changes no result. *)
Theorem X5_block_sums_agree (lengths : Tensor) (stride_per_key : list Z) :
  Forall (fun z => 0 <= z) stride_per_key ->
  numel lengths = zsum stride_per_key ->
  split_sum_path lengths stride_per_key
  = Ok (segment_sum_csr_path lengths stride_per_key)
  /\ segment_sum_csr_path lengths stride_per_key
     = map zsum (chunks (map Z.to_nat stride_per_key) (data lengths))
  /\ (forall r, _length_per_key_from_stride_per_key lengths stride_per_key = Ok r ->
                r = map zsum (chunks (map Z.to_nat stride_per_key) (data lengths))).
Proof.
  intros Hnn Hn.
  pose proof (segment_sum_csr_path_spec lengths stride_per_key Hnn) as E1.
  pose proof (split_sum_path_spec lengths stride_per_key Hnn Hn) as E2.
  unfold key_sums in *. split_and!; [by rewrite E1, E2|done|].
  intros r. unfold _length_per_key_from_stride_per_key.
  destruct (_use_segment_sum_csr stride_per_key) as [[|]|e]; cbn [bind];
    rewrite ?E1, ?E2; congruence.
Qed.

Lemma X5_witness :
  split_sum_path scenario_lengths [2; 4]
  = Ok (segment_sum_csr_path scenario_lengths [2; 4])
  /\ segment_sum_csr_path scenario_lengths [2; 4]
     = map zsum (chunks (map Z.to_nat [2; 4]) (data scenario_lengths))
  /\ (forall r, _length_per_key_from_stride_per_key scenario_lengths [2; 4] = Ok r ->
                r = map zsum (chunks (map Z.to_nat [2; 4]) (data scenario_lengths))).
Proof.
  apply (X5_block_sums_agree scenario_lengths [2; 4]).
  - repeat constructor; lia.
  - reflexivity.
Defined.

(** * Further properties: sync, split, permute, concat, lookup *)




Lemma cumsum_last (l : list Z) : py_index (_cumsum l) (py_len l) = Ok (zsum l).
Proof.
  unfold py_len. rewrite (py_index_nat _ (length l) (zsum l)); [done|].
  rewrite _cumsum_lookup by lia. by rewrite firstn_all.
Qed.

(** X7: [split] with the single segment [[len(keys)]] slices nothing: it
    returns one batch holding the tensors, strides and caches of [self]
    after [sync()], without inverse indices, and leaves [self] synced. *)
Theorem X7_split_single_segment (k : KJT.t) :
  wf k -> computable k ->
  let lpk := key_sums (KJT.stride_per_key k) (lengths_of k) in
  KJT.split k [py_len (KJT.keys k)]
  = Ok ([KJT.mk (KJT.keys k) (KJT.values k) (KJT.weights_or_none k)
           (KJT.lengths_or_none k) (KJT.offsets_or_none k)
           (KJT.stride_per_key_per_rank k) (KJT.stride_per_key k)
           (KJT.variable_stride_per_key k) (KJT.stride k)
           (Some lpk) (Some (_cumsum lpk)) (KJT._index_per_key k) (KJT._jt_dict k)
           None []],
        synced k).
Proof.
  intros H Hc lpk. unfold KJT.stride_per_key in lpk. unfold KJT.split.
  rewrite (length_per_key_spec k H Hc). cbv zeta. cbn [bind].
  pose proof (wf_set_length_per_key k H) as H1.
  assert (Hc1 : computable (KJT.set_length_per_key k (Some lpk))) by (by left).
  pose proof (offset_per_key_spec _ H1 Hc1) as E. cbv zeta in E.
  change (lengths_of (KJT.set_length_per_key k _)) with (lengths_of k) in E.
  change (KJT._stride_per_key (KJT.set_length_per_key k _))
    with (KJT._stride_per_key k) in E.
  change (KJT.set_offset_per_key _ _) with (synced k) in E.
  rewrite E. cbn [bind]. fold lpk. cbn [KJT.split_loop].
  change (KJT._keys (synced k)) with (KJT._keys k). unfold KJT.keys.
  assert (Hlen : py_len (KJT._keys k) = py_len lpk).
  { unfold py_len, lpk. by rewrite key_sums_length, (wf_spk_length k H). }
  rewrite Z.add_0_l, Hlen. fold lpk. rewrite cumsum_last. cbn [bind].
  rewrite Z.eqb_refl.
  unfold KJT.variable_stride_per_key, KJT.stride_per_key_per_rank, KJT.weights_or_none.
  change (KJT._variable_stride_per_key (synced k)) with (KJT._variable_stride_per_key k).
  change (KJT._stride_per_key_per_rank (synced k)) with (KJT._stride_per_key_per_rank k).
  change (KJT._stride (synced k)) with (KJT._stride k).
  change (KJT._values (synced k)) with (KJT._values k).
  change (KJT._weights (synced k)) with (KJT._weights k).
  change (KJT._lengths (synced k)) with (KJT._lengths k).
  change (KJT._offsets (synced k)) with (KJT._offsets k).
  change (KJT._length_per_key (synced k)) with (Some lpk).
  change (KJT._offset_per_key (synced k)) with (Some (_cumsum lpk)).
  change (KJT._index_per_key (synced k)) with (KJT._index_per_key k).
  change (KJT._jt_dict (synced k)) with (KJT._jt_dict k).
  assert (Hl : addr_ok (KJT._lengths k) = true).
  { destruct (KJT._lengths k) as [l|] eqn:El; [|done].
    apply addr_ok_int, (wf_lengths_dtype k H l El). }
  assert (Ho : addr_ok (KJT._offsets k) = true).
  { destruct (KJT._offsets k) as [o|] eqn:Eo; [|done].
    apply addr_ok_int, (wf_offsets_dtype k H o Eo). }
  destruct (KJT._variable_stride_per_key k) eqn:Ev.
  - rewrite init_variable by done. cbn [bind].
    rewrite <- Hlen.
    replace (py_slice (KJT._stride_per_key_per_rank k) 0 (py_len (KJT._keys k)))
      with (KJT._stride_per_key_per_rank k).
    2:{ change 0 with (Z.of_nat 0). unfold py_len. rewrite py_slice_nat by lia.
        rewrite drop_0, Nat.sub_0_r, <- (wf_nkeys k H). by rewrite firstn_all. }
    rewrite <- (wf_spk k H), <- (wf_variable k H Ev). reflexivity.
  - rewrite init_uniform by done. cbn [bind _maybe_compute_stride_kjt].
    rewrite <- (wf_uniform k H Ev), <- (wf_spk k H). reflexivity.
Qed.

Lemma X7_witness :
  let lpk := key_sums (KJT.stride_per_key scenario_kjt) (lengths_of scenario_kjt) in
  KJT.split scenario_kjt [py_len (KJT.keys scenario_kjt)]
  = Ok ([KJT.mk (KJT.keys scenario_kjt) (KJT.values scenario_kjt)
           (KJT.weights_or_none scenario_kjt)
           (KJT.lengths_or_none scenario_kjt) (KJT.offsets_or_none scenario_kjt)
           (KJT.stride_per_key_per_rank scenario_kjt) (KJT.stride_per_key scenario_kjt)
           (KJT.variable_stride_per_key scenario_kjt) (KJT.stride scenario_kjt)
           (Some lpk) (Some (_cumsum lpk)) (KJT._index_per_key scenario_kjt)
           (KJT._jt_dict scenario_kjt) None []],
        synced scenario_kjt).
Proof.
  apply (X7_split_single_segment scenario_kjt).
  - apply wf_b_sound. vm_compute. reflexivity.
  - right. right. simpl. left. lia.
Defined.

(** X8: for positive segment sizes that do not exceed the key count,
    [split] returns one well-formed batch per segment.  The batch of the
    segment that starts at key [s] and spans [n] keys holds those keys,
    their per-rank strides and the concatenation of their blocks of
    values, weights and rows; [self] keeps its data. *)
Theorem X8_split_pieces (k : KJT.t) (segments : list Z) :
  wf k -> computable k ->
  Forall (fun z => 0 < z) segments ->
  zsum segments <= py_len (KJT.keys k) ->
  exists pieces k',
    KJT.split k segments = Ok (pieces, k')
    /\ same_batch k k'
    /\ Forall2
         (fun (w : nat * nat) p =>
            wf p
            /\ KJT.keys p = sub w.1 w.2 (KJT.keys k)
            /\ data (KJT.values p) = concat (sub w.1 w.2 (value_blocks k))
            /\ data <$> KJT.weights_or_none p
               = (fun x => concat (sub w.1 w.2 (weight_blocks k x)))
                   <$> KJT.weights_or_none k
            /\ lengths_of p = concat (sub w.1 w.2 (row_blocks k))
            /\ KJT.stride_per_key_per_rank p
               = sub w.1 w.2 (KJT.stride_per_key_per_rank k)
            /\ KJT.variable_stride_per_key p = KJT.variable_stride_per_key k)
         (windows 0 (map Z.to_nat segments)) pieces.
Proof.
  intros H Hc Hpos Hsum.
  destruct (split_spec k segments H Hc Hpos Hsum) as (pieces & k' & E & _ & S & Hall).
  exists pieces, k'. split_and!; [done|done|].
  eapply Forall2_impl; [exact Hall|].
  intros w p [? ? ? ? ? ? ? ?]. by split_and!.
Qed.

Lemma X8_witness :
  exists pieces k',
    KJT.split scenario_kjt [1; 1] = Ok (pieces, k')
    /\ same_batch scenario_kjt k'
    /\ Forall2
         (fun (w : nat * nat) p =>
            wf p
            /\ KJT.keys p = sub w.1 w.2 (KJT.keys scenario_kjt)
            /\ data (KJT.values p) = concat (sub w.1 w.2 (value_blocks scenario_kjt))
            /\ data <$> KJT.weights_or_none p
               = (fun x => concat (sub w.1 w.2 (weight_blocks scenario_kjt x)))
                   <$> KJT.weights_or_none scenario_kjt
            /\ lengths_of p = concat (sub w.1 w.2 (row_blocks scenario_kjt))
            /\ KJT.stride_per_key_per_rank p
               = sub w.1 w.2 (KJT.stride_per_key_per_rank scenario_kjt)
            /\ KJT.variable_stride_per_key p
               = KJT.variable_stride_per_key scenario_kjt)
         (windows 0 (map Z.to_nat [1; 1])) pieces.
Proof.
  apply (X8_split_pieces scenario_kjt [1; 1]).
  - apply wf_b_sound. vm_compute. reflexivity.
  - right. right. simpl. left. lia.
  - repeat constructor; lia.
  - vm_compute. discriminate.
Defined.



Lemma mapM_raises {A B} (f : A -> result B) (e : exn) (l : list A) :
  Forall (fun x => is_ok (f x) = true \/ f x = Raise e) l ->
  Exists (fun x => f x = Raise e) l ->
  mapM f l = Raise e.
Proof.
  induction l as [|x l IH]; intros Hall Hex; [by apply Exists_nil in Hex|].
  apply Forall_cons in Hall as [Hx Hall]. cbn [mapM].
  destruct Hx as [Hx|Hx]; [|by rewrite Hx].
  destruct (f x) as [y|e'] eqn:Ex; [|done]. cbn [bind].
  apply Exists_cons in Hex as [Hex|Hex]; [congruence|].
  by rewrite (IH Hall Hex).
Qed.

Lemma py_index_raises {A} (l : list A) (i : Z) :
  is_ok (py_index l i) = true \/ py_index l i = Raise IndexError.
Proof.
  unfold py_index. destruct (_ <? 0); [by right|].
  destruct (l !! _); [by left|by right].
Qed.

(** X10: [permute] with a list of 32-bit indices that holds a position
    past the last key raises [IndexError], whatever else the list holds and
    whether or not an index tensor is passed. *)
Theorem X10_permute_index_out_of_range
    (k : KJT.t) (indices : list Z) (indices_tensor : option Tensor)
    (include_inverse_indices : bool) :
  wf k -> computable k ->
  Forall (fun i => - 2 ^ 31 <= i < 2 ^ 31) indices ->
  Exists (fun i => py_len (KJT.keys k) <= i) indices ->
  KJT.permute k indices indices_tensor include_inverse_indices = Raise IndexError.
Proof.
  intros H Hc _ Hex. unfold KJT.permute.
  rewrite (length_per_key_spec k H Hc). cbv zeta. cbn [bind].
  rewrite (mapM_raises _ IndexError); [done| |].
  - apply Forall_forall. intros i _.
    destruct (py_index_raises (KJT.keys (KJT.set_length_per_key k
        (Some (key_sums (KJT._stride_per_key k) (lengths_of k))))) i) as [E|E];
      [|right; by rewrite E].
    destruct (py_index _ i) as [key|]; [|done]. cbn [bind].
    destruct (py_index_raises (KJT.stride_per_key_per_rank (KJT.set_length_per_key k
        (Some (key_sums (KJT._stride_per_key k) (lengths_of k))))) i) as [E'|E'];
      [|right; by rewrite E'].
    destruct (py_index _ i) as [spr|]; [|done]. cbn [bind].
    destruct (py_index_raises (key_sums (KJT._stride_per_key k) (lengths_of k)) i)
      as [E''|E'']; [|right; by rewrite E''].
    destruct (py_index _ i) as [l|]; [|done]. by left.
  - eapply Exists_impl; [exact Hex|]. intros i Hi. cbv beta in *.
    rewrite py_index_past; [done|]. exact Hi.
Qed.

Lemma X10_witness : KJT.permute scenario_kjt [0; 2] None false = Raise IndexError.
Proof.
  apply (X10_permute_index_out_of_range scenario_kjt [0; 2] None false).
  - apply wf_b_sound. vm_compute. reflexivity.
  - right. right. simpl. left. lia.
  - repeat constructor; lia.
  - apply Exists_cons_tl, Exists_cons_hd. vm_compute. discriminate.
Defined.



Lemma Exists_first {A} (P : A -> Prop) (dec : forall x, Decision (P x)) (l : list A) :
  Exists P l ->
  exists l1 x l2, l = l1 ++ x :: l2 /\ Forall (fun y => ~ P y) l1 /\ P x.
Proof.
  induction l as [|y l IH]; intros Hex; [by apply Exists_nil in Hex|].
  destruct (dec y) as [Hy|Hy].
  - exists [], y, l. by split_and!.
  - apply Exists_cons in Hex as [Hex|Hex]; [done|].
    destruct (IH Hex) as (l1 & x & l2 & -> & Hl1 & Hx).
    exists (y :: l1), x, l2. split_and!; [done|by constructor|done].
Qed.

Lemma concat_loop_app (W V : bool) (l1 l2 : list KJT.t) :
  forall st,
    KJT.concat_loop W V st (l1 ++ l2)
    = let* st' := KJT.concat_loop W V st l1 in KJT.concat_loop W V st' l2.
Proof.
  induction l1 as [|p l1 IH]; intros st; [done|].
  cbn [app KJT.concat_loop].
  destruct (negb _); [done|].
  destruct (if W then _ else _) as [wl|]; [|done]. cbn [bind].
  destruct (KJT.lengths p) as [r|]; [|done]. cbn [bind].
  destruct (if V then _ else _) as [sp|]; [|done]. cbn [bind].
  apply IH.
Qed.

(** X12: [concat] refuses lists it cannot join.  A list that holds a batch
    of variable stride and one of uniform stride raises [AssertionError].
    Among well-formed batches of one stride mode (and one stride, if
    uniform), a batch that is weighted when the first one is not, or the
    other way round, raises [ValueError].  Among well-formed uniform-stride
    batches that are all weighted or all unweighted, a batch whose stride
    differs from that of the first one raises [AssertionError]. *)
Theorem X12_concat_refuses (p0 : KJT.t) (ps : list KJT.t) :
  ((exists p, p ∈ p0 :: ps /\ KJT.variable_stride_per_key p = true) ->
   (exists q, q ∈ p0 :: ps /\ KJT.variable_stride_per_key q = false) ->
   KJT.concat (p0 :: ps) = Raise AssertionError)
  /\ (Forall wf (p0 :: ps) ->
      Forall (fun p => KJT.variable_stride_per_key p = KJT.variable_stride_per_key p0) ps ->
      (KJT.variable_stride_per_key p0 = false ->
       Forall (fun p => KJT.stride p = KJT.stride p0) ps) ->
      Exists (fun p => is_some (KJT.weights_or_none p)
                       <> is_some (KJT.weights_or_none p0)) ps ->
      KJT.concat (p0 :: ps) = Raise ValueError)
  /\ (Forall wf (p0 :: ps) ->
      Forall (fun p => KJT.variable_stride_per_key p = false) (p0 :: ps) ->
      Forall (fun p => is_some (KJT.weights_or_none p)
                       = is_some (KJT.weights_or_none p0)) ps ->
      Exists (fun p => KJT.stride p <> KJT.stride p0) ps ->
      KJT.concat (p0 :: ps) = Raise AssertionError).
Proof.
  split_and!.
  - intros (p & Hp & Ep) (q & Hq & Eq). unfold KJT.concat.
    assert (forallb id (map KJT.variable_stride_per_key (p0 :: ps)) = false) as ->.
    { apply not_true_is_false. intros Hall.
      rewrite forallb_forall in Hall.
      specialize (Hall (KJT.variable_stride_per_key q)). rewrite Eq in Hall.
      enough (id false = true) by done. apply Hall. rewrite <- Eq.
      apply in_map. by apply list_elem_of_In. }
    assert (existsb id (map KJT.variable_stride_per_key (p0 :: ps)) = true) as ->.
    { apply existsb_exists. exists true. split; [|done]. rewrite <- Ep.
      apply in_map. by apply list_elem_of_In. }
    done.
  - intros Hwf HV HS Hex.
    set (W := is_some (KJT.weights_or_none p0)) in *.
    set (V := KJT.variable_stride_per_key p0) in *.
    assert (HV' : Forall (fun p => KJT.variable_stride_per_key p = V) (p0 :: ps))
      by by constructor.
    destruct (all_flags KJT.variable_stride_per_key V (p0 :: ps) ltac:(done) HV')
      as [Ef Ee].
    unfold KJT.concat. rewrite Ef, Ee.
    replace (V || negb V) with true by by destruct V.
    cbn [py_assert bind]. fold W.
    destruct (Exists_first _ (fun p => decide _) ps Hex) as (l1 & x & l2 & -> & Hl1 & Hx).
    rewrite app_comm_cons, concat_loop_app.
    assert (Hwf1 : Forall wf (p0 :: l1)).
    { rewrite app_comm_cons in Hwf. by apply Forall_app in Hwf as [? _]. }
    assert (HW1 : Forall (fun p => is_some (KJT._weights p) = W) (p0 :: l1)).
    { constructor; [done|]. eapply Forall_impl; [exact Hl1|].
      intros y Hy. cbv beta in Hy.
      destruct (decide (is_some (KJT._weights y) = W)) as [E|E]; [exact E|].
      exfalso. apply Hy. exact E. }
    assert (HV1 : Forall (fun p => KJT._variable_stride_per_key p = V) (p0 :: l1)).
    { rewrite app_comm_cons in HV'. by apply Forall_app in HV' as [? _]. }
    assert (HS1 : V = false -> Forall (fun p => KJT._stride p = KJT._stride p0) (p0 :: l1)).
    { intros EV. constructor; [done|]. specialize (HS EV).
      by apply Forall_app in HS as [? _]. }
    destruct (concat_loop_spec W V (KJT._stride p0) (p0 :: l1)
                (KJT.mk_concat_state true [] [] [] [] [] [] None) Hwf1 HW1 HV1 HS1
                ltac:(by left)) as (st' & -> & _).
    cbn [bind KJT.concat_loop].
    assert (negb (eqb W (is_some (KJT.weights_or_none x))) = true) as ->; [|done].
    destruct W, (is_some (KJT.weights_or_none x)); done.
  - intros Hwf HV HW Hex.
    set (W := is_some (KJT.weights_or_none p0)) in *.
    destruct (all_flags KJT.variable_stride_per_key false (p0 :: ps) ltac:(done) HV)
      as [Ef Ee].
    unfold KJT.concat. rewrite Ef, Ee. cbn [orb negb py_assert bind]. fold W.
    destruct (Exists_first _ (fun p => decide _) ps Hex) as (l1 & x & l2 & -> & Hl1 & Hx).
    rewrite app_comm_cons, concat_loop_app.
    assert (Hwf1 : Forall wf (p0 :: l1)).
    { rewrite app_comm_cons in Hwf. by apply Forall_app in Hwf as [? _]. }
    assert (HW1 : Forall (fun p => is_some (KJT._weights p) = W) (p0 :: l1)).
    { constructor; [done|]. by apply Forall_app in HW as [? _]. }
    assert (HV1 : Forall (fun p => KJT._variable_stride_per_key p = false) (p0 :: l1)).
    { rewrite app_comm_cons in HV. by apply Forall_app in HV as [? _]. }
    assert (HS1 : false = false ->
                  Forall (fun p => KJT._stride p = KJT._stride p0) (p0 :: l1)).
    { intros _. constructor; [done|]. eapply Forall_impl; [exact Hl1|].
      intros y Hy. cbv beta in Hy. unfold KJT.stride in Hy.
      destruct (decide (KJT._stride y = KJT._stride p0)); done. }
    destruct (concat_loop_spec W false (KJT._stride p0) (p0 :: l1)
                (KJT.mk_concat_state true [] [] [] [] [] [] None) Hwf1 HW1 HV1 HS1
                ltac:(by left))
      as (st' & -> & _ & _ & _ & _ & _ & _ & _ & _ & Hst).
    specialize (Hst eq_refl ltac:(done)).
    cbn [bind KJT.concat_loop].
    assert (HWx : is_some (KJT.weights_or_none x) = W).
    { apply Forall_app in HW as [_ HW]. by apply Forall_cons in HW as [? _]. }
    rewrite HWx. replace (eqb W W) with true by by destruct W. cbn [negb].
    assert (Hwfx : wf x).
    { apply Forall_cons in Hwf as [_ Hwf]. apply Forall_app in Hwf as [_ Hwf].
      by apply Forall_cons in Hwf as [? _]. }
    assert (Ew : exists wl,
      (if W then let* w := KJT.weights x in Ok (KJT.weight_list st' ++ [w])
       else Ok (KJT.weight_list st')) = Ok wl).
    { destruct W eqn:EW; [|by eexists].
      unfold KJT.weights, _get_weights_or_throw. unfold KJT.weights_or_none in HWx.
      destruct (KJT._weights x); [|done]. by eexists. }
    destruct Ew as (wl & ->). cbn [bind].
    destruct (lengths_spec x Hwfx) as (l & -> & _). cbn [bind].
    rewrite Hst. unfold KJT.stride in *.
    assert ((KJT._stride p0 =? KJT._stride x) = false) as ->; [|done].
    apply Z.eqb_neq. congruence.
Qed.

Lemma X12_witness :
  KJT.concat
    [scenario_kjt;
     KJT.mk ["F2"]%string (torch_tensor [9] int64 cpu) (Some (torch_tensor [1] float32 cpu))
       (Some (torch_tensor [0; 1; 0] int64 cpu)) None [[3]] [3] false 3
       None None None None None []]
  = Raise ValueError.
Proof.
  apply (X12_concat_refuses scenario_kjt).
  - do 2 (constructor; [apply wf_b_sound; vm_compute; reflexivity|]). constructor.
  - repeat constructor.
  - intros _. repeat constructor.
  - apply Exists_cons_hd. vm_compute. discriminate.
Defined.

(** X13: on a well-formed batch whose per-key lengths can be computed and
    whose key index, if cached, is the computed one, lookup by a name that
    is not in [keys] raises [KeyError]. *)
Theorem X13_getitem_missing_key (k : KJT.t) (key : string) :
  wf k -> computable k ->
  (forall d, KJT._index_per_key k = Some d ->
             d = _maybe_compute_index_per_key (KJT.keys k) None) ->
  key ∉ KJT.keys k ->
  KJT.__getitem__ k key = Raise KeyError.
Proof.
  intros H Hc Hd Hout. unfold KJT.__getitem__.
  rewrite (offset_per_key_spec k H Hc). cbv zeta. cbn [bind].
  unfold KJT._key_indices.
  change (KJT._keys (KJT.set_offset_per_key _ _)) with (KJT._keys k).
  change (KJT._index_per_key (KJT.set_offset_per_key _ _)) with (KJT._index_per_key k).
  assert (_maybe_compute_index_per_key (KJT._keys k) (KJT._index_per_key k) !! key = None)
    as E.
  { destruct (KJT._index_per_key k) as [d|] eqn:Ed.
    - cbn. rewrite (Hd d eq_refl). by apply index_per_key_absent.
    - by apply index_per_key_absent. }
  cbn zeta. rewrite E. done.
Qed.

Lemma X13_witness : KJT.__getitem__ scenario_kjt "F2" = Raise KeyError.
Proof.
  apply (X13_getitem_missing_key scenario_kjt "F2"%string).
  - apply wf_b_sound. vm_compute. reflexivity.
  - right. right. simpl. left. lia.
  - discriminate.
  - intros Hin. repeat (apply elem_of_cons in Hin as [Hin|Hin]; [discriminate|]).
    by apply elem_of_nil in Hin.
Defined.

(** * Further properties: what is sent to the other ranks *)

Lemma py_slice_to_nat {A} (l : list A) (i : nat) : py_slice_to l (Z.of_nat i) = take i l.
Proof.
  unfold py_slice_to, slice_bound, py_len.
  destruct (Z.ltb_spec (Z.of_nat i) 0) as [?|_]; [lia|].
  destruct (decide (i <= length l)%nat).
  - f_equal. lia.
  - rewrite !take_ge; [done|lia|lia].
Qed.

Lemma sum_by_splits_from (input_list : list Z) (rest : list Z) :
  forall pre : list Z,
    Forall (fun z => 0 <= z) pre -> Forall (fun z => 0 <= z) rest ->
    map (fun '(i, n) =>
           zsum (py_slice input_list (zsum (py_slice_to (pre ++ rest) i))
                   (zsum (py_slice_to (pre ++ rest) i) + n)))
      (enumerate_from (py_len pre) rest)
    = map zsum (chunks (map Z.to_nat rest) (drop (Z.to_nat (zsum pre)) input_list)).
Proof.
  induction rest as [|n rest IH]; intros pre Hpre Hrest; [done|].
  apply Forall_cons in Hrest as [Hn Hrest].
  cbn [enumerate_from map chunks]. f_equal.
  - unfold py_len at 1 2. rewrite py_slice_to_nat, take_app_length.
    pose proof (zsum_nonneg pre Hpre) as Hs.
    rewrite <- (Z2Nat.id (zsum pre)) at 1 2 by done.
    rewrite <- (Z2Nat.id n) at 1 by done. rewrite py_slice_sub. done.
  - replace (pre ++ n :: rest) with ((pre ++ [n]) ++ rest) by by rewrite <- app_assoc.
    replace (py_len pre + 1) with (py_len (pre ++ [n]))
      by (unfold py_len; rewrite length_app; cbn [length]; lia).
    rewrite IH; [|apply Forall_app; split; [done|by constructor]|done].
    rewrite drop_drop. do 3 f_equal.
    rewrite zsum_app. cbn [zsum foldr].
    pose proof (zsum_nonneg pre Hpre). lia.
Qed.

Lemma sum_by_splits_spec (input_list splits : list Z) :
  Forall (fun z => 0 <= z) splits ->
  _sum_by_splits input_list splits
  = map zsum (chunks (map Z.to_nat splits) input_list)
  /\ py_len (_sum_by_splits input_list splits) = py_len splits
  /\ (zsum splits = py_len input_list ->
      zsum (_sum_by_splits input_list splits) = zsum input_list).
Proof.
  intros Hnn.
  assert (E : _sum_by_splits input_list splits
              = map zsum (chunks (map Z.to_nat splits) input_list)).
  { unfold _sum_by_splits, enumerate.
    pose proof (sum_by_splits_from input_list splits [] ltac:(constructor) Hnn) as E.
    cbn [app] in E. change (py_len []) with 0 in E. rewrite E. done. }
  split_and!; [done| |].
  - rewrite E. unfold py_len. by rewrite length_map, chunks_length, length_map.
  - intros Hsum. rewrite E, <- zsum_concat, concat_chunks_all; [done|].
    apply Nat2Z.inj. rewrite zsum_to_nat by done. exact Hsum.
Qed.

(** X14: for non-negative split sizes, [_sum_by_splits] gives the sum of
    each consecutive block of the input, blocks past the end of the input
    counting for what is there; when the sizes add up to the length of
    the input, the sums add up to the sum of the input. *)
Theorem X14_sum_by_splits (input_list splits : list Z) :
  Forall (fun z => 0 <= z) splits ->
  _sum_by_splits input_list splits
  = map zsum (chunks (map Z.to_nat splits) input_list)
  /\ py_len (_sum_by_splits input_list splits) = py_len splits
  /\ (zsum splits = py_len input_list ->
      zsum (_sum_by_splits input_list splits) = zsum input_list).
Proof. apply sum_by_splits_spec. Qed.

Lemma X14_witness :
  _sum_by_splits [1; 2; 3; 4] [1; 3] = map zsum (chunks (map Z.to_nat [1; 3]) [1; 2; 3; 4])
  /\ py_len (_sum_by_splits [1; 2; 3; 4] [1; 3]) = py_len [1; 3]
  /\ (zsum [1; 3] = py_len [1; 2; 3; 4] ->
      zsum (_sum_by_splits [1; 2; 3; 4] [1; 3]) = zsum [1; 2; 3; 4]).
Proof.
  apply (X14_sum_by_splits [1; 2; 3; 4] [1; 3]).
  repeat constructor; lia.
Defined.

(** X15: on a well-formed batch whose per-key lengths can be computed,
    and for non-negative key splits that add up to the key count,
    [dist_labels], [dist_splits] and [dist_tensors] line up: they have the
    same number of entries, and the split sizes at a position add up to
    the size of the tensor at that position. *)
Theorem X15_dist_pieces_align (k : KJT.t) (key_splits : list Z) :
  wf k -> computable k ->
  Forall (fun z => 0 <= z) key_splits ->
  zsum key_splits = py_len (KJT.keys k) ->
  exists splits tensors k1 k2,
    KJT.dist_splits k key_splits = Ok (splits, k1)
    /\ KJT.dist_tensors k = Ok (tensors, k2)
    /\ same_batch k k1 /\ same_batch k k2
    /\ length splits = length (KJT.dist_labels k)
    /\ length tensors = length (KJT.dist_labels k)
    /\ (forall (i : nat) split x,
          splits !! i = Some split -> tensors !! i = Some x -> zsum split = numel x).
Proof.
  intros H Hc Hnn Hsum. unfold KJT.keys in Hsum.
  set (lpk := key_sums (KJT._stride_per_key k) (lengths_of k)).
  destruct (lengths_spec k H) as (l & El & Hl & _).
  assert (Hspk : py_len (KJT._stride_per_key k) = py_len (KJT._keys k)).
  { unfold py_len. by rewrite (wf_spk_length k H). }
  assert (Hlpk : py_len lpk = py_len (KJT._keys k)).
  { unfold py_len, lpk. by rewrite key_sums_length, (wf_spk_length k H). }
  destruct (sum_by_splits_spec (KJT._stride_per_key k) key_splits Hnn) as (_ & _ & Eb).
  destruct (sum_by_splits_spec lpk key_splits Hnn) as (_ & _ & El').
  specialize (Eb ltac:(by rewrite Hspk)). specialize (El' ltac:(by rewrite Hlpk)).
  assert (Eb' : zsum (_sum_by_splits (KJT._stride_per_key k) key_splits) = numel l).
  { rewrite Eb. unfold numel. rewrite Hl. symmetry. apply (wf_rows k H). }
  assert (Ev : zsum (_sum_by_splits lpk key_splits) = numel (KJT._values k)).
  { rewrite El'. unfold lpk. rewrite key_sums_total.
    - apply (wf_values k H).
    - apply (wf_spk_nonneg k H).
    - apply (wf_rows k H). }
  unfold KJT.dist_splits, KJT.dist_tensors, KJT.dist_labels.
  rewrite (length_per_key_spec k H Hc), El. cbv zeta. cbn [bind]. fold lpk.
  unfold KJT.variable_stride_per_key, KJT.weights_or_none, KJT.stride_per_key,
    KJT.values, KJT.weights, KJT.device.
  change (KJT._variable_stride_per_key (KJT.set_length_per_key k _))
    with (KJT._variable_stride_per_key k).
  change (KJT._variable_stride_per_key (KJT.set_lengths k _))
    with (KJT._variable_stride_per_key k).
  change (KJT._weights (KJT.set_length_per_key k _)) with (KJT._weights k).
  change (KJT._weights (KJT.set_lengths k _)) with (KJT._weights k).
  change (KJT._values (KJT.set_lengths k _)) with (KJT._values k).
  change (KJT._stride_per_key (KJT.set_lengths k _)) with (KJT._stride_per_key k).
  assert (Es : numel (_pin_and_move (torch_tensor_of_ints (KJT._stride_per_key k))
                        (t_device (KJT._values (KJT.set_lengths k (Some l)))))
               = zsum key_splits).
  { unfold numel. rewrite pin_and_move_data, Hsum, <- Hspk.
    by destruct (KJT._stride_per_key k). }
  assert (S1 : same_batch k (KJT.set_length_per_key k (Some lpk))) by by constructor.
  assert (S2 : same_batch k (KJT.set_lengths k (Some l)))
    by by apply same_batch_set_lengths.
  destruct (KJT._weights k) as [w|] eqn:Ew; cbn [is_some _get_weights_or_throw bind];
    destruct (KJT._variable_stride_per_key k); cbn [app];
    eexists _, _, _, _; (split; [reflexivity|]); (split; [reflexivity|]);
    (split_and!; [exact S1|exact S2|reflexivity|reflexivity|]);
    intros i split x Hi Hx;
    repeat (destruct i as [|i]; cbn in Hi, Hx;
            [injection Hi as <-; injection Hx as <-;
             first [exact Eb'|exact Ev|exact (eq_sym Es)
                   |rewrite (wf_weights k H w Ew); exact Ev]|]);
    done.
Qed.

Lemma X15_witness :
  exists splits tensors k1 k2,
    KJT.dist_splits scenario_kjt [1; 1] = Ok (splits, k1)
    /\ KJT.dist_tensors scenario_kjt = Ok (tensors, k2)
    /\ same_batch scenario_kjt k1 /\ same_batch scenario_kjt k2
    /\ length splits = length (KJT.dist_labels scenario_kjt)
    /\ length tensors = length (KJT.dist_labels scenario_kjt)
    /\ (forall (i : nat) split x,
          splits !! i = Some split -> tensors !! i = Some x -> zsum split = numel x).
Proof.
  apply (X15_dist_pieces_align scenario_kjt [1; 1]).
  - apply wf_b_sound. vm_compute. reflexivity.
  - right. right. simpl. left. lia.
  - repeat constructor; lia.
  - reflexivity.
Defined.

(** * Further properties: the other constructors *)

Lemma wf_by_lengths (k : KJT.t) (l : Tensor) (lpk' : option (list Z)) inv :
  wf k -> data l = lengths_of k -> is_int_dtype (t_dtype l) = true ->
  (lpk' = None \/ lpk' = Some (key_sums (KJT._stride_per_key k) (lengths_of k))) ->
  wf (KJT.mk (KJT._keys k) (KJT._values k) (KJT._weights k) (Some l) None
        (KJT._stride_per_key_per_rank k) (KJT._stride_per_key k)
        (KJT._variable_stride_per_key k) (KJT._stride k) lpk' None None None inv []).
Proof.
  intros H Hl Hi Hlpk. destruct H.
  constructor; unfold lengths_of; cbn; rewrite ?Hl; try done.
  - by intros ? [= <-].
  - intros x Hx. destruct Hlpk as [->| ->]; [done|]. by injection Hx as <-.
  - by left.
Qed.

(** X16: [from_lengths_sync] with a uniform stride, on arguments the
    constructor turns into a well-formed batch, always returns: the batch
    with its per-key caches filled, [length_per_key] holding the number of
    values of every key and [offset_per_key] their prefix sums.  This
    includes batches without rows. *)
Theorem X16_from_lengths_sync
    (keys : list string) (values : Tensor) (weights : option Tensor) (lengths : Tensor)
    (stride : option Z) (inverse_indices : option (list string * Tensor)) (k : KJT.t) :
  KJT.__init__ keys values weights (Some lengths) None stride None
    None None None None inverse_indices = Ok k ->
  wf k ->
  let lpk := key_sums (KJT.stride_per_key k) (data lengths) in
  KJT.from_lengths_sync keys values lengths weights stride None inverse_indices
  = Ok (KJT.set_offset_per_key (KJT.set_length_per_key k (Some lpk)) (Some (_cumsum lpk)))
  /\ zsum lpk = numel values
  /\ py_len lpk = py_len keys.
Proof.
  intros E H lpk. unfold KJT.from_lengths_sync. rewrite E. cbn [bind].
  assert (HL : addr_ok (Some lengths) = true).
  { unfold KJT.__init__ in E. rewrite assert_integers_spec in E.
    by destruct (addr_ok (Some lengths)). }
  rewrite init_uniform in E by done. injection E as <-.
  rewrite sync_spec; [| done | right; right; by right].
  split_and!; [done| |].
  - unfold lpk. change (data lengths) with (lengths_of
      (KJT.mk keys values weights (Some lengths) None
         (repeat [_maybe_compute_stride_kjt keys stride (Some lengths) None] (length keys))
         (map zsum
            (repeat [_maybe_compute_stride_kjt keys stride (Some lengths) None]
               (length keys)))
         false (_maybe_compute_stride_kjt keys stride (Some lengths) None)
         None None None None inverse_indices [])).
    unfold KJT.stride_per_key. rewrite key_sums_total.
    + apply (wf_values _ H).
    + apply (wf_spk_nonneg _ H).
    + apply (wf_rows _ H).
  - unfold py_len, lpk. rewrite key_sums_length. f_equal.
    apply (wf_spk_length _ H).
Qed.

Lemma X16_witness :
  let lpk := key_sums [0] [] in
  KJT.from_lengths_sync ["F0"]%string (torch_tensor [] int64 cpu) (torch_tensor [] int64 cpu)
    None None None None
  = Ok (KJT.set_offset_per_key
          (KJT.set_length_per_key
             (KJT.mk ["F0"]%string (torch_tensor [] int64 cpu) None
                (Some (torch_tensor [] int64 cpu)) None [[0]] [0] false 0
                None None None None None [])
             (Some lpk)) (Some (_cumsum lpk)))
  /\ zsum lpk = numel (torch_tensor [] int64 cpu)
  /\ py_len lpk = py_len ["F0"]%string.
Proof.
  apply (X16_from_lengths_sync ["F0"]%string (torch_tensor [] int64 cpu) None
           (torch_tensor [] int64 cpu) None None).
  - reflexivity.
  - apply wf_b_sound. vm_compute. reflexivity.
Defined.

(** X17: on a well-formed batch whose per-key lengths can be computed,
    [flatten_lengths] returns a well-formed batch with the same keys,
    values, weights, rows and strides, held by lengths only (no offsets),
    with [length_per_key] filled and every other cache and the inverse
    indices dropped; [self] keeps its data. *)
Theorem X17_flatten_lengths (k : KJT.t) :
  wf k -> computable k ->
  exists r k',
    KJT.flatten_lengths k = Ok (r, k')
    /\ same_batch k k' /\ wf r
    /\ KJT.keys r = KJT.keys k /\ KJT.values r = KJT.values k
    /\ KJT.weights_or_none r = KJT.weights_or_none k
    /\ data <$> KJT.lengths_or_none r = Some (lengths_of k)
    /\ KJT.offsets_or_none r = None
    /\ KJT.stride_per_key_per_rank r = KJT.stride_per_key_per_rank k
    /\ KJT.stride r = KJT.stride k
    /\ KJT.variable_stride_per_key r = KJT.variable_stride_per_key k
    /\ KJT.length_per_key_or_none r
       = Some (key_sums (KJT.stride_per_key k) (lengths_of k))
    /\ KJT.offset_per_key_or_none r = None
    /\ KJT.inverse_indices_or_none r = None.
Proof.
  intros H Hc.
  destruct (lengths_spec k H) as (l & El & Hl & Hli & _).
  set (k1 := KJT.set_lengths k (Some l)).
  assert (H1 : wf k1) by by apply wf_set_lengths.
  assert (Hc1 : computable k1) by by apply computable_set_lengths.
  pose proof (length_per_key_spec k1 H1 Hc1) as E1. cbv zeta in E1.
  change (lengths_of k1) with (data l) in E1. rewrite Hl in E1.
  change (KJT._stride_per_key k1) with (KJT._stride_per_key k) in E1.
  set (lpk := key_sums (KJT._stride_per_key k) (lengths_of k)) in *.
  pose proof (wf_by_lengths k l (Some lpk) None H Hl Hli ltac:(by right)) as Hr.
  unfold KJT.flatten_lengths, KJT.variable_stride_per_key, KJT.stride_per_key_per_rank.
  destruct (KJT._variable_stride_per_key k) eqn:Ev.
  - rewrite El. cbn [bind]. fold k1. rewrite E1. cbn [bind].
    rewrite init_variable by (done || by apply addr_ok_int). cbn [bind].
    change (KJT._keys (KJT.set_length_per_key k1 _)) with (KJT._keys k).
    change (KJT._values (KJT.set_length_per_key k1 _)) with (KJT._values k).
    change (KJT._weights (KJT.set_length_per_key k1 _)) with (KJT._weights k).
    rewrite <- (wf_spk k H), <- (wf_variable k H Ev).
    eexists _, _. split; [reflexivity|].
    split_and!;
      first [exact Hr|constructor; try done; exact Hl|cbn; by rewrite Hl|done].
  - rewrite El. cbn [bind]. fold k1. rewrite E1. cbn [bind].
    rewrite init_uniform by (done || by apply addr_ok_int).
    cbn [bind _maybe_compute_stride_kjt].
    change (KJT._keys (KJT.set_length_per_key k1 _)) with (KJT._keys k).
    change (KJT._values (KJT.set_length_per_key k1 _)) with (KJT._values k).
    change (KJT._weights (KJT.set_length_per_key k1 _)) with (KJT._weights k).
    rewrite <- (wf_uniform k H Ev), <- (wf_spk k H).
    eexists _, _. split; [reflexivity|].
    split_and!;
      first [exact Hr|constructor; try done; exact Hl|cbn; by rewrite Hl|done].
Qed.

Lemma X17_witness :
  exists r k',
    KJT.flatten_lengths scenario_kjt = Ok (r, k')
    /\ same_batch scenario_kjt k' /\ wf r
    /\ KJT.keys r = KJT.keys scenario_kjt /\ KJT.values r = KJT.values scenario_kjt
    /\ KJT.weights_or_none r = KJT.weights_or_none scenario_kjt
    /\ data <$> KJT.lengths_or_none r = Some (lengths_of scenario_kjt)
    /\ KJT.offsets_or_none r = None
    /\ KJT.stride_per_key_per_rank r = KJT.stride_per_key_per_rank scenario_kjt
    /\ KJT.stride r = KJT.stride scenario_kjt
    /\ KJT.variable_stride_per_key r = KJT.variable_stride_per_key scenario_kjt
    /\ KJT.length_per_key_or_none r
       = Some (key_sums (KJT.stride_per_key scenario_kjt) (lengths_of scenario_kjt))
    /\ KJT.offset_per_key_or_none r = None
    /\ KJT.inverse_indices_or_none r = None.
Proof.
  apply (X17_flatten_lengths scenario_kjt).
  - apply wf_b_sound. vm_compute. reflexivity.
  - right. right. simpl. left. lia.
Defined.

(** X18: [empty_like] of a well-formed batch returns a batch without keys,
    values or rows, on the device of the values, with the dtypes of the
    values, the weights (if there are weights) and the lengths, held by
    lengths only.  For a uniform-stride batch it keeps the stride and is
    well formed; for a variable-stride batch it keeps the per-rank strides
    of the keys of the original, although it has no key. *)
Theorem X18_empty_like (k : KJT.t) :
  wf k ->
  exists e k' l,
    KJT.empty_like k = Ok (e, k') /\ same_batch k k'
    /\ KJT.lengths k = Ok (l, k')
    /\ KJT.keys e = []
    /\ KJT.values e = torch_empty (Some (t_dtype (KJT.values k))) (KJT.device k)
    /\ KJT.weights_or_none e
       = (fun w => torch_empty (Some (t_dtype w)) (KJT.device k)) <$> KJT.weights_or_none k
    /\ KJT.lengths_or_none e = Some (torch_empty (Some (t_dtype l)) (KJT.device k))
    /\ KJT.offsets_or_none e = None
    /\ KJT.variable_stride_per_key e = KJT.variable_stride_per_key k
    /\ (KJT.variable_stride_per_key k = false ->
        KJT.stride e = KJT.stride k /\ KJT.stride_per_key_per_rank e = [] /\ wf e)
    /\ (KJT.variable_stride_per_key k = true ->
        KJT.stride_per_key_per_rank e = KJT.stride_per_key_per_rank k).
Proof.
  intros H.
  destruct (lengths_spec k H) as (l & El & Hl & Hli & _).
  unfold KJT.empty_like, KJT.variable_stride_per_key, KJT.stride_per_key_per_rank,
    KJT.weights_or_none, KJT.weights, KJT.stride, KJT.values, KJT.device.
  assert (Ew : match KJT._weights k with
               | Some _ =>
                   let* w := _get_weights_or_throw (KJT._weights k) in
                   Ok (Some (torch_empty (Some (t_dtype w)) (t_device (KJT._values k))))
               | None => Ok None
               end
               = Ok ((fun w => torch_empty (Some (t_dtype w)) (t_device (KJT._values k)))
                       <$> KJT._weights k)).
  { by destruct (KJT._weights k). }
  destruct (KJT._variable_stride_per_key k) eqn:Ev.
  - rewrite Ew, El. cbn [bind].
    rewrite init_variable by done. cbn [bind].
    eexists _, _, l. split; [reflexivity|].
    split_and!; try done.
  - rewrite Ew, El. cbn [bind].
    rewrite init_uniform by done. cbn [bind _maybe_compute_stride_kjt repeat length map].
    eexists _, _, l. split; [reflexivity|].
    split_and!; try done.
    intros _. split_and!; [done|done|].
    constructor; unfold lengths_of; cbn; try done.
    + destruct (KJT._weights k); [|done]. by intros ? [= <-].
    + by intros ? [= <-].
    + by left.
Qed.

Lemma X18_witness :
  exists e k' l,
    KJT.empty_like scenario_kjt = Ok (e, k') /\ same_batch scenario_kjt k'
    /\ KJT.lengths scenario_kjt = Ok (l, k')
    /\ KJT.keys e = []
    /\ KJT.values e
       = torch_empty (Some (t_dtype (KJT.values scenario_kjt))) (KJT.device scenario_kjt)
    /\ KJT.weights_or_none e
       = (fun w => torch_empty (Some (t_dtype w)) (KJT.device scenario_kjt))
           <$> KJT.weights_or_none scenario_kjt
    /\ KJT.lengths_or_none e
       = Some (torch_empty (Some (t_dtype l)) (KJT.device scenario_kjt))
    /\ KJT.offsets_or_none e = None
    /\ KJT.variable_stride_per_key e = KJT.variable_stride_per_key scenario_kjt
    /\ (KJT.variable_stride_per_key scenario_kjt = false ->
        KJT.stride e = KJT.stride scenario_kjt
        /\ KJT.stride_per_key_per_rank e = [] /\ wf e)
    /\ (KJT.variable_stride_per_key scenario_kjt = true ->
        KJT.stride_per_key_per_rank e = KJT.stride_per_key_per_rank scenario_kjt).
Proof.
  apply (X18_empty_like scenario_kjt).
  apply wf_b_sound. vm_compute. reflexivity.
Defined.

(** * Further properties: to_dict *)



Lemma torch_split_ok (x : Tensor) (sizes : list Z) :
  Forall (fun z => 0 <= z) sizes -> zsum sizes = numel x ->
  torch_split x sizes = Ok (map (with_data x) (chunks (map Z.to_nat sizes) (data x))).
Proof.
  intros H Hn. unfold torch_split.
  assert (forallb (fun s => 0 <=? s) sizes = true) as ->.
  { apply forallb_forall. intros s Hs. rewrite Forall_forall in H.
    apply Z.leb_le, H. by apply list_elem_of_In. }
  by rewrite Hn, Z.eqb_refl.
Qed.

Lemma match_list_nonempty {A B} (l : list A) (a b : B) :
  l <> [] -> match l with [] => a | _ :: _ => b end = b.
Proof. by destruct l. Qed.




(** X20: on a well-formed uniform-stride batch that has keys but no row
    (and no JaggedTensor dict cached), [to_dict] raises [IndexError]: the
    rows are unbound into an empty tuple, which the loop over the keys then
    indexes. *)
Theorem X20_to_dict_without_rows (k : KJT.t) :
  wf k -> computable k -> KJT._jt_dict k = None ->
  KJT.variable_stride_per_key k = false ->
  KJT.keys k <> [] -> lengths_of k = [] ->
  KJT.to_dict k = Raise IndexError.
Proof.
  intros H Hc Hjt Ev Hne Hrows.
  set (lpk := key_sums (KJT._stride_per_key k) (lengths_of k)).
  set (k1 := KJT.set_length_per_key k (Some lpk)).
  assert (H1 : wf k1) by by apply wf_set_length_per_key.
  destruct (lengths_spec k1 H1) as (l & El & Hl & Hli & _).
  change (lengths_of k1) with (lengths_of k) in Hl.
  unfold KJT.to_dict. rewrite (length_per_key_spec k H Hc). cbv zeta. cbn [bind].
  fold lpk. fold k1. rewrite El. cbn [bind].
  unfold KJT.stride, KJT.stride_per_key, KJT.keys, KJT.values,
    KJT.variable_stride_per_key, KJT.weights_or_none in *.
  change (KJT._stride (KJT.set_lengths k1 _)) with (KJT._stride k).
  change (KJT._stride_per_key (KJT.set_lengths k1 _)) with (KJT._stride_per_key k).
  change (KJT._keys (KJT.set_lengths k1 _)) with (KJT._keys k).
  change (KJT._values (KJT.set_lengths k1 _)) with (KJT._values k).
  change (KJT._variable_stride_per_key (KJT.set_lengths k1 _))
    with (KJT._variable_stride_per_key k).
  change (KJT._weights (KJT.set_lengths k1 _)) with (KJT._weights k).
  change (KJT._jt_dict (KJT.set_lengths k1 _)) with (KJT._jt_dict k).
  rewrite Hjt, Ev.
  assert (Hlen : length lpk = length (KJT._keys k)).
  { unfold lpk. by rewrite key_sums_length, (wf_spk_length k H). }
  unfold _maybe_compute_kjt_to_jt_dict.
  rewrite match_list_nonempty
    by (intros E0; rewrite E0 in Hlen; by destruct (KJT._keys k)).
  rewrite torch_split_ok; cycle 1.
  { apply (key_sums_nonneg_wf k H). }
  { unfold lpk. rewrite key_sums_total;
      [apply (wf_values k H)|apply (wf_spk_nonneg k H)|apply (wf_rows k H)]. }
  cbn [bind].
  assert ((numel l =? 0) = true) as ->.
  { unfold numel. by rewrite Hl, Hrows. }
  cbn [negb bind fst snd].
  assert (Ew : exists wl, match KJT._weights k with
               | Some w => let* wl := torch_split w lpk in Ok (Some wl)
               | None => Ok None
               end = Ok wl).
  { destruct (KJT._weights k) as [w|] eqn:Ew; [|by eexists]. cbn.
    rewrite torch_split_ok; [by eexists|apply (key_sums_nonneg_wf k H)|].
    rewrite (wf_weights k H w Ew). unfold lpk. rewrite key_sums_total;
      [apply (wf_values k H)|apply (wf_spk_nonneg k H)|apply (wf_rows k H)]. }
  destruct Ew as (wl & ->). cbn [bind].
  destruct (KJT._keys k) as [|key0 keys']; [done|]. reflexivity.
Qed.

Lemma X20_witness :
  KJT.to_dict
    (KJT.mk ["F0"]%string (torch_tensor [] int64 cpu) None
       (Some (torch_tensor [] int64 cpu)) None [[0]] [0] false 0
       None None None None None [])
  = Raise IndexError.
Proof.
  apply X20_to_dict_without_rows.
  - apply wf_b_sound. vm_compute. reflexivity.
  - right. right. simpl. by right.
  - reflexivity.
  - reflexivity.
  - discriminate.
  - reflexivity.
Defined.

(** * Further properties: JaggedTensor *)



Lemma to_dense_loop_spec (sliced : JaggedTensor.t -> result Tensor)
    (self : JaggedTensor.t) (o x : Tensor) (L : list Z) :
  JaggedTensor.offsets self = Ok (o, self) ->
  data o = _cumsum L ->
  sliced self = Ok x ->
  forall (n s : nat),
    (s + n <= length L)%nat ->
    JaggedTensor.to_dense_loop sliced self (map Z.of_nat (seq s n))
    = Ok (map (fun i => t_slice x (zsum (take i L)) (zsum (take (S i) L))) (seq s n),
          self).
Proof.
  intros Eo Ho Ex. induction n as [|n IH]; intros s Hs; [done|].
  cbn [seq map JaggedTensor.to_dense_loop]. rewrite Eo. cbn [bind].
  unfold t_item. rewrite Ho.
  rewrite (py_index_nat _ s (zsum (take s L))) by (apply _cumsum_lookup; lia).
  cbn [bind]. rewrite Eo. cbn [bind]. rewrite Ho.
  replace (Z.of_nat s + 1) with (Z.of_nat (S s)) by lia.
  rewrite (py_index_nat _ (S s) (zsum (take (S s) L))) by (apply _cumsum_lookup; lia).
  cbn [bind]. rewrite Ex. cbn [bind].
  rewrite IH by lia. done.
Qed.

Lemma singleton_windows {A} (bs : list (list A)) :
  map (fun i => concat (sub i 1 bs)) (seq 0 (length bs)) = bs.
Proof.
  apply list_eq. intros i. change (map ?f ?l) with (f <$> l).
  rewrite list_lookup_fmap.
  destruct (decide (i < length bs)%nat) as [Hi|Hi].
  - rewrite lookup_seq_lt by done. cbn. unfold sub.
    destruct (lookup_lt_is_Some_2 bs i Hi) as [b Hb]. rewrite Hb.
    rewrite (drop_S bs b i Hb). cbn. by rewrite take_0, app_nil_r.
  - rewrite lookup_seq_ge by lia. cbn. symmetry. apply lookup_ge_None_2. lia.
Qed.

Lemma slices_are_rows (x : Tensor) (L : list Z) :
  Forall (fun z => 0 <= z) L -> zsum L = numel x ->
  map (fun i => t_slice x (zsum (take i L)) (zsum (take (S i) L))) (seq 0 (length L))
  = map (with_data x) (chunks (map Z.to_nat L) (data x)).
Proof.
  intros Hnn Hsum.
  rewrite <- (singleton_windows (chunks (map Z.to_nat L) (data x))) at 1.
  rewrite chunks_length, length_map, map_map.
  apply map_ext_in. intros i _.
  pose proof (t_slice_blocks x L i 1 Hnn) as E.
  replace (i + 1)%nat with (S i) in E by lia.
  unfold t_slice in *. unfold with_data in *. cbn [data] in E. f_equal.
  apply E.
  apply Nat2Z.inj_le. rewrite zsum_to_nat by done. unfold numel, py_len in Hsum. lia.
Qed.

Lemma to_dense_rows (sliced : JaggedTensor.t -> result Tensor)
    (jt : JaggedTensor.t) (o x : Tensor) (L : list Z) :
  let jt1 := JaggedTensor.mk (JaggedTensor._values jt) (JaggedTensor._weights jt)
               (JaggedTensor._lengths jt) (Some o) in
  JaggedTensor.offsets jt = Ok (o, jt1) ->
  data o = _cumsum L ->
  Forall (fun z => 0 <= z) L -> zsum L = numel x ->
  sliced jt1 = Ok x ->
  (let* r := JaggedTensor.offsets jt in
   let '(o, self) := r in
   JaggedTensor.to_dense_loop sliced self (py_range (numel o - 1)))
  = Ok (map (with_data x) (chunks (map Z.to_nat L) (data x)), jt1).
Proof.
  intros jt1 Eo Ho Hnn Hsum Ex. rewrite Eo. cbn [bind].
  assert (py_range (numel o - 1) = map Z.of_nat (seq 0 (length L))) as ->.
  { unfold py_range, numel, py_len. rewrite Ho, _cumsum_length. do 2 f_equal. lia. }
  rewrite (to_dense_loop_spec sliced jt1 o x L); [|done|done|done|lia].
  by rewrite slices_are_rows.
Qed.




Lemma zsum_numel (x : Tensor) (l : list Tensor) :
  zsum (map numel l) = numel (with_data x (concat (map data l))).
Proof.
  unfold numel, with_data, py_len. cbn [data].
  induction l as [|v l IH]; [done|].
  cbn [map concat zsum foldr]. rewrite length_app. unfold zsum in IH. lia.
Qed.

Lemma torch_cat_ok (x : Tensor) (xs : list Tensor) :
  torch_cat (x :: xs) = Ok (with_data x (concat (map data (x :: xs)))).
Proof. done. Qed.

(** X22: [from_dense] of a non-empty list of tensors of one dtype and
    device (with or without a non-empty list of weights) returns a
    JaggedTensor held by 32-bit lengths, the sizes of the tensors, and
    [to_dense] of that JaggedTensor gives back the list. *)
Theorem X22_from_dense_to_dense
    (v0 : Tensor) (vs : list Tensor) (weights : option (list Tensor)) :
  Forall (fun v => t_dtype v = t_dtype v0 /\ t_device v = t_device v0) vs ->
  weights <> Some [] ->
  exists jt rows jt',
    JaggedTensor.from_dense (v0 :: vs) weights = Ok jt
    /\ JaggedTensor.lengths_or_none jt = Some (torch_IntTensor (map numel (v0 :: vs)))
    /\ JaggedTensor.offsets_or_none jt = None
    /\ data (JaggedTensor.values jt) = concat (map data (v0 :: vs))
    /\ JaggedTensor.to_dense jt = Ok (rows, jt')
    /\ rows = v0 :: vs.
Proof.
  intros Hsame Hw. unfold JaggedTensor.from_dense. rewrite torch_cat_ok. cbn [bind].
  assert (Ew : exists w, match weights with
                         | Some ws => let* w := torch_cat ws in Ok (Some w)
                         | None => Ok None
                         end = Ok w).
  { destruct weights as [[|w ws]|]; [done|by eexists|by eexists]. }
  destruct Ew as (w & ->). cbn [bind].
  set (values := v0 :: vs) in *.
  set (x := with_data v0 (concat (map data values))).
  set (L := map numel values).
  assert (Ei : JaggedTensor.__init__ x w (Some (torch_IntTensor L)) None
               = Ok (JaggedTensor.mk x w (Some (torch_IntTensor L)) None)).
  { unfold JaggedTensor.__init__, _assert_offsets_or_lengths_is_provided.
    cbn [is_some orb py_assert bind]. rewrite assert_integers_spec.
    by rewrite addr_ok_int. }
  rewrite Ei. eexists _, _, _. split; [reflexivity|].
  split_and!; [done|done|done| |].
  - unfold JaggedTensor.to_dense.
    apply (to_dense_rows (fun self => Ok (JaggedTensor.values self))
             (JaggedTensor.mk x w (Some (torch_IntTensor L)) None)
             (_to_offsets (torch_IntTensor L)) x L).
    + done.
    + by rewrite to_offsets_data.
    + apply Forall_forall. intros z Hz. apply list_elem_of_In, in_map_iff in Hz
        as (v & <- & _). unfold numel, py_len. lia.
    + unfold L, x. apply zsum_numel.
    + done.
  - unfold x, L. cbn [data with_data].
    assert (EL : map Z.to_nat (map numel values) = map length (map data values)).
    { rewrite !map_map. apply map_ext. intros v. unfold numel, py_len. lia. }
    rewrite EL, chunks_concat', map_map.
    unfold values. cbn [map]. f_equal; [by destruct v0|].
    rewrite <- (map_id vs) at 2. apply map_ext_in. intros v Hv.
    rewrite Forall_forall in Hsame. apply list_elem_of_In, Hsame in Hv as [E1 E2].
    unfold with_data. cbn [t_dtype t_device]. destruct v as [dt dev d].
    cbn in *. by rewrite E1, E2.
Qed.

Lemma X22_witness :
  exists jt rows jt',
    JaggedTensor.from_dense
      [torch_tensor [1] int64 cpu; torch_tensor [] int64 cpu; torch_tensor [7; 8] int64 cpu]
      None = Ok jt
    /\ JaggedTensor.lengths_or_none jt
       = Some (torch_IntTensor
                 (map numel [torch_tensor [1] int64 cpu; torch_tensor [] int64 cpu;
                             torch_tensor [7; 8] int64 cpu]))
    /\ JaggedTensor.offsets_or_none jt = None
    /\ data (JaggedTensor.values jt)
       = concat (map data [torch_tensor [1] int64 cpu; torch_tensor [] int64 cpu;
                           torch_tensor [7; 8] int64 cpu])
    /\ JaggedTensor.to_dense jt = Ok (rows, jt')
    /\ rows = [torch_tensor [1] int64 cpu; torch_tensor [] int64 cpu;
               torch_tensor [7; 8] int64 cpu].
Proof.
  apply (X22_from_dense_to_dense (torch_tensor [1] int64 cpu)
           [torch_tensor [] int64 cpu; torch_tensor [7; 8] int64 cpu] None).
  - repeat constructor.
  - discriminate.
Defined.











(** * Further properties: rebuilding a batch from what was sent *)

(** X26: [dist_init] without a recat tensor puts a uniform-stride batch
    back together from its [dist_tensors].  For a well-formed
    uniform-stride batch whose per-key lengths can be computed and
    per-rank strides that add up to its stride, it returns a well-formed
    batch with the same keys, values, weights, rows and stride, held by
    lengths, with both per-key caches filled. *)
Theorem X26_dist_init_rebuilds
    (k : KJT.t) (num_workers : Z) (recat : option Tensor) (stride_per_rank : list Z)
    (stagger : Z) :
  wf k -> computable k ->
  KJT.variable_stride_per_key k = false ->
  zsum stride_per_rank = KJT.stride k ->
  (forall r, recat = Some r -> numel r = 0) ->
  exists tensors k' r,
    KJT.dist_tensors k = Ok (tensors, k')
    /\ KJT.dist_init (KJT.keys k) tensors false num_workers recat (Some stride_per_rank)
         stagger = Ok r
    /\ wf r
    /\ KJT.keys r = KJT.keys k /\ KJT.values r = KJT.values k
    /\ KJT.weights_or_none r = KJT.weights_or_none k
    /\ data <$> KJT.lengths_or_none r = Some (lengths_of k)
    /\ KJT.offsets_or_none r = None
    /\ KJT.stride r = KJT.stride k
    /\ KJT.stride_per_key_per_rank r = KJT.stride_per_key_per_rank k
    /\ KJT.variable_stride_per_key r = false
    /\ KJT.length_per_key_or_none r
       = Some (key_sums (KJT.stride_per_key k) (lengths_of k))
    /\ KJT.offset_per_key_or_none r
       = Some (_cumsum (key_sums (KJT.stride_per_key k) (lengths_of k))).
Proof.
  intros H Hc Ev Hsum Hrecat.
  destruct (lengths_spec k H) as (l & El & Hl & Hli & _).
  unfold KJT.variable_stride_per_key, KJT.stride, KJT.keys, KJT.values,
    KJT.weights_or_none, KJT.stride_per_key, KJT.stride_per_key_per_rank in *.
  pose proof (wf_by_lengths k l None None H Hl Hli ltac:(by left)) as Hr.
  rewrite Ev in Hr.
  set (r0 := KJT.mk (KJT._keys k) (KJT._values k) (KJT._weights k) (Some l) None
               (KJT._stride_per_key_per_rank k) (KJT._stride_per_key k) false
               (KJT._stride k) None None None None None []) in *.
  assert (Es : KJT.sync r0 = Ok (synced r0)).
  { apply sync_spec; [done|]. right. right. cbn. by right. }
  assert (Ei : KJT.__init__ (KJT._keys k) (KJT._values k) (KJT._weights k) (Some l) None
                 (Some (zsum stride_per_rank)) None None None None None None = Ok r0).
  { rewrite init_uniform by (done || by apply addr_ok_int).
    cbn [_maybe_compute_stride_kjt]. rewrite Hsum.
    by rewrite <- (wf_uniform k H Ev), <- (wf_spk k H). }
  assert (Erecat : match recat with
                   | Some recat0 => 0 <? numel recat0
                   | None => false
                   end = false).
  { destruct recat as [r|]; [|done]. rewrite (Hrecat r eq_refl). done. }
  unfold KJT.dist_tensors. rewrite El. cbn [bind].
  unfold KJT.variable_stride_per_key, KJT.weights_or_none, KJT.values, KJT.weights.
  change (KJT._variable_stride_per_key (KJT.set_lengths k _))
    with (KJT._variable_stride_per_key k).
  change (KJT._weights (KJT.set_lengths k _)) with (KJT._weights k).
  change (KJT._values (KJT.set_lengths k _)) with (KJT._values k).
  rewrite Ev.
  assert (Hfin : exists r,
    Ok (synced r0) = Ok r /\ wf r
    /\ KJT._keys r = KJT._keys k /\ KJT._values r = KJT._values k
    /\ KJT._weights r = KJT._weights k
    /\ data <$> KJT.lengths_or_none r = Some (lengths_of k)
    /\ KJT.offsets_or_none r = None
    /\ KJT._stride r = KJT._stride k
    /\ KJT._stride_per_key_per_rank r = KJT._stride_per_key_per_rank k
    /\ KJT._variable_stride_per_key r = false
    /\ KJT.length_per_key_or_none r
       = Some (key_sums (KJT._stride_per_key k) (lengths_of k))
    /\ KJT.offset_per_key_or_none r
       = Some (_cumsum (key_sums (KJT._stride_per_key k) (lengths_of k)))).
  { exists (synced r0). split; [done|]. split; [by apply wf_synced|].
    split_and!; try done.
    - cbn. by rewrite Hl.
    - cbn. unfold lengths_of. cbn. by rewrite Hl.
    - cbn. unfold lengths_of. cbn. by rewrite Hl. }
  destruct Hfin as (r & Er & Hfin).
  destruct (KJT._weights k) as [w|] eqn:Ew;
    cbn [_get_weights_or_throw bind app];
    eexists _, _, r; (split; [reflexivity|]); (split; [|exact Hfin]);
    unfold KJT.dist_init, py_index, py_len; cbn [length];
    with_strategy opaque [KJT.__init__ KJT.sync zsum numel] simpl;
    destruct recat as [rc|]; try rewrite (Hrecat rc eq_refl);
    with_strategy opaque [KJT.__init__ KJT.sync zsum numel] simpl;
    rewrite Ei; cbn [bind]; by rewrite Es.
Qed.

Lemma X26_witness :
  exists tensors k' r,
    KJT.dist_tensors scenario_kjt = Ok (tensors, k')
    /\ KJT.dist_init (KJT.keys scenario_kjt) tensors false 2 None (Some [1; 2]) 1 = Ok r
    /\ wf r
    /\ KJT.keys r = KJT.keys scenario_kjt /\ KJT.values r = KJT.values scenario_kjt
    /\ KJT.weights_or_none r = KJT.weights_or_none scenario_kjt
    /\ data <$> KJT.lengths_or_none r = Some (lengths_of scenario_kjt)
    /\ KJT.offsets_or_none r = None
    /\ KJT.stride r = KJT.stride scenario_kjt
    /\ KJT.stride_per_key_per_rank r = KJT.stride_per_key_per_rank scenario_kjt
    /\ KJT.variable_stride_per_key r = false
    /\ KJT.length_per_key_or_none r
       = Some (key_sums (KJT.stride_per_key scenario_kjt) (lengths_of scenario_kjt))
    /\ KJT.offset_per_key_or_none r
       = Some (_cumsum (key_sums (KJT.stride_per_key scenario_kjt)
                          (lengths_of scenario_kjt))).
Proof.
  apply (X26_dist_init_rebuilds scenario_kjt 2 None [1; 2] 1).
  - apply wf_b_sound. vm_compute. reflexivity.
  - right. right. simpl. left. lia.
  - reflexivity.
  - reflexivity.
  - discriminate.
Defined.

(** ** from_jt_dict *)














(** ** from_offsets_sync *)

Lemma wf_from_offsets keys values weights (L : Tensor) sppr spk variable stride inv :
  wf (KJT.mk keys values weights (Some L) None sppr spk variable stride
        None None None None inv []) ->
  wf (KJT.mk keys values weights None (Some (_to_offsets L)) sppr spk variable stride
        None None None None inv [])
  /\ lengths_of (KJT.mk keys values weights None (Some (_to_offsets L)) sppr spk variable
                   stride None None None None inv []) = data L.
Proof.
  intros H.
  assert (E : lengths_of (KJT.mk keys values weights None (Some (_to_offsets L)) sppr spk
                            variable stride None None None None inv []) = data L).
  { unfold lengths_of. cbn [KJT._lengths KJT._offsets]. by apply to_lengths_cumsum. }
  split; [|exact E].
  destruct H. unfold lengths_of in *.
  cbn [KJT._lengths KJT._offsets KJT._stride_per_key
    KJT._stride_per_key_per_rank KJT._keys KJT._variable_stride_per_key KJT._stride
    KJT._values KJT._weights KJT._length_per_key KJT._offset_per_key
    KJT._lengths_offset_per_key] in *.
  unfold lengths_of in E. cbn [KJT._lengths KJT._offsets] in E.
  constructor; unfold lengths_of;
    cbn [KJT._lengths KJT._offsets KJT._stride_per_key
      KJT._stride_per_key_per_rank KJT._keys KJT._variable_stride_per_key KJT._stride
      KJT._values KJT._weights KJT._length_per_key KJT._offset_per_key
      KJT._lengths_offset_per_key]; rewrite ?E; try done.
  - intros o [= <-]. by apply (wf_lengths_dtype0 L).
  - intros o [= <-]. done.
Qed.

Lemma init_by_offsets keys values weights (L : Tensor) stride sppr inv (k : KJT.t) :
  KJT.__init__ keys values weights (Some L) None stride sppr None None None None inv
  = Ok k ->
  exists sp spk v s,
    k = KJT.mk keys values weights (Some L) None sp spk v s None None None None inv []
    /\ (is_int_dtype (t_dtype L) = true ->
        KJT.__init__ keys values weights None (Some (_to_offsets L)) stride sppr
          None None None None inv
        = Ok (KJT.mk keys values weights None (Some (_to_offsets L)) sp spk v s
                None None None None inv [])).
Proof.
  intros E1.
  assert (HL : addr_ok (Some L) = true).
  { unfold KJT.__init__ in E1. rewrite assert_integers_spec in E1.
    by destruct (addr_ok (Some L)). }
  destruct sppr as [sp|].
  - destruct stride as [s|].
    { unfold KJT.__init__ in E1. rewrite assert_integers_spec, HL in E1. done. }
    rewrite init_variable in E1 by done. injection E1 as <-.
    eexists _, _, _, _. split; [reflexivity|]. intros Hi.
    by rewrite init_variable by (done || by apply addr_ok_int).
  - rewrite init_uniform in E1 by done. injection E1 as <-.
    eexists _, _, _, _. split; [reflexivity|]. intros Hi.
    rewrite init_uniform by (done || by apply addr_ok_int).
    cbv zeta. by rewrite stride_by_offsets.
Qed.

(** X28: [from_offsets_sync] against [from_lengths_sync], on lengths that
    give a well-formed batch and on the offsets that are their running
    sums.  When the batch has no key, or a positive uniform stride, or
    per-rank strides on which the cost model evaluates, both constructors
    return: the one by offsets gives the same batch held by those offsets,
    with the per-key caches the one by lengths fills.  When the batch has
    keys and the uniform stride 0 (no rows), the constructor by lengths
    returns and the constructor by offsets raises [RuntimeError]. *)
Theorem X28_from_offsets_sync
    (keys : list string) (values : Tensor) (weights : option Tensor) (L : Tensor)
    (stride : option Z) (stride_per_key_per_rank : option (list (list Z)))
    (inverse_indices : option (list string * Tensor)) (k : KJT.t) :
  KJT.__init__ keys values weights (Some L) None stride stride_per_key_per_rank
    None None None None inverse_indices = Ok k ->
  wf k ->
  (regular k ->
   exists r,
     KJT.from_lengths_sync keys values L weights stride stride_per_key_per_rank
       inverse_indices = Ok (synced k)
     /\ KJT.from_offsets_sync keys values (_to_offsets L) weights stride
          stride_per_key_per_rank inverse_indices = Ok r
     /\ wf r /\ same_batch k r
     /\ KJT.lengths_or_none r = None
     /\ KJT.offsets_or_none r = Some (_to_offsets L)
     /\ KJT.length_per_key_or_none r = KJT.length_per_key_or_none (synced k)
     /\ KJT.offset_per_key_or_none r = KJT.offset_per_key_or_none (synced k))
  /\ (KJT.keys k <> [] -> KJT.variable_stride_per_key k = false -> KJT.stride k = 0 ->
      KJT.from_lengths_sync keys values L weights stride stride_per_key_per_rank
        inverse_indices = Ok (synced k)
      /\ KJT.from_offsets_sync keys values (_to_offsets L) weights stride
           stride_per_key_per_rank inverse_indices = Raise RuntimeError).
Proof.
  intros E1 H.
  destruct (init_by_offsets _ _ _ _ _ _ _ _ E1) as (sp & spk & v & s & Ek & E2).
  assert (HLi : is_int_dtype (t_dtype L) = true).
  { apply (wf_lengths_dtype k H L). by rewrite Ek. }
  specialize (E2 HLi).
  unfold KJT.from_lengths_sync, KJT.from_offsets_sync. rewrite E1, E2. cbn [bind].
  rewrite Ek in H.
  destruct (wf_from_offsets keys values weights L sp spk v s inverse_indices H)
    as [H2 Hrows2].
  rewrite <- Ek in H.
  set (k2 := KJT.mk keys values weights None (Some (_to_offsets L)) sp spk v s
               None None None None inverse_indices []) in *.
  split.
  - intros Hreg.
    assert (Hc2 : computable k2).
    { apply regular_computable. by rewrite Ek in Hreg. }
    exists (synced k2).
    rewrite (sync_spec k (H) (regular_computable k Hreg)), (sync_spec k2 H2 Hc2).
    split_and!; try done.
    + by apply wf_synced.
    + rewrite Ek. constructor; try done.
    + rewrite Ek. unfold synced. by rewrite Hrows2.
    + rewrite Ek. unfold synced. by rewrite Hrows2.
  - intros Hkeys Hv Hs. split.
    + apply sync_spec; [done|]. right; right.
      rewrite Ek in Hv |- *. cbn in Hv |- *. rewrite Hv. by right.
    + rewrite Ek in Hkeys, Hv, Hs. cbn in Hkeys, Hv, Hs. subst v s.
      assert (Hk0 : (py_len keys =? 0) = false).
      { apply Z.eqb_neq. unfold py_len. destruct keys; [done|]. cbn [length]. lia. }
      assert (Ho : (0 <? numel (_to_offsets L)) = true).
      { apply Z.ltb_lt. unfold numel, py_len. rewrite to_offsets_data, _cumsum_length. lia. }
      unfold KJT.sync, KJT.length_per_key, k2.
      cbn [KJT._keys KJT.stride KJT._stride KJT.stride_per_key KJT._stride_per_key
             KJT.variable_stride_per_key KJT._variable_stride_per_key
             KJT._length_per_key KJT._lengths KJT._offsets].
      unfold _maybe_compute_length_per_key. rewrite Hk0, Ho. done.
Qed.

Lemma X28_witness :
  exists r,
    KJT.from_offsets_sync ["F0"; "F1"]%string scenario_values (_to_offsets scenario_lengths)
      None (Some 3) None None = Ok r
    /\ wf r
    /\ KJT.length_per_key_or_none r = Some [3; 5]
    /\ KJT.offset_per_key_or_none r = Some [0; 3; 8].
Proof.
  destruct (X28_from_offsets_sync ["F0"; "F1"]%string scenario_values None scenario_lengths
              (Some 3) None None
              (KJT.mk ["F0"; "F1"]%string scenario_values None (Some scenario_lengths) None
                 [[3]; [3]] [3; 3] false 3 None None None None None []))
    as [Hreg _].
  - reflexivity.
  - apply wf_b_sound. vm_compute. reflexivity.
  - destruct Hreg as (r & _ & E & Hwf & _ & _ & _ & Hl & Ho).
    + right. cbn. lia.
    + exists r. split_and!; [exact E|exact Hwf|exact Hl|exact Ho].
Defined.

(** ** dist_init, per-rank strides *)









(** ** kjt_is_equal on one batch and on different keys *)




